(** * 5x7 dot-matrix shield firmware (main.c): scheduler and message decoder

    A shallow embedding of [main.c]: the mode decoder [SetMode], the message
    decoder [DisplayMessage], the sleep controller [GoToSleep], one pass of
    the main loop and the system-timer interrupt [ISR(TIMER0_COMPB_vect)].

    Conventions.
    - A [uint8_t] is a [Z] in [0, 256); every assignment that can leave the
      range is written with its wrap-around ([u8]).
    - A pointer into EEPROM is a 16-bit address, a [Z] in [0, 65536);
      [ee_adr++] is [ptr_inc].
    - The drawing backend ([dmPrintChar], [dmPrintByte], ...), the busy-wait
      delays and the power-down instruction are external: a call is recorded,
      in program order, in the [calls] log of the machine state.
    - The macros and tables that [main.c] takes from [config.h],
      [dot_matrix.h] and [animations.h] are the fields of the classes
      [Config] and [Tables]: the development holds for every header that
      meets the hypotheses stated where they are used. *)

From Stdlib Require Import ZArith List Bool Lia.
Import ListNotations.
Local Open Scope Z_scope.

(** ** Bytes and EEPROM addresses *)

Definition u8 (x : Z) : Z := x mod 256.

Definition is_byte (x : Z) : Prop := 0 <= x < 256.

(** [swap(x)]: the AVR [swap] instruction exchanges the two nibbles of a
    register. *)
Definition swap (x : Z) : Z :=
  Z.lor (Z.land (Z.shiftl x 4) 240) (Z.land (Z.shiftr x 4) 15).

Definition ptr_inc (a : Z) : Z := (a + 1) mod 65536.

Definition ptr_add (a n : Z) : Z := (a + n) mod 65536.

(** The EEPROM is read-only at run time: a map from address to cell. *)
Definition eeprom := Z -> Z.

Definition eeprom_read_byte (ee : eeprom) (a : Z) : Z := u8 (ee a).

(** ASCII codes used by the decoder. *)
Definition ch_tilde : Z := 126.
Definition ch_caret : Z := 94.
Definition ch_A : Z := 65.

(** ** Constants of the included headers *)

(** [config.h]: push-button states and timing. *)
Class Config : Type := {
  PB_MASK : Z;
  PB_PRESS : Z;
  PB_RELEASE : Z;
  PB_LONGPRESS : Z;
  PB_ACK : Z;
  PB_LONGPRESS_DELAY : Z;
  OCR0B_CYCLE_TIME : Z
}.

(** [dot_matrix.h], [animations.h] and the message store: the two
    conversion tables in flash, the animation table and the EEPROM address
    of the first message. *)
Class Tables : Type := {
  dly_conv : list Z;
  spd_conv : list Z;
  ANIMATION_COUNT : Z;
  animation : Z -> Z;
  messages : Z
}.

Inductive direction : Type := FORWARD | BIDIRECTIONAL.

(** ** Calls to the outside *)

Inductive call : Type :=
| dmSetScrolling (inc : Z) (dir : direction) (dly : Z)
| dmClearDisplay
| dmPrintChar (ch : Z)
| dmPrintByte (col : Z)
| dmDisplayImage (img : Z)
| dmScroll
| delay_ms (ms : Z)
| set_sleep_mode_PWR_DOWN
| sleep_mode.

(** ** Machine state: globals, ISR statics, the I/O registers used, and the
    log of calls (oldest first) *)

Record machine : Type := mkMachine {
  scroll_speed : Z;
  button : Z;
  msg_ptr : Z;
  scroll_timer : Z;
  pb_timer : Z;
  OCR0B : Z;
  PCIFR : Z;
  PCMSK2 : Z;
  PCICR : Z;
  calls : list call
}.

Definition set_scroll_speed (v : Z) (s : machine) : machine :=
  mkMachine v (button s) (msg_ptr s) (scroll_timer s) (pb_timer s)
            (OCR0B s) (PCIFR s) (PCMSK2 s) (PCICR s) (calls s).

Definition set_button (v : Z) (s : machine) : machine :=
  mkMachine (scroll_speed s) v (msg_ptr s) (scroll_timer s) (pb_timer s)
            (OCR0B s) (PCIFR s) (PCMSK2 s) (PCICR s) (calls s).

Definition set_msg_ptr (v : Z) (s : machine) : machine :=
  mkMachine (scroll_speed s) (button s) v (scroll_timer s) (pb_timer s)
            (OCR0B s) (PCIFR s) (PCMSK2 s) (PCICR s) (calls s).

Definition set_scroll_timer (v : Z) (s : machine) : machine :=
  mkMachine (scroll_speed s) (button s) (msg_ptr s) v (pb_timer s)
            (OCR0B s) (PCIFR s) (PCMSK2 s) (PCICR s) (calls s).

Definition set_pb_timer (v : Z) (s : machine) : machine :=
  mkMachine (scroll_speed s) (button s) (msg_ptr s) (scroll_timer s) v
            (OCR0B s) (PCIFR s) (PCMSK2 s) (PCICR s) (calls s).

Definition set_OCR0B (v : Z) (s : machine) : machine :=
  mkMachine (scroll_speed s) (button s) (msg_ptr s) (scroll_timer s)
            (pb_timer s) v (PCIFR s) (PCMSK2 s) (PCICR s) (calls s).

Definition set_PCIFR (v : Z) (s : machine) : machine :=
  mkMachine (scroll_speed s) (button s) (msg_ptr s) (scroll_timer s)
            (pb_timer s) (OCR0B s) v (PCMSK2 s) (PCICR s) (calls s).

Definition set_PCMSK2 (v : Z) (s : machine) : machine :=
  mkMachine (scroll_speed s) (button s) (msg_ptr s) (scroll_timer s)
            (pb_timer s) (OCR0B s) (PCIFR s) v (PCICR s) (calls s).

Definition set_PCICR (v : Z) (s : machine) : machine :=
  mkMachine (scroll_speed s) (button s) (msg_ptr s) (scroll_timer s)
            (pb_timer s) (OCR0B s) (PCIFR s) (PCMSK2 s) v (calls s).

Definition set_calls (l : list call) (s : machine) : machine :=
  mkMachine (scroll_speed s) (button s) (msg_ptr s) (scroll_timer s)
            (pb_timer s) (OCR0B s) (PCIFR s) (PCMSK2 s) (PCICR s) l.

Definition add_calls (l : list call) (s : machine) : machine :=
  set_calls (calls s ++ l) s.

(** ** Results and the monad of the main context

    A table read outside the table and a loop that has not ended when the
    fuel is used up are results of their own. *)

Inductive res (A : Type) : Type :=
| Ok (a : A)
| OutOfBounds
| OutOfFuel.

Arguments Ok {A} a.
Arguments OutOfBounds {A}.
Arguments OutOfFuel {A}.

Definition M (A : Type) : Type := machine -> res (A * machine).

Definition ret {A : Type} (a : A) : M A := fun s => Ok (a, s).

Definition bind {A B : Type} (c : M A) (k : A -> M B) : M B :=
  fun s =>
    match c s with
    | Ok (a, s') => k a s'
    | OutOfBounds => OutOfBounds
    | OutOfFuel => OutOfFuel
    end.

Notation "x <- c ;; k" := (bind c (fun x => k))
  (at level 61, c at next level, right associativity).
Notation "c ;;; k" := (bind c (fun _ => k))
  (at level 61, right associativity).

Definition modify (f : machine -> machine) : M unit := fun s => Ok (tt, f s).

Definition get {A : Type} (f : machine -> A) : M A := fun s => Ok (f s, s).

Definition emit (c : call) : M unit := modify (add_calls [c]).

(** [pgm_read_byte(&tbl[i])] *)
Definition pgm_read_byte (tbl : list Z) (i : Z) : M Z :=
  fun s =>
    match nth_error tbl (Z.to_nat i) with
    | Some v => Ok (u8 v, s)
    | None => OutOfBounds
    end.

Section Firmware.

Context {cfg : Config} {tbl : Tables}.

(** ** SetMode (main.c, lines 121-133) *)

Definition mode_inc (mode : Z) : Z :=
  if Z.land mode 8 =? 0 then 1 else 5.

Definition mode_dir (mode : Z) : direction :=
  if Z.land mode 128 =? 0 then FORWARD else BIDIRECTIONAL.

Definition mode_spd (mode : Z) : Z := Z.land mode 7.

Definition mode_dly (mode : Z) : Z := Z.land (swap mode) 7.

Definition SetMode (mode : Z) : M unit :=
  let inc := mode_inc mode in
  let dir := mode_dir mode in
  let spd := mode_spd mode in
  let dly := mode_dly mode in
  d <- pgm_read_byte dly_conv dly ;;
  emit (dmSetScrolling inc dir d) ;;;
  v <- pgm_read_byte spd_conv spd ;;
  modify (set_scroll_speed v).

(** ** DisplayMessage (main.c, lines 157-198) *)

(** The inner loop of direct mode (lines 178-181); [ch] is the byte read
    last and [ee_adr] the address after it.  Returns the address after the
    closing 0xFF. *)
Fixpoint direct_mode (fuel : nat) (ee : eeprom) (ch ee_adr : Z) : M Z :=
  match fuel with
  | O => fun _ => OutOfFuel
  | S fuel' =>
      if ch =? 255 then ret ee_adr
      else
        emit (dmPrintByte ch) ;;;
        direct_mode fuel' ee (eeprom_read_byte ee ee_adr) (ptr_inc ee_adr)
  end.

(** The three branches of the loop body (lines 167-191) for the first byte
    [ch] of a unit; returns the address of the first byte not consumed. *)
Definition decode_unit (fuel : nat) (ee : eeprom) (ch ee_adr : Z) : M Z :=
  if ch =? ch_tilde then
    let ch1 := eeprom_read_byte ee ee_adr in
    (if ch1 =? ch_tilde then ret tt
     else
       let idx := u8 (ch1 - ch_A) in
       if idx <? ANIMATION_COUNT then emit (dmDisplayImage (animation idx))
       else ret tt) ;;;
    ret (ptr_inc ee_adr)
  else if ch =? 255 then
    direct_mode fuel ee (eeprom_read_byte ee ee_adr) (ptr_inc ee_adr)
  else if ch =? ch_caret then
    let ch1 := eeprom_read_byte ee ee_adr in
    let ch2 := if ch1 =? ch_caret then ch1 else u8 (ch1 + 63) in
    emit (dmPrintChar ch2) ;;;
    ret (ptr_inc ee_adr)
  else
    emit (dmPrintChar ch) ;;;
    ret ee_adr.

(** The outer [while (ch)] loop (lines 166-194).  Returns the address after
    the terminator. *)
Fixpoint message_loop (fuel : nat) (ee : eeprom) (ch ee_adr : Z) : M Z :=
  match fuel with
  | O => fun _ => OutOfFuel
  | S fuel' =>
      if ch =? 0 then ret ee_adr
      else
        a <- decode_unit fuel' ee ch ee_adr ;;
        let ch' := eeprom_read_byte ee a in
        (if ch' =? 0 then ret tt else emit (dmPrintByte 0)) ;;;
        message_loop fuel' ee ch' (ptr_inc a)
  end.

Definition DisplayMessage (fuel : nat) (ee : eeprom) (ee_adr : Z) : M Z :=
  SetMode (eeprom_read_byte ee ee_adr) ;;;
  let ee_adr := ptr_inc ee_adr in
  emit dmClearDisplay ;;;
  a <- message_loop fuel ee (eeprom_read_byte ee ee_adr) (ptr_inc ee_adr) ;;
  if eeprom_read_byte ee a =? 0 then ret messages else ret a.

(** ** GoToSleep (main.c, lines 208-221) *)

(** Bit numbers of the pin-change interrupt registers (avr/io.h, ATmega328P). *)
Definition PCIF2 : Z := 2.
Definition PCINT16 : Z := 0.
Definition PCIE2 : Z := 2.

Definition _BV (bit : Z) : Z := Z.shiftl 1 bit.

Definition GoToSleep (fuel : nat) (ee : eeprom) : M unit :=
  emit dmClearDisplay ;;;
  emit (delay_ms 1000) ;;;
  modify (fun s => set_PCIFR (u8 (Z.lor (PCIFR s) (_BV PCIF2))) s) ;;;
  modify (set_PCMSK2 (_BV PCINT16)) ;;;
  modify (set_PCICR (_BV PCIE2)) ;;;
  emit set_sleep_mode_PWR_DOWN ;;;
  emit sleep_mode ;;;
  modify (set_PCICR 0) ;;;
  emit (dmPrintChar 131) ;;;
  emit (delay_ms 500) ;;;
  a <- DisplayMessage fuel ee messages ;;
  modify (set_msg_ptr a).

(** ** main (lines 236-255): the start-up after the hardware is set up, and
    one pass of the [while(1)] body

    [button] is volatile and the timer interrupt, enabled from line 232 on,
    rewrites it between any two statements of [main].  A read of [button]
    in the main context gives what the interrupt left there, so the start-up
    and [main_loop_pass_reads] take the value of each read as an argument;
    the [button] of the state they return is the byte [main] wrote last.
    [main_loop_pass] is the pass in which no interrupt is taken: each read
    gives the byte of the state. *)

Definition acknowledge : M unit :=
  modify (fun s => set_button (u8 (Z.lor (button s) PB_ACK)) s).

(** [button |= PB_ACK] when the read of [button] gives [b]. *)
Definition acknowledge_read (b : Z) : M unit :=
  modify (set_button (u8 (Z.lor b PB_ACK))).

(** Lines 236-238; [ack] is what the read in line 238 gives. *)
Definition main_start (fuel : nat) (ee : eeprom) (ack : Z) : M unit :=
  GoToSleep fuel ee ;;;
  emit (dmPrintChar 131) ;;;
  acknowledge_read ack.

(** Lines 242-253; [test1] and [test2] are what the reads of the two [if]
    give, [ack1] and [ack2] what the reads of the two [button |= PB_ACK]
    give (a read in a branch not taken does not happen). *)
Definition main_loop_pass_reads (fuel : nat) (ee : eeprom)
           (test1 ack1 test2 ack2 : Z) : M unit :=
  (if test1 =? PB_RELEASE then
     p <- get msg_ptr ;;
     a <- DisplayMessage fuel ee p ;;
     modify (set_msg_ptr a) ;;;
     acknowledge_read ack1
   else ret tt) ;;;
  if test2 =? PB_LONGPRESS then
    emit dmClearDisplay ;;;
    emit (dmPrintChar 130) ;;;
    emit (delay_ms 500) ;;;
    GoToSleep fuel ee ;;;
    acknowledge_read ack2
  else ret tt.

Definition main_loop_pass (fuel : nat) (ee : eeprom) : M unit :=
  b <- get button ;;
  (if b =? PB_RELEASE then
     p <- get msg_ptr ;;
     a <- DisplayMessage fuel ee p ;;
     modify (set_msg_ptr a) ;;;
     acknowledge
   else ret tt) ;;;
  b <- get button ;;
  if b =? PB_LONGPRESS then
    emit dmClearDisplay ;;;
    emit (dmPrintChar 130) ;;;
    emit (delay_ms 500) ;;;
    GoToSleep fuel ee ;;;
    acknowledge
  else ret tt.

(** ** ISR(TIMER0_COMPB_vect) (main.c, lines 272-315)

    [pin] is the value read from [PB_PIN] in this tick. *)

Definition scroll_tick (s : machine) : machine :=
  if scroll_timer s =? 0 then
    add_calls [dmScroll] (set_scroll_timer (scroll_speed s) s)
  else set_scroll_timer (scroll_timer s - 1) s.

Definition pb_sample (pin : Z) : Z := Z.land (u8 (Z.lnot pin)) PB_MASK.

Definition button_tick (pin : Z) (s : machine) : machine :=
  let temp := pb_sample pin in
  if temp =? 0 then
    if Z.land (button s) PB_PRESS =? 0 then s
    else set_button (u8 (Z.land (button s) (Z.lnot (Z.lor PB_PRESS PB_ACK)))) s
  else
    if Z.land (button s) PB_PRESS =? 0 then
      set_pb_timer (u8 PB_LONGPRESS_DELAY) (set_button (u8 PB_PRESS) s)
    else if button s =? PB_PRESS then
      if pb_timer s =? 0 then set_button (u8 PB_LONGPRESS) s
      else set_pb_timer (pb_timer s - 1) s
    else s.

Definition ISR_TIMER0_COMPB (pin : Z) (s : machine) : machine :=
  let s := set_OCR0B (u8 (OCR0B s + OCR0B_CYCLE_TIME)) s in
  let s := scroll_tick s in
  button_tick pin s.

(** The handler run over a sequence of samples, one per system tick. *)
Fixpoint run_ticks (pins : list Z) (s : machine) : machine :=
  match pins with
  | [] => s
  | pin :: rest => run_ticks rest (ISR_TIMER0_COMPB pin s)
  end.

(** The button event byte after each tick. *)
Fixpoint button_trace (pins : list Z) (s : machine) : list Z :=
  match pins with
  | [] => []
  | pin :: rest =>
      let s' := ISR_TIMER0_COMPB pin s in
      button s' :: button_trace rest s'
  end.

(** For each tick, whether the handler issued a scroll step in it. *)
Fixpoint scroll_trace (pins : list Z) (s : machine) : list bool :=
  match pins with
  | [] => []
  | pin :: rest =>
      let s' := ISR_TIMER0_COMPB pin s in
      (length (calls s) <? length (calls s'))%nat :: scroll_trace rest s'
  end.

Definition pressed (pin : Z) : Prop := pb_sample pin <> 0.

Definition not_pressed (pin : Z) : Prop := pb_sample pin = 0.

End Firmware.

(** What the header must provide for the button states to be told apart:
    the constants fit a byte, the release event is the byte left when the
    press and acknowledge bits are cleared from [PB_PRESS], an acknowledged
    byte does not read as pressed, and a long press still reads as pressed
    and keeps a bit of its own. *)
Definition config_ok {cfg : Config} : Prop :=
  is_byte PB_PRESS /\ is_byte PB_LONGPRESS /\ is_byte PB_ACK
  /\ is_byte PB_LONGPRESS_DELAY
  /\ PB_RELEASE = 0
  /\ PB_PRESS <> 0
  /\ Z.land PB_ACK PB_PRESS = 0
  /\ PB_LONGPRESS <> PB_PRESS
  /\ Z.land PB_LONGPRESS PB_PRESS <> 0
  /\ u8 (Z.land PB_LONGPRESS (Z.lnot (Z.lor PB_PRESS PB_ACK))) <> 0.

(** The event byte left when the button is let go after a long press. *)
Definition after_longpress {cfg : Config} : Z :=
  u8 (Z.land PB_LONGPRESS (Z.lnot (Z.lor PB_PRESS PB_ACK))).

(** How often the event byte changes to the value [ev] along a trace that
    starts after the value [prev]. *)
Fixpoint issued (ev prev : Z) (trace : list Z) : nat :=
  match trace with
  | [] => 0
  | b :: rest =>
      Nat.add (if Z.eqb b ev && negb (Z.eqb prev ev) then 1%nat else 0%nat)
              (issued ev b rest)
  end.

(** ** The message format, as the decoder reads it

    A message is a mode byte, the encodings of its units and a zero.  A unit
    is what one turn of the outer loop consumes. *)

Inductive unit_ : Type :=
| Plain (c : Z)               (* one byte, drawn through the font *)
| Special (x : Z)             (* '^' x *)
| Anim (x : Z)                (* '~' x *)
| Direct (cols : list Z).     (* 0xFF cols 0xFF *)

Definition encode_unit (u : unit_) : list Z :=
  match u with
  | Plain c => [c]
  | Special x => [ch_caret; x]
  | Anim x => [ch_tilde; x]
  | Direct cols => 255 :: cols ++ [255]
  end.

Definition encode_units (us : list unit_) : list Z :=
  flat_map encode_unit us.

Definition plain_byte (c : Z) : Prop :=
  is_byte c /\ c <> 0 /\ c <> ch_tilde /\ c <> ch_caret /\ c <> 255.

Definition unit_ok (u : unit_) : Prop :=
  match u with
  | Plain c => plain_byte c
  | Special x => is_byte x
  | Anim x => is_byte x
  | Direct cols => Forall (fun b => is_byte b /\ b <> 255) cols
  end.

(** The bytes [bs] are what the decoder reads from address [a] onwards. *)
Fixpoint stored (ee : eeprom) (a : Z) (bs : list Z) : Prop :=
  match bs with
  | [] => True
  | b :: rest => eeprom_read_byte ee a = b /\ stored ee (ptr_inc a) rest
  end.

Section Format.

Context {tbl : Tables}.

(** What one unit draws. *)
Definition unit_calls (u : unit_) : list call :=
  match u with
  | Plain c => [dmPrintChar c]
  | Special x =>
      [dmPrintChar (if x =? ch_caret then ch_caret else u8 (x + 63))]
  | Anim x =>
      if x =? ch_tilde then []
      else if u8 (x - ch_A) <? ANIMATION_COUNT
           then [dmDisplayImage (animation (u8 (x - ch_A)))]
           else []
  | Direct cols => map dmPrintByte cols
  end.

(** The draws of the units in order, one narrow space between two
    neighbours. *)
Fixpoint spaced (us : list unit_) : list call :=
  match us with
  | [] => []
  | u :: rest =>
      unit_calls u ++
      match rest with
      | [] => []
      | _ :: _ => dmPrintByte 0 :: spaced rest
      end
  end.

(** The separator the decoder puts next to a unit: nothing where no unit
    follows (or precedes), one narrow space otherwise. *)
Definition gap (us : list unit_) : list call :=
  match us with
  | [] => []
  | _ :: _ => [dmPrintByte 0]
  end.

(** What [SetMode] does when both tables have their eight entries. *)
Definition SetMode_effect (mode : Z) (s : machine) : machine :=
  set_scroll_speed (u8 (nth (Z.to_nat (mode_spd mode)) spd_conv 0))
    (add_calls [dmSetScrolling (mode_inc mode) (mode_dir mode)
                  (u8 (nth (Z.to_nat (mode_dly mode)) dly_conv 0))] s).

(** The calls every message starts with: the scrolling parameters of its
    mode byte, then the display is cleared. *)
Definition preamble (mode : Z) : list call :=
  [dmSetScrolling (mode_inc mode) (mode_dir mode)
     (u8 (nth (Z.to_nat (mode_dly mode)) dly_conv 0));
   dmClearDisplay].

(** The cursor after a message of [n] content bytes at [c]: the address
    after the terminator when the byte there is not zero, the first message
    otherwise. *)
Definition next_cursor (ee : eeprom) (c : Z) (n : nat) : Z :=
  let a := ptr_add c (Z.of_nat n + 2) in
  if eeprom_read_byte ee a =? 0 then messages else a.

End Format.

(** The draws of a message of plain bytes, written out: a character per
    byte and a narrow space before every byte but the first. *)
Fixpoint plain_draws (bs : list Z) : list call :=
  match bs with
  | [] => []
  | b :: rest =>
      dmPrintChar b ::
      match rest with
      | [] => []
      | _ :: _ => dmPrintByte 0 :: plain_draws rest
      end
  end.

Definition is_char_draw (c : call) : bool :=
  match c with dmPrintChar _ => true | _ => false end.

Definition is_space_draw (c : call) : bool :=
  match c with dmPrintByte col => col =? 0 | _ => false end.

(** The mode byte put together again from its four fields. *)
Definition encode_mode (inc : Z) (dir : direction) (dly spd : Z) : Z :=
  Z.lor (Z.lor (match dir with BIDIRECTIONAL => 128 | FORWARD => 0 end)
               (Z.shiftl dly 4))
        (Z.lor (if inc =? 5 then 8 else 0) spd).

(** A memory image placed at address 0; cells beyond it read as erased. *)
Definition image (bs : list Z) : eeprom :=
  fun a => nth (Z.to_nat a) bs 255.

Definition reset_state {cfg : Config} : machine :=
  mkMachine 8 PB_ACK 0 1 0 0 0 0 0 [].

(** The value a run returned, when it ended. *)
Definition result_value {A : Type} (r : res (A * machine)) : option A :=
  match r with
  | Ok (a, _) => Some a
  | _ => None
  end.

(** The machine state a run ended in, when it ended. *)
Definition result_state {A : Type} (r : res (A * machine)) : option machine :=
  match r with
  | Ok (_, s) => Some s
  | _ => None
  end.

(** ** Further vocabulary for the properties of the whole program *)

(** The calls the message decoder can make after the preamble. *)
Definition is_content_draw (c : call) : bool :=
  match c with
  | dmPrintChar _ | dmPrintByte _ | dmDisplayImage _ => true
  | _ => false
  end.

(** [s'] differs from [s] at most in the scroll speed and in calls added at
    the end of the log. *)
Definition display_only (s s' : machine) : Prop :=
  button s' = button s /\ msg_ptr s' = msg_ptr s
  /\ scroll_timer s' = scroll_timer s /\ pb_timer s' = pb_timer s
  /\ OCR0B s' = OCR0B s /\ PCIFR s' = PCIFR s /\ PCMSK2 s' = PCMSK2 s
  /\ PCICR s' = PCICR s.

(** The effect of a returning run of a decoder loop: the log grows by
    content draws, the rest is as in [display_only]. *)
Definition draws_only (s s' : machine) : Prop :=
  display_only s s' /\ scroll_speed s' = scroll_speed s
  /\ exists l : list call,
       calls s' = calls s ++ l /\ forallb is_content_draw l = true.

(** Every 8-bit variable of the machine holds a byte. *)
Definition uint8_state (s : machine) : Prop :=
  is_byte (scroll_speed s) /\ is_byte (button s)
  /\ is_byte (scroll_timer s) /\ is_byte (pb_timer s) /\ is_byte (OCR0B s).

(** Scroll steps among the ticks of a trace. *)
Definition scroll_steps (trace : list bool) : Z :=
  Z.of_nat (length (filter (fun b => b) trace)).

(** A message as stored: the mode byte, the units, the terminator. *)
Definition encode_message (m : Z * list unit_) : list Z :=
  fst m :: encode_units (snd m) ++ [0].

Definition message_ok (m : Z * list unit_) : Prop :=
  is_byte (fst m) /\ fst m <> 0 /\ Forall unit_ok (snd m).

(** The whole store: the messages back to back, then the zero mode byte
    that sends the player back to the first message. *)
Definition encode_store (ms : list (Z * list unit_)) : list Z :=
  flat_map encode_message ms ++ [0].

Section Playing.

Context {tbl : Tables}.

(** [n] short presses handled one after the other by the main loop:
    [msg_ptr = DisplayMessage(msg_ptr)], [n] times, from the cursor [c]. *)
Fixpoint play (n fuel : nat) (ee : eeprom) (c : Z) : M Z :=
  match n with
  | O => ret c
  | S n' => a <- DisplayMessage fuel ee c ;; play n' fuel ee a
  end.

(** The address of the message that follows the messages [before]. *)
Definition message_address (before : list (Z * list unit_)) : Z :=
  ptr_add messages (Z.of_nat (length (flat_map encode_message before))).

(** The calls made for the messages [ms], played in order. *)
Definition played (ms : list (Z * list unit_)) : list call :=
  flat_map (fun m => preamble (fst m) ++ spaced (snd m)) ms.

End Playing.

(** The event byte after the main loop has acknowledged a long press. *)
Definition acked_longpress {cfg : Config} : Z :=
  u8 (Z.lor PB_LONGPRESS PB_ACK).

(** The variables only the timer interrupt writes are the same in [s]
    and [s']. *)
Definition timers_kept (s s' : machine) : Prop :=
  button s' = button s /\ scroll_timer s' = scroll_timer s
  /\ pb_timer s' = pb_timer s /\ OCR0B s' = OCR0B s.

(** The samples of a row of presses: for each press the samples taken while
    the button is down, then the samples taken while it is up. *)
Definition press_samples (presses : list (list Z * list Z)) : list Z :=
  flat_map (fun c => fst c ++ snd c) presses.

(** A short press: the button is down for at least one and at most
    PB_LONGPRESS_DELAY + 1 samples, then up for at least one sample. *)
Definition short_click {cfg : Config} (c : list Z * list Z) : Prop :=
  fst c <> [] /\ Forall pressed (fst c)
  /\ Z.of_nat (length (fst c)) <= PB_LONGPRESS_DELAY + 1
  /\ snd c <> [] /\ Forall not_pressed (snd c).

(** ** InitHardware (main.c, lines 88-107) and ISR(TIMER0_COMPA_vect)
    (lines 263-269)

    The port and timer registers these two write, and the calls of the
    refresh interrupt into the display driver. *)

Class Board : Type := {
  DISP_MASK_B : Z;
  DISP_MASK_C : Z;
  DISP_MASK_D : Z;
  OCR0A_CYCLE_TIME : Z
}.

Inductive refresh_call : Type := dmDisplay.

Record ports : Type := mkPorts {
  DDRB : Z; DDRC : Z; DDRD : Z;
  PORTB : Z; PORTC : Z; PORTD : Z;
  TCCR0A : Z; TCCR0B : Z; OCR0A : Z; TIMSK0 : Z;
  refreshes : list refresh_call
}.

(** Bit numbers of the timer 0 registers (avr/io.h, ATmega328P). *)
Definition CS00 : Z := 0.
Definition CS02 : Z := 2.
Definition OCIE0A : Z := 1.
Definition OCIE0B : Z := 2.

Section Hardware.

Context {cfg : Config} {brd : Board}.

Definition InitHardware (p : ports) (s : machine) : ports * machine :=
  let ddrb := u8 DISP_MASK_B in
  let ddrc := u8 DISP_MASK_C in
  let ddrd := u8 DISP_MASK_D in
  let portb := u8 (Z.lor (PORTB p) (Z.lnot DISP_MASK_B)) in
  let portc := u8 (Z.lor (PORTC p) (Z.lnot DISP_MASK_C)) in
  let portd := u8 (Z.lor (PORTD p) (Z.lnot DISP_MASK_D)) in
  (mkPorts ddrb ddrc ddrd portb portc portd
           0 (u8 (Z.lor (_BV CS02) (_BV CS00)))
           (u8 OCR0A_CYCLE_TIME)
           (u8 (Z.lor (_BV OCIE0B) (_BV OCIE0A)))
           (refreshes p),
   set_OCR0B (u8 OCR0B_CYCLE_TIME) s).

Definition ISR_TIMER0_COMPA (p : ports) : ports :=
  mkPorts (DDRB p) (DDRC p) (DDRD p) (PORTB p) (PORTC p) (PORTD p)
          (TCCR0A p) (TCCR0B p) (u8 (OCR0A p + OCR0A_CYCLE_TIME)) (TIMSK0 p)
          (refreshes p ++ [dmDisplay]).

(** The refresh interrupt taken [n] times. *)
Fixpoint run_refresh (n : nat) (p : ports) : ports :=
  match n with
  | O => p
  | S n' => run_refresh n' (ISR_TIMER0_COMPA p)
  end.

End Hardware.

(** ** A sample configuration

    One choice of values for the header constants, used to run the model on
    concrete inputs. *)

Definition sample_config : Config :=
  {| PB_MASK := 1; PB_PRESS := 1; PB_RELEASE := 0; PB_LONGPRESS := 3;
     PB_ACK := 128; PB_LONGPRESS_DELAY := 2; OCR0B_CYCLE_TIME := 16 |}.

Definition sample_tables : Tables :=
  {| dly_conv := [0; 4; 8; 16; 32; 64; 128; 255];
     spd_conv := [60; 50; 40; 30; 20; 10; 5; 2];
     ANIMATION_COUNT := 3;
     animation := fun i => 1024 + 64 * i;
     messages := 0 |}.

Definition sample_board : Board :=
  {| DISP_MASK_B := 63; DISP_MASK_C := 15; DISP_MASK_D := 252;
     OCR0A_CYCLE_TIME := 8 |}.

Definition sample_ports : ports := mkPorts 0 0 0 0 0 0 0 0 0 0 [].

(** Tables cut short, to run the model into a read outside a table. *)
Definition short_tables : Tables :=
  {| dly_conv := [0; 4; 8; 16];
     spd_conv := [60; 50; 40; 30; 20; 10; 5; 2];
     ANIMATION_COUNT := 3;
     animation := fun i => 1024 + 64 * i;
     messages := 0 |}.

(** An erased EEPROM. *)
Definition erased : eeprom := fun _ => 255.

(** The reset state after the message [5, 'A', 0] was played, and after a
    sleep that ended with it. *)
Definition sample_played : machine :=
  mkMachine 10 128 0 1 0 0 0 0 0
    [dmSetScrolling 1 FORWARD 0; dmClearDisplay; dmPrintChar 65].

Definition sample_woken : machine :=
  mkMachine 10 128 0 1 0 0 4 1 0
    [dmClearDisplay; delay_ms 1000; set_sleep_mode_PWR_DOWN; sleep_mode;
     dmPrintChar 131; delay_ms 500;
     dmSetScrolling 1 FORWARD 0; dmClearDisplay; dmPrintChar 65].

(** * Properties *)

(** ** Bytes *)

Lemma u8_small (x : Z) : is_byte x -> u8 x = x.
Proof. unfold is_byte, u8. intros H. apply Z.mod_small. exact H. Qed.

Lemma u8_is_byte (x : Z) : is_byte (u8 x).
Proof. unfold is_byte, u8. apply Z.mod_pos_bound. lia. Qed.

(** A property checked on the 256 bytes holds of every byte. *)
Lemma byte_cases (P : Z -> bool) :
  forallb P (map Z.of_nat (seq 0 256)) = true ->
  forall x, is_byte x -> P x = true.
Proof.
  intros Hall x Hx.
  rewrite forallb_forall in Hall. apply Hall.
  apply in_map_iff. exists (Z.to_nat x). split.
  - apply Z2Nat.id. apply Hx.
  - apply in_seq. unfold is_byte in Hx. lia.
Qed.

Lemma land_7_mod (x : Z) : Z.land x 7 = x mod 8.
Proof. change 7 with (Z.ones 3). rewrite Z.land_ones by lia. reflexivity. Qed.

(** ** The monad *)

Lemma bind_Ok {A B : Type} (c : M A) (k : A -> M B) (s s' : machine) (a : A) :
  c s = Ok (a, s') -> bind c k s = k a s'.
Proof. intros H. unfold bind. rewrite H. reflexivity. Qed.

Lemma add_calls_nil (s : machine) : add_calls [] s = s.
Proof. destruct s. unfold add_calls, set_calls. simpl. rewrite app_nil_r. reflexivity. Qed.

Lemma add_calls_add_calls (l1 l2 : list call) (s : machine) :
  add_calls l2 (add_calls l1 s) = add_calls (l1 ++ l2) s.
Proof. destruct s. unfold add_calls, set_calls. simpl. rewrite app_assoc. reflexivity. Qed.

Lemma calls_add_calls (l : list call) (s : machine) :
  calls (add_calls l s) = calls s ++ l.
Proof. reflexivity. Qed.

Lemma calls_set_PCIFR (v : Z) (s : machine) : calls (set_PCIFR v s) = calls s.
Proof. reflexivity. Qed.

Lemma calls_set_PCMSK2 (v : Z) (s : machine) : calls (set_PCMSK2 v s) = calls s.
Proof. reflexivity. Qed.

Lemma calls_set_PCICR (v : Z) (s : machine) : calls (set_PCICR v s) = calls s.
Proof. reflexivity. Qed.

Lemma calls_set_msg_ptr (v : Z) (s : machine) : calls (set_msg_ptr v s) = calls s.
Proof. reflexivity. Qed.

Lemma msg_ptr_set_msg_ptr (v : Z) (s : machine) : msg_ptr (set_msg_ptr v s) = v.
Proof. reflexivity. Qed.

Lemma modify_run (f : machine -> machine) (s : machine) :
  modify f s = Ok (tt, f s).
Proof. reflexivity. Qed.

Lemma emit_run (c : call) (s : machine) : emit c s = Ok (tt, add_calls [c] s).
Proof. reflexivity. Qed.

Section ModeDecoder.

Context {tbl : Tables}.

Lemma mode_spd_range (mode : Z) : 0 <= mode_spd mode < 8.
Proof. unfold mode_spd. rewrite land_7_mod. apply Z.mod_pos_bound. lia. Qed.

Lemma mode_dly_range (mode : Z) : 0 <= mode_dly mode < 8.
Proof. unfold mode_dly. rewrite land_7_mod. apply Z.mod_pos_bound. lia. Qed.

Lemma pgm_read_byte_in_bounds (t : list Z) (i : Z) (s : machine) :
  0 <= i < Z.of_nat (length t) ->
  pgm_read_byte t i s = Ok (u8 (nth (Z.to_nat i) t 0), s).
Proof.
  intros Hi. unfold pgm_read_byte.
  assert (Hlt : (Z.to_nat i < length t)%nat) by lia.
  destruct (nth_error t (Z.to_nat i)) as [v|] eqn:E.
  - rewrite (nth_error_nth _ _ 0 E). reflexivity.
  - apply nth_error_None in E. lia.
Qed.

Lemma SetMode_run (mode : Z) (s : machine) :
  length dly_conv = 8%nat -> length spd_conv = 8%nat ->
  SetMode mode s = Ok (tt, SetMode_effect mode s).
Proof.
  intros Hd Hs. unfold SetMode.
  pose proof (mode_spd_range mode) as Rs.
  pose proof (mode_dly_range mode) as Rd.
  erewrite bind_Ok by (apply pgm_read_byte_in_bounds; rewrite Hd; lia).
  erewrite bind_Ok by apply emit_run.
  erewrite bind_Ok by (apply pgm_read_byte_in_bounds; rewrite Hs; lia).
  reflexivity.
Qed.

Lemma mode_fields (mode : Z) :
  is_byte mode ->
  mode_dir mode = (if Z.testbit mode 7 then BIDIRECTIONAL else FORWARD) /\
  mode_dly mode = (mode / 16) mod 8 /\
  mode_inc mode = (if Z.testbit mode 3 then 5 else 1) /\
  mode_spd mode = mode mod 8 /\
  encode_mode (mode_inc mode) (mode_dir mode) (mode_dly mode) (mode_spd mode)
    = mode.
Proof.
  intros Hm.
  pose (chk := fun m : Z =>
    match mode_dir m, Z.testbit m 7 with
    | BIDIRECTIONAL, true | FORWARD, false => true
    | _, _ => false
    end
    && (mode_dly m =? (m / 16) mod 8)
    && (mode_inc m =? (if Z.testbit m 3 then 5 else 1))
    && (mode_spd m =? m mod 8)
    && (encode_mode (mode_inc m) (mode_dir m) (mode_dly m) (mode_spd m) =? m)).
  assert (H : chk mode = true) by (apply byte_cases; [vm_compute; reflexivity | exact Hm]).
  unfold chk in H.
  repeat rewrite andb_true_iff in H.
  destruct H as [[[[Hdir Hdly] Hinc] Hspd] Henc].
  repeat split; try (apply Z.eqb_eq; assumption).
  destruct (mode_dir mode), (Z.testbit mode 7); try reflexivity; discriminate.
Qed.

(** C3: what SetMode does with a mode byte is a function of its bit
    fields.  With 8-entry tables, whatever they hold, SetMode returns after
    exactly one call dmSetScrolling(inc, dir, dly_conv[dly]) and with
    scroll_speed = spd_conv[spd], where dir is bit 7 of the byte, dly its
    bits 6-4, inc is 5 or 1 as bit 3 is set or not, and spd its bits 2-0;
    nothing else of the state changes; and the byte put together again from
    these four fields is the mode byte. *)
Theorem SetMode_fields_roundtrip (mode : Z) (s : machine) :
  is_byte mode ->
  length dly_conv = 8%nat -> length spd_conv = 8%nat ->
  let inc := if Z.testbit mode 3 then 5 else 1 in
  let dir := if Z.testbit mode 7 then BIDIRECTIONAL else FORWARD in
  let dly := (mode / 16) mod 8 in
  let spd := mode mod 8 in
  SetMode mode s
    = Ok (tt,
          set_scroll_speed (u8 (nth (Z.to_nat spd) spd_conv 0))
            (add_calls
               [dmSetScrolling inc dir (u8 (nth (Z.to_nat dly) dly_conv 0))]
               s))
  /\ mode_dir mode = dir
  /\ mode_dly mode = dly
  /\ mode_inc mode = inc
  /\ mode_spd mode = spd
  /\ encode_mode inc dir dly spd = mode.
Proof.
  intros Hm Hd Hs inc dir dly spd.
  destruct (mode_fields mode Hm) as (Hdir & Hdly & Hinc & Hspd & Henc).
  fold inc in Hinc. fold dir in Hdir. fold dly in Hdly. fold spd in Hspd.
  split; [|repeat split; try assumption].
  - rewrite (SetMode_run mode s Hd Hs). unfold SetMode_effect.
    rewrite Hdir, Hdly, Hinc, Hspd. reflexivity.
  - rewrite <- Hdir, <- Hdly, <- Hinc, <- Hspd. exact Henc.
Qed.

(** C10: the speed and delay indices are masked with 0x07, so both lie in
    0..7 and the reads of the 8-entry tables spd_conv and dly_conv are in
    bounds: SetMode never reads outside a table. *)
Theorem SetMode_table_reads_in_bounds (mode : Z) (s : machine) :
  length dly_conv = 8%nat -> length spd_conv = 8%nat ->
  mode_spd mode = Z.land mode 7 /\ mode_dly mode = Z.land (swap mode) 7 /\
  0 <= mode_spd mode < 8 /\ 0 <= mode_dly mode < 8 /\
  nth_error spd_conv (Z.to_nat (mode_spd mode)) <> None /\
  nth_error dly_conv (Z.to_nat (mode_dly mode)) <> None /\
  exists s', SetMode mode s = Ok (tt, s').
Proof.
  intros Hd Hs.
  pose proof (mode_spd_range mode) as Rs.
  pose proof (mode_dly_range mode) as Rd.
  repeat split; try lia.
  - intros E. apply nth_error_None in E. lia.
  - intros E. apply nth_error_None in E. lia.
  - eexists. apply SetMode_run; assumption.
Qed.

End ModeDecoder.

(** ** EEPROM addresses and stored bytes *)

Lemma ptr_inc_add1 (a : Z) : ptr_inc a = ptr_add a 1.
Proof. reflexivity. Qed.

Lemma ptr_add_add (a n m : Z) : ptr_add (ptr_add a n) m = ptr_add a (n + m).
Proof.
  unfold ptr_add. rewrite Z.add_mod_idemp_l by lia.
  f_equal. lia.
Qed.

Lemma ptr_inc_ptr_add (a n : Z) : ptr_inc (ptr_add a n) = ptr_add a (n + 1).
Proof. rewrite ptr_inc_add1. apply ptr_add_add. Qed.

Lemma ptr_add_ptr_inc (a n : Z) : ptr_add (ptr_inc a) n = ptr_add a (1 + n).
Proof. rewrite ptr_inc_add1. apply ptr_add_add. Qed.

Lemma ptr_inc_ptr_inc_eq (a : Z) : ptr_inc (ptr_inc a) = ptr_add a 2.
Proof. rewrite (ptr_inc_add1 a). apply ptr_inc_ptr_add. Qed.

Lemma stored_read (ee : eeprom) (a b : Z) (bs : list Z) :
  stored ee a (b :: bs) -> eeprom_read_byte ee a = b.
Proof. intros [H _]. exact H. Qed.

Lemma stored_tail (ee : eeprom) (a b : Z) (bs : list Z) :
  stored ee a (b :: bs) -> stored ee (ptr_inc a) bs.
Proof. intros [_ H]. exact H. Qed.

(** ** The message decoder *)

Section Decoder.

Context {tbl : Tables}.
Variable ee : eeprom.

Lemma direct_mode_run (cols : list Z) :
  forall (fuel : nat) (a : Z) (tail : list Z) (s : machine),
    Forall (fun b => is_byte b /\ b <> 255) cols ->
    stored ee a (cols ++ 255 :: tail) ->
    (length cols < fuel)%nat ->
    direct_mode fuel ee (eeprom_read_byte ee a) (ptr_inc a) s
      = Ok (ptr_add a (Z.of_nat (length cols) + 1),
            add_calls (map dmPrintByte cols) s)
    /\ stored ee (ptr_add a (Z.of_nat (length cols) + 1)) tail.
Proof.
  induction cols as [|c cols IH]; intros fuel a tail s Hok Hst Hfuel.
  - destruct fuel as [|fuel]; [simpl in Hfuel; lia|].
    simpl in Hst. destruct Hst as [Hrd Hst].
    simpl. rewrite Hrd. simpl. rewrite add_calls_nil.
    split; [reflexivity | exact Hst].
  - destruct fuel as [|fuel]; [simpl in Hfuel; lia|].
    inversion Hok as [|? ? [_ Hc] Hok']; subst.
    simpl in Hst. destruct Hst as [Hrd Hst].
    simpl direct_mode. rewrite Hrd.
    destruct (Z.eqb_spec c 255) as [E|_]; [contradiction|].
    erewrite bind_Ok by apply emit_run.
    simpl in Hfuel.
    destruct (IH fuel (ptr_inc a) tail (add_calls [dmPrintByte c] s) Hok' Hst)
      as [Hrun Htail]; [lia|].
    rewrite Hrun. rewrite add_calls_add_calls.
    rewrite ptr_add_ptr_inc.
    replace (Z.of_nat (length (c :: cols)) + 1)
      with (1 + (Z.of_nat (length cols) + 1)) by (simpl length; lia).
    split; [reflexivity|].
    rewrite ptr_add_ptr_inc in Htail. exact Htail.
Qed.

Lemma encode_unit_head (u : unit_) :
  unit_ok u -> exists b bs, encode_unit u = b :: bs /\ b <> 0.
Proof.
  destruct u as [c|x|x|cols]; simpl; intros H.
  - exists c, []. split; [reflexivity|]. apply H.
  - eexists _, _. split; [reflexivity|]. discriminate.
  - eexists _, _. split; [reflexivity|]. discriminate.
  - eexists _, _. split; [reflexivity|]. discriminate.
Qed.

Lemma decode_unit_run (u : unit_) (fuel : nat) (a : Z) (tail : list Z)
      (s : machine) :
  unit_ok u ->
  stored ee a (encode_unit u ++ tail) ->
  (length (encode_unit u) <= fuel)%nat ->
  decode_unit fuel ee (eeprom_read_byte ee a) (ptr_inc a) s
    = Ok (ptr_add a (Z.of_nat (length (encode_unit u))),
          add_calls (unit_calls u) s)
  /\ stored ee (ptr_add a (Z.of_nat (length (encode_unit u)))) tail.
Proof.
  intros Hok Hst Hfuel. unfold decode_unit.
  destruct u as [c|x|x|cols]; simpl encode_unit in *; simpl app in Hst.
  - (* a byte drawn through the font *)
    destruct Hok as (_ & _ & Ht & Hc & Hf).
    destruct Hst as [Hrd Hst]. rewrite Hrd.
    destruct (Z.eqb_spec c ch_tilde) as [E|_]; [contradiction|].
    destruct (Z.eqb_spec c 255) as [E|_]; [contradiction|].
    destruct (Z.eqb_spec c ch_caret) as [E|_]; [contradiction|].
    erewrite bind_Ok by apply emit_run.
    split; [reflexivity | exact Hst].
  - (* '^' x *)
    destruct Hst as [Hrd [Hrd1 Hst]]. rewrite Hrd, Hrd1.
    change (ch_caret =? ch_tilde) with false.
    change (ch_caret =? 255) with false.
    change (ch_caret =? ch_caret) with true. cbv iota.
    erewrite bind_Ok by apply emit_run.
    rewrite ptr_inc_ptr_inc_eq in *. simpl unit_calls.
    destruct (Z.eqb_spec x ch_caret) as [E|_]; [rewrite E|];
      (split; [reflexivity | exact Hst]).
  - (* '~' x *)
    destruct Hst as [Hrd [Hrd1 Hst]]. rewrite Hrd, Hrd1.
    change (ch_tilde =? ch_tilde) with true. cbv iota.
    simpl unit_calls.
    rewrite ptr_inc_ptr_inc_eq in *.
    destruct (x =? ch_tilde).
    + unfold bind, ret. rewrite add_calls_nil. split; [reflexivity | exact Hst].
    + destruct (u8 (x - ch_A) <? ANIMATION_COUNT).
      * erewrite bind_Ok by apply emit_run. split; [reflexivity | exact Hst].
      * unfold bind, ret. rewrite add_calls_nil.
        split; [reflexivity | exact Hst].
  - (* direct mode *)
    destruct Hst as [Hrd Hst]. rewrite Hrd.
    change (255 =? ch_tilde) with false.
    change (255 =? 255) with true. cbv iota.
    rewrite <- app_assoc in Hst. simpl app in Hst.
    simpl in Hfuel. rewrite length_app in Hfuel. simpl in Hfuel.
    destruct (direct_mode_run cols fuel (ptr_inc a) tail s Hok Hst) as [Hrun Htail];
      [lia|].
    rewrite Hrun. rewrite ptr_add_ptr_inc in *.
    replace (Z.of_nat (length (255 :: cols ++ [255])))
      with (1 + (Z.of_nat (length cols) + 1))
      by (simpl length; rewrite length_app; simpl length; lia).
    split; [reflexivity | exact Htail].
Qed.

Lemma stored_app_tail (l : list Z) :
  forall (a : Z) (tail : list Z),
    l <> [] ->
    stored ee a (l ++ tail) ->
    stored ee (ptr_add a (Z.of_nat (length l))) tail.
Proof.
  induction l as [|b l IH]; intros a tail Hne Hst; [contradiction|].
  destruct Hst as [_ Hst]. destruct l as [|b' l].
  - exact Hst.
  - apply IH in Hst; [|discriminate].
    rewrite ptr_add_ptr_inc in Hst.
    replace (Z.of_nat (length (b :: b' :: l)))
      with (1 + Z.of_nat (length (b' :: l))) by (simpl length; lia).
    exact Hst.
Qed.

Lemma message_loop_run (us : list unit_) :
  forall (fuel : nat) (a : Z) (s : machine),
    Forall unit_ok us ->
    stored ee a (encode_units us ++ [0]) ->
    (length (encode_units us) < fuel)%nat ->
    message_loop fuel ee (eeprom_read_byte ee a) (ptr_inc a) s
      = Ok (ptr_add a (Z.of_nat (length (encode_units us)) + 1),
            add_calls (spaced us) s).
Proof.
  induction us as [|u rest IH]; intros fuel a s Hok Hst Hfuel.
  - destruct fuel as [|fuel]; [simpl in Hfuel; lia|].
    simpl in Hst. destruct Hst as [Hrd _].
    simpl. rewrite Hrd. simpl. rewrite add_calls_nil. reflexivity.
  - destruct fuel as [|fuel]; [simpl in Hfuel; lia|].
    inversion Hok as [|? ? Hu Hrest]; subst.
    simpl encode_units in *. rewrite <- app_assoc in Hst.
    rewrite length_app in *.
    destruct (encode_unit_head u Hu) as (b & bs & Henc & Hb).
    assert (Hlen : (1 <= length (encode_unit u))%nat)
      by (rewrite Henc; simpl; lia).
    destruct (decode_unit_run u fuel a (flat_map encode_unit rest ++ [0]) s
                Hu Hst) as [Hrun Htail]; [lia|].
    assert (Hhead : eeprom_read_byte ee a = b)
      by (rewrite Henc in Hst; apply (stored_read _ _ _ _ Hst)).
    simpl message_loop. rewrite Hhead.
    destruct (Z.eqb_spec b 0) as [E|_]; [contradiction|].
    rewrite <- Hhead. erewrite bind_Ok by exact Hrun.
    set (a1 := ptr_add a (Z.of_nat (length (encode_unit u)))) in *.
    specialize (IH fuel a1).
    destruct rest as [|u' rest'].
    + (* the last unit: no space *)
      simpl in Htail. destruct Htail as [Hrd0 _].
      rewrite Hrd0. change (0 =? 0) with true. cbv iota.
      unfold bind at 1. unfold ret at 1.
      destruct fuel as [|fuel]; [exfalso; lia|].
      simpl. rewrite app_nil_r.
      unfold a1. rewrite ptr_inc_ptr_add.
      rewrite Nat.add_0_r. reflexivity.
    + (* one space, then the units that follow *)
      inversion Hrest as [|? ? Hu' _]; subst.
      destruct (encode_unit_head u' Hu') as (b' & bs' & Henc' & Hb').
      assert (Hnext : eeprom_read_byte ee a1 = b').
      { simpl flat_map in Htail. rewrite Henc' in Htail.
        apply (stored_read _ _ _ _ Htail). }
      rewrite Hnext.
      destruct (Z.eqb_spec b' 0) as [E|_]; [contradiction|].
      erewrite bind_Ok by apply emit_run.
      rewrite <- Hnext.
      rewrite IH; [|exact Hrest|exact Htail|lia].
      rewrite !add_calls_add_calls.
      unfold a1. rewrite ptr_add_add.
      change (spaced (u :: u' :: rest'))
        with (unit_calls u ++ [dmPrintByte 0] ++ spaced (u' :: rest')).
      replace (Z.of_nat (length (encode_unit u)) +
               (Z.of_nat (length (encode_units (u' :: rest'))) + 1))
        with (Z.of_nat (length (encode_unit u) +
                        length (encode_units (u' :: rest'))) + 1)
        by (rewrite Nat2Z.inj_add; lia).
      reflexivity.
Qed.

(** A well-formed message is decoded to its end: the call returns, the
    units are drawn in order with one space between neighbours, and the
    cursor returned is [next_cursor]. *)
Lemma DisplayMessage_decodes (mode : Z) (us : list unit_) (fuel : nat)
      (c : Z) (s : machine) :
  length dly_conv = 8%nat -> length spd_conv = 8%nat ->
  Forall unit_ok us ->
  stored ee c (mode :: encode_units us ++ [0]) ->
  (length (encode_units us) < fuel)%nat ->
  DisplayMessage fuel ee c s
    = Ok (next_cursor ee c (length (encode_units us)),
          add_calls (dmClearDisplay :: spaced us) (SetMode_effect mode s)).
Proof.
  intros Hd Hs Hok [Hmode Hst] Hfuel.
  unfold DisplayMessage. rewrite Hmode.
  erewrite bind_Ok by (apply SetMode_run; assumption).
  erewrite bind_Ok by apply emit_run.
  erewrite bind_Ok by (apply message_loop_run; eassumption).
  rewrite add_calls_add_calls. simpl app.
  rewrite ptr_add_ptr_inc.
  unfold next_cursor.
  replace (1 + (Z.of_nat (length (encode_units us)) + 1))
    with (Z.of_nat (length (encode_units us)) + 2) by lia.
  destruct (eeprom_read_byte ee _ =? 0); reflexivity.
Qed.

Lemma calls_after_message (mode : Z) (us : list unit_) (s : machine) :
  calls (add_calls (dmClearDisplay :: spaced us) (SetMode_effect mode s))
    = calls s ++ preamble mode ++ spaced us.
Proof.
  destruct s. unfold SetMode_effect, add_calls, set_calls, set_scroll_speed,
    preamble. simpl. rewrite <- app_assoc. reflexivity.
Qed.

Lemma spaced_cons (p : unit_) (l : list unit_) :
  spaced (p :: l) = unit_calls p ++ gap l ++ spaced l.
Proof. destruct l; reflexivity. Qed.

Lemma spaced_insert (pre : list unit_) (u : unit_) (post : list unit_) :
  spaced (pre ++ u :: post)
    = spaced pre ++ gap pre ++ unit_calls u ++ gap post ++ spaced post.
Proof.
  induction pre as [|p pre IH].
  - apply spaced_cons.
  - change ((p :: pre) ++ u :: post) with (p :: (pre ++ u :: post)).
    rewrite !spaced_cons, IH. rewrite <- !app_assoc.
    destruct pre as [|q pre]; reflexivity.
Qed.

End Decoder.

(** ** Claims on the message decoder *)

Section DecoderClaims.

Context {tbl : Tables}.
Variable ee : eeprom.
Hypothesis dly_conv_entries : length dly_conv = 8%nat.
Hypothesis spd_conv_entries : length spd_conv = 8%nat.

(** C2 (amended): a call of DisplayMessage on a message at [c] that is a
    mode byte, decoder units and a zero read where a unit would start (a
    zero after '^' or '~' or inside direct mode belongs to its unit)
    returns, after the mode byte, the content bytes and the terminator, the
    address after the terminator when the byte stored there is not zero, and
    the address of the first message otherwise; for the store
    [5, 'A', 0, 0] the call on the first message returns the address of the
    first message. *)
Theorem DisplayMessage_next_cursor :
  (forall (mode c : Z) (us : list unit_) (fuel : nat) (s : machine),
      Forall unit_ok us ->
      stored ee c (mode :: encode_units us ++ [0]) ->
      (length (encode_units us) < fuel)%nat ->
      let after :=
        ptr_add c (Z.of_nat (length (mode :: encode_units us ++ [0]))) in
      exists s',
        DisplayMessage fuel ee c s
          = Ok (if eeprom_read_byte ee after =? 0 then messages else after, s'))
  /\ (forall (fuel : nat) (s : machine),
         stored ee messages [5; ch_A; 0; 0] ->
         (1 < fuel)%nat ->
         exists s', DisplayMessage fuel ee messages s = Ok (messages, s')).
Proof.
  split.
  - intros mode c us fuel s Hok Hst Hfuel after.
    eexists.
    rewrite (DisplayMessage_decodes ee mode us fuel c s dly_conv_entries
               spd_conv_entries Hok Hst Hfuel).
    unfold next_cursor, after.
    replace (Z.of_nat (length (mode :: encode_units us ++ [0])))
      with (Z.of_nat (length (encode_units us)) + 2)
      by (simpl length; rewrite length_app; simpl length; lia).
    reflexivity.
  - intros fuel s Hst Hfuel.
    assert (Hok : Forall unit_ok [Plain ch_A]).
    { constructor; [|constructor]. unfold unit_ok, plain_byte, is_byte, ch_A,
        ch_tilde, ch_caret. lia. }
    assert (Hmsg : stored ee messages (5 :: encode_units [Plain ch_A] ++ [0])).
    { destruct Hst as (H5 & HA & Hz & _). simpl. auto. }
    eexists.
    rewrite (DisplayMessage_decodes ee 5 [Plain ch_A] fuel messages s
               dly_conv_entries spd_conv_entries Hok Hmsg Hfuel).
    unfold next_cursor. simpl length. simpl Z.of_nat.
    destruct Hst as (_ & _ & _ & H0 & _).
    rewrite ptr_inc_ptr_inc_eq, ptr_add_ptr_inc in H0.
    change (Z.of_nat 1 + 2) with (1 + 2). rewrite H0. reflexivity.
Qed.

(** C4 (amended): '^' followed by a byte X other than '^' draws exactly one
    character, with code (X + 63) mod 256, which is X + 63 for X <= 192;
    '^' '^' draws exactly one '^'. *)
Theorem caret_escape (mode c x : Z) (pre post : list unit_) (fuel : nat)
        (s : machine) :
  is_byte x ->
  Forall unit_ok pre -> Forall unit_ok post ->
  stored ee c (mode :: encode_units (pre ++ Special x :: post) ++ [0]) ->
  (length (encode_units (pre ++ Special x :: post)) < fuel)%nat ->
  exists (s' : machine) (code : Z),
    DisplayMessage fuel ee c s
      = Ok (next_cursor ee c
              (length (encode_units (pre ++ Special x :: post))), s')
    /\ calls s' = calls s ++ preamble mode ++ spaced pre ++ gap pre
                   ++ [dmPrintChar code] ++ gap post ++ spaced post
    /\ (x = ch_caret -> code = ch_caret)
    /\ (x <> ch_caret -> code = (x + 63) mod 256)
    /\ (x <> ch_caret -> x <= 192 -> code = x + 63).
Proof.
  intros Hx Hpre Hpost Hst Hfuel.
  assert (Hok : Forall unit_ok (pre ++ Special x :: post)).
  { apply Forall_app. split; [exact Hpre|]. constructor; assumption. }
  exists (add_calls (dmClearDisplay :: spaced (pre ++ Special x :: post))
                    (SetMode_effect mode s)).
  exists (if x =? ch_caret then ch_caret else u8 (x + 63)).
  split; [apply DisplayMessage_decodes; assumption|].
  split; [rewrite calls_after_message, spaced_insert; reflexivity|].
  destruct (Z.eqb_spec x ch_caret) as [E|E].
  - repeat split; intros; try reflexivity; contradiction.
  - repeat split; intros; try reflexivity; try contradiction.
    unfold u8. apply Z.mod_small. unfold is_byte in Hx. lia.
Qed.

(** C5: '~' followed by an upper-case letter X with X - 'A' below
    ANIMATION_COUNT draws the animation of index X - 'A'; '~' followed by a
    byte whose index is outside the table draws nothing; '~' '~' draws
    nothing; in each case the units that follow are decoded and the call
    returns, at the terminator. *)
Theorem tilde_escape (mode c x : Z) (pre post : list unit_) (fuel : nat)
        (s : machine) :
  is_byte x ->
  Forall unit_ok pre -> Forall unit_ok post ->
  stored ee c (mode :: encode_units (pre ++ Anim x :: post) ++ [0]) ->
  (length (encode_units (pre ++ Anim x :: post)) < fuel)%nat ->
  exists (s' : machine) (drawn : list call),
    DisplayMessage fuel ee c s
      = Ok (next_cursor ee c
              (length (encode_units (pre ++ Anim x :: post))), s')
    /\ calls s' = calls s ++ preamble mode ++ spaced pre ++ gap pre
                   ++ drawn ++ gap post ++ spaced post
    /\ (ch_A <= x <= 90 -> x - ch_A < ANIMATION_COUNT ->
        drawn = [dmDisplayImage (animation (x - ch_A))])
    /\ (ANIMATION_COUNT <= u8 (x - ch_A) -> drawn = [])
    /\ (x = ch_tilde -> drawn = []).
Proof.
  intros Hx Hpre Hpost Hst Hfuel.
  assert (Hok : Forall unit_ok (pre ++ Anim x :: post)).
  { apply Forall_app. split; [exact Hpre|]. constructor; assumption. }
  exists (add_calls (dmClearDisplay :: spaced (pre ++ Anim x :: post))
                    (SetMode_effect mode s)).
  exists (unit_calls (Anim x)).
  split; [apply DisplayMessage_decodes; assumption|].
  split; [rewrite calls_after_message, spaced_insert; reflexivity|].
  simpl unit_calls. repeat split.
  - intros Hup Hidx.
    assert (Hu : u8 (x - ch_A) = x - ch_A)
      by (apply u8_small; unfold is_byte, ch_A in *; lia).
    destruct (Z.eqb_spec x ch_tilde) as [E|_];
      [unfold ch_tilde in E; lia|].
    rewrite Hu. destruct (Z.ltb_spec (x - ch_A) ANIMATION_COUNT); [reflexivity|lia].
  - intros Hout. destruct (x =? ch_tilde); [reflexivity|].
    destruct (Z.ltb_spec (u8 (x - ch_A)) ANIMATION_COUNT); [lia|reflexivity].
  - intros E. rewrite E. reflexivity.
Qed.

(** C6: 0xFF enters direct mode: every following byte up to the next 0xFF
    is written as one raw column, with no escape read in it (a '~', a '^'
    or a zero inside is a column like any other, and a zero does not end
    the message); the closing 0xFF leaves direct mode, and the units after
    it are decoded as usual. *)
Theorem direct_mode_raw_columns (mode c : Z) (cols : list Z)
        (pre post : list unit_) (fuel : nat) (s : machine) :
  Forall (fun b => is_byte b /\ b <> 255) cols ->
  Forall unit_ok pre -> Forall unit_ok post ->
  stored ee c (mode :: encode_units pre ++ (255 :: cols ++ [255])
                 ++ encode_units post ++ [0]) ->
  (length (encode_units (pre ++ Direct cols :: post)) < fuel)%nat ->
  exists s' : machine,
    DisplayMessage fuel ee c s
      = Ok (next_cursor ee c
              (length (encode_units (pre ++ Direct cols :: post))), s')
    /\ calls s' = calls s ++ preamble mode ++ spaced pre ++ gap pre
                   ++ map dmPrintByte cols ++ gap post ++ spaced post.
Proof.
  intros Hcols Hpre Hpost Hst Hfuel.
  assert (Hok : Forall unit_ok (pre ++ Direct cols :: post)).
  { apply Forall_app. split; [exact Hpre|]. constructor; assumption. }
  assert (Henc : encode_units (pre ++ Direct cols :: post) ++ [0]
                 = encode_units pre ++ (255 :: cols ++ [255])
                     ++ encode_units post ++ [0]).
  { unfold encode_units. rewrite flat_map_app. simpl.
    rewrite <- !app_assoc. simpl. rewrite <- !app_assoc. reflexivity. }
  rewrite <- Henc in Hst.
  exists (add_calls (dmClearDisplay :: spaced (pre ++ Direct cols :: post))
                    (SetMode_effect mode s)).
  split; [apply DisplayMessage_decodes; assumption|].
  rewrite calls_after_message, spaced_insert. reflexivity.
Qed.

Lemma encode_units_plain (bs : list Z) : encode_units (map Plain bs) = bs.
Proof. induction bs as [|b bs IH]; simpl; [|rewrite IH]; reflexivity. Qed.

Lemma unit_ok_plain (bs : list Z) :
  Forall plain_byte bs -> Forall unit_ok (map Plain bs).
Proof. intros H. apply Forall_map. exact H. Qed.

Lemma spaced_plain (bs : list Z) : spaced (map Plain bs) = plain_draws bs.
Proof.
  induction bs as [|b bs IH]; [reflexivity|].
  simpl map. simpl spaced. rewrite IH. destruct bs; reflexivity.
Qed.

Lemma plain_draws_counts (bs : list Z) :
  length (filter is_char_draw (plain_draws bs)) = length bs
  /\ length (filter is_space_draw (plain_draws bs)) = (length bs - 1)%nat
  /\ length (plain_draws bs) = (length bs + (length bs - 1))%nat.
Proof.
  induction bs as [|b bs IH]; [repeat split; reflexivity|].
  destruct bs as [|b' bs]; [repeat split; reflexivity|].
  destruct IH as (Hc & Hs & Hl).
  change (plain_draws (b :: b' :: bs))
    with (dmPrintChar b :: dmPrintByte 0 :: plain_draws (b' :: bs)).
  simpl filter. simpl length in *.
  rewrite Hc, Hs, Hl. repeat split; lia.
Qed.

Lemma plain_draws_char (bs : list Z) :
  forall i : nat,
    (i < length bs)%nat ->
    nth_error (plain_draws bs) (2 * i) = Some (dmPrintChar (nth i bs 0)).
Proof.
  induction bs as [|b bs IH]; intros i Hi; [simpl in Hi; lia|].
  destruct i as [|i]; [reflexivity|].
  destruct bs as [|b' bs]; [simpl in Hi; lia|].
  change (plain_draws (b :: b' :: bs))
    with (dmPrintChar b :: dmPrintByte 0 :: plain_draws (b' :: bs)).
  replace (2 * S i)%nat with (S (S (2 * i))) by lia.
  simpl nth_error. simpl nth. apply IH. simpl in *. lia.
Qed.

Lemma plain_draws_space (bs : list Z) :
  forall i : nat,
    (i + 1 < length bs)%nat ->
    nth_error (plain_draws bs) (2 * i + 1) = Some (dmPrintByte 0).
Proof.
  induction bs as [|b bs IH]; intros i Hi; [simpl in Hi; lia|].
  destruct bs as [|b' bs]; [simpl in Hi; lia|].
  change (plain_draws (b :: b' :: bs))
    with (dmPrintChar b :: dmPrintByte 0 :: plain_draws (b' :: bs)).
  destruct i as [|i]; [reflexivity|].
  replace (2 * S i + 1)%nat with (S (S (2 * i + 1))) by lia.
  simpl nth_error. apply IH. simpl in *. lia.
Qed.

(** C7: the decoder puts exactly one narrow space (raw column 0) after each
    unit but the last of the message; a message of n content bytes with no
    escape character and no zero is drawn as n characters and n - 1 spaces,
    a space between two characters and none after the last. *)
Theorem narrow_space_between_units :
  (forall (mode c : Z) (pre : list unit_) (u : unit_) (post : list unit_)
          (fuel : nat) (s : machine),
      Forall unit_ok (pre ++ u :: post) ->
      stored ee c (mode :: encode_units (pre ++ u :: post) ++ [0]) ->
      (length (encode_units (pre ++ u :: post)) < fuel)%nat ->
      exists s' : machine,
        DisplayMessage fuel ee c s
          = Ok (next_cursor ee c (length (encode_units (pre ++ u :: post))),
                s')
        /\ calls s' = calls s ++ preamble mode ++ spaced pre ++ gap pre
                       ++ unit_calls u ++ gap post ++ spaced post
        /\ (post = [] -> gap post ++ spaced post = [])
        /\ (forall v post', post = v :: post' ->
              gap post ++ spaced post
                = dmPrintByte 0 :: unit_calls v ++ gap post' ++ spaced post'))
  /\ (forall (mode c : Z) (bs : list Z) (fuel : nat) (s : machine),
         Forall plain_byte bs ->
         stored ee c (mode :: bs ++ [0]) ->
         (length bs < fuel)%nat ->
         exists s' : machine,
           DisplayMessage fuel ee c s = Ok (next_cursor ee c (length bs), s')
           /\ calls s' = calls s ++ preamble mode ++ plain_draws bs
           /\ length (filter is_char_draw (plain_draws bs)) = length bs
           /\ length (filter is_space_draw (plain_draws bs))
                = (length bs - 1)%nat
           /\ length (plain_draws bs) = (length bs + (length bs - 1))%nat
           /\ (forall i : nat, (i < length bs)%nat ->
                 nth_error (plain_draws bs) (2 * i)
                   = Some (dmPrintChar (nth i bs 0)))
           /\ (forall i : nat, (i + 1 < length bs)%nat ->
                 nth_error (plain_draws bs) (2 * i + 1)
                   = Some (dmPrintByte 0))).
Proof.
  split.
  - intros mode c pre u post fuel s Hok Hst Hfuel.
    exists (add_calls (dmClearDisplay :: spaced (pre ++ u :: post))
                      (SetMode_effect mode s)).
    split; [apply DisplayMessage_decodes; assumption|].
    split; [rewrite calls_after_message, spaced_insert; reflexivity|].
    split.
    + intros E. rewrite E. reflexivity.
    + intros v post' E. rewrite E. rewrite spaced_cons. reflexivity.
  - intros mode c bs fuel s Hbs Hst Hfuel.
    pose proof (unit_ok_plain bs Hbs) as Hok.
    rewrite <- (encode_units_plain bs) in Hst, Hfuel.
    exists (add_calls (dmClearDisplay :: spaced (map Plain bs))
                      (SetMode_effect mode s)).
    split.
    + rewrite (DisplayMessage_decodes ee mode (map Plain bs) fuel c s
                 dly_conv_entries spd_conv_entries Hok Hst Hfuel).
      rewrite encode_units_plain. reflexivity.
    + split; [rewrite calls_after_message, spaced_plain; reflexivity|].
      destruct (plain_draws_counts bs) as (Hc & Hs & Hl).
      repeat split; auto using plain_draws_char, plain_draws_space.
Qed.

End DecoderClaims.

(** ** The system-timer interrupt *)

Lemma run_ticks_app {cfg : Config} (l1 l2 : list Z) :
  forall s, run_ticks (l1 ++ l2) s = run_ticks l2 (run_ticks l1 s).
Proof. induction l1 as [|p l1 IH]; intros s; simpl; [|rewrite IH]; reflexivity. Qed.

Lemma button_trace_app {cfg : Config} (l1 l2 : list Z) :
  forall s,
    button_trace (l1 ++ l2) s
      = button_trace l1 s ++ button_trace l2 (run_ticks l1 s).
Proof. induction l1 as [|p l1 IH]; intros s; simpl; [|rewrite IH]; reflexivity. Qed.

Lemma scroll_trace_app {cfg : Config} (l1 l2 : list Z) :
  forall s,
    scroll_trace (l1 ++ l2) s
      = scroll_trace l1 s ++ scroll_trace l2 (run_ticks l1 s).
Proof. induction l1 as [|p l1 IH]; intros s; simpl; [|rewrite IH]; reflexivity. Qed.

Section Scroll.

Context {cfg : Config}.

(** The button pass leaves the scroll state and the log alone. *)
Lemma button_tick_scroll (pin : Z) (s : machine) :
  scroll_timer (button_tick pin s) = scroll_timer s
  /\ scroll_speed (button_tick pin s) = scroll_speed s
  /\ calls (button_tick pin s) = calls s.
Proof.
  unfold button_tick.
  destruct (pb_sample pin =? 0), (Z.land (button s) PB_PRESS =? 0),
    (button s =? PB_PRESS), (pb_timer s =? 0); repeat split; reflexivity.
Qed.

Lemma ISR_scroll (pin : Z) (s : machine) :
  scroll_speed (ISR_TIMER0_COMPB pin s) = scroll_speed s
  /\ (scroll_timer s <> 0 ->
      scroll_timer (ISR_TIMER0_COMPB pin s) = scroll_timer s - 1
      /\ calls (ISR_TIMER0_COMPB pin s) = calls s)
  /\ (scroll_timer s = 0 ->
      scroll_timer (ISR_TIMER0_COMPB pin s) = scroll_speed s
      /\ calls (ISR_TIMER0_COMPB pin s) = calls s ++ [dmScroll]).
Proof.
  unfold ISR_TIMER0_COMPB. cbv zeta.
  destruct (button_tick_scroll pin
              (scroll_tick (set_OCR0B (u8 (OCR0B s + OCR0B_CYCLE_TIME)) s)))
    as (Ht & Hs & Hc).
  rewrite Ht, Hs, Hc. unfold scroll_tick. simpl.
  destruct (Z.eqb_spec (scroll_timer s) 0) as [E|E]; simpl;
    repeat split; intros; try reflexivity; contradiction.
Qed.

(** While the countdown runs no step is issued. *)
Lemma scroll_countdown (pins : list Z) :
  forall s,
    Z.of_nat (length pins) <= scroll_timer s ->
    scroll_trace pins s = repeat false (length pins)
    /\ scroll_timer (run_ticks pins s) = scroll_timer s - Z.of_nat (length pins)
    /\ scroll_speed (run_ticks pins s) = scroll_speed s
    /\ calls (run_ticks pins s) = calls s.
Proof.
  induction pins as [|pin pins IH]; intros s Hlen.
  - simpl. repeat split; try reflexivity. lia.
  - simpl length in *. simpl scroll_trace. simpl run_ticks.
    destruct (ISR_scroll pin s) as (Hs & Hdec & _).
    destruct Hdec as [Ht Hc]; [lia|].
    destruct (IH (ISR_TIMER0_COMPB pin s)) as (Htr & Ht' & Hs' & Hc'); [lia|].
    rewrite Htr, Ht', Hs', Hc', Ht, Hs, Hc.
    rewrite Nat.ltb_irrefl. repeat split; try reflexivity. lia.
Qed.

(** C8: with the speed s held constant, each tick decrements the scroll
    countdown while it is not zero; the tick that finds it at zero sets it
    to s again and issues exactly one scroll step; so from one scroll step
    to the next there are exactly s + 1 ticks. *)
Theorem scroll_step_cadence :
  (forall (pin : Z) (s : machine),
      scroll_speed (ISR_TIMER0_COMPB pin s) = scroll_speed s
      /\ (scroll_timer s <> 0 ->
          scroll_timer (ISR_TIMER0_COMPB pin s) = scroll_timer s - 1
          /\ calls (ISR_TIMER0_COMPB pin s) = calls s)
      /\ (scroll_timer s = 0 ->
          scroll_timer (ISR_TIMER0_COMPB pin s) = scroll_speed s
          /\ calls (ISR_TIMER0_COMPB pin s) = calls s ++ [dmScroll]))
  /\ (forall (pins : list Z) (pin : Z) (s : machine),
         scroll_timer s = scroll_speed s ->
         Z.of_nat (length pins) = scroll_speed s ->
         scroll_trace (pins ++ [pin]) s = repeat false (length pins) ++ [true]
         /\ calls (run_ticks (pins ++ [pin]) s) = calls s ++ [dmScroll]
         /\ scroll_timer (run_ticks (pins ++ [pin]) s) = scroll_speed s
         /\ scroll_speed (run_ticks (pins ++ [pin]) s) = scroll_speed s).
Proof.
  split; [exact ISR_scroll|].
  intros pins pin s Htimer Hlen.
  destruct (scroll_countdown pins s) as (Htr & Ht & Hs & Hc); [lia|].
  rewrite scroll_trace_app, run_ticks_app, Htr.
  simpl scroll_trace. simpl run_ticks.
  destruct (ISR_scroll pin (run_ticks pins s)) as (Hs' & _ & Hzero).
  destruct Hzero as [Ht' Hc']; [lia|].
  rewrite Ht', Hc', Hs', Hs, Hc.
  rewrite length_app. simpl length.
  replace (length (calls s) <? length (calls s) + 1)%nat with true
    by (symmetry; apply Nat.ltb_lt; lia).
  repeat split; reflexivity.
Qed.

End Scroll.

(** ** The push button *)

Lemma issued_cons (ev prev b : Z) (l : list Z) :
  issued ev prev (b :: l)
    = Nat.add (if Z.eqb b ev && negb (Z.eqb prev ev) then 1%nat else 0%nat)
              (issued ev b l).
Proof. reflexivity. Qed.

Lemma issued_repeat (ev prev x : Z) (n : nat) (l : list Z) :
  issued ev prev (repeat x (S n) ++ l)
    = Nat.add (if Z.eqb x ev && negb (Z.eqb prev ev) then 1%nat else 0%nat)
              (issued ev x l).
Proof.
  revert prev. induction n as [|n IH]; intros prev.
  - reflexivity.
  - change (repeat x (S (S n)) ++ l) with (x :: (repeat x (S n) ++ l)).
    rewrite issued_cons, IH.
    destruct (x =? ev); simpl; lia.
Qed.

Lemma issued_nil (ev prev : Z) : issued ev prev [] = 0%nat.
Proof. reflexivity. Qed.

Lemma cleared_bits (b p a : Z) :
  Z.land (u8 (Z.land b (Z.lnot (Z.lor p a)))) p = 0.
Proof.
  apply Z.bits_inj'. intros n Hn.
  rewrite Z.land_spec, Z.bits_0. unfold u8. change 256 with (2 ^ 8).
  destruct (Z.ltb_spec n 8) as [Hlt|Hge].
  - rewrite Z.mod_pow2_bits_low by lia.
    rewrite Z.land_spec, Z.lnot_spec, Z.lor_spec by lia.
    destruct (Z.testbit b n), (Z.testbit p n), (Z.testbit a n); reflexivity.
  - rewrite Z.mod_pow2_bits_high by lia. reflexivity.
Qed.

Lemma cleared_self (p a : Z) : u8 (Z.land p (Z.lnot (Z.lor p a))) = 0.
Proof.
  replace (Z.land p (Z.lnot (Z.lor p a))) with 0; [reflexivity|].
  symmetry. apply Z.bits_inj'. intros n Hn.
  rewrite Z.land_spec, Z.lnot_spec, Z.lor_spec, Z.bits_0 by lia.
  destruct (Z.testbit p n), (Z.testbit a n); reflexivity.
Qed.

Section Button.

Context {cfg : Config}.
Hypothesis Hcfg : config_ok.

Lemma scroll_tick_button (s : machine) :
  button (scroll_tick s) = button s /\ pb_timer (scroll_tick s) = pb_timer s.
Proof. unfold scroll_tick. destruct (scroll_timer s =? 0); split; reflexivity. Qed.

Lemma before_button_tick (v : Z) (s : machine) :
  button (scroll_tick (set_OCR0B v s)) = button s
  /\ pb_timer (scroll_tick (set_OCR0B v s)) = pb_timer s.
Proof. destruct (scroll_tick_button (set_OCR0B v s)) as [Hb Ht]. rewrite Hb, Ht. split; reflexivity. Qed.

(** The four moves of the handler on a pressed sample. *)
Lemma ISR_pressed (pin : Z) (s : machine) :
  pressed pin ->
  (Z.land (button s) PB_PRESS = 0 ->
   button (ISR_TIMER0_COMPB pin s) = PB_PRESS
   /\ pb_timer (ISR_TIMER0_COMPB pin s) = PB_LONGPRESS_DELAY)
  /\ (button s = PB_PRESS -> pb_timer s <> 0 ->
      button (ISR_TIMER0_COMPB pin s) = PB_PRESS
      /\ pb_timer (ISR_TIMER0_COMPB pin s) = pb_timer s - 1)
  /\ (button s = PB_PRESS -> pb_timer s = 0 ->
      button (ISR_TIMER0_COMPB pin s) = PB_LONGPRESS)
  /\ (button s = PB_LONGPRESS ->
      button (ISR_TIMER0_COMPB pin s) = PB_LONGPRESS).
Proof.
  destruct Hcfg as (Bp & Bl & Ba & Bd & Hrel & Hp0 & Hack & Hlp & Hlpp & Hal).
  intros Hpin. unfold pressed in Hpin.
  unfold ISR_TIMER0_COMPB. cbv zeta.
  set (s1 := scroll_tick (set_OCR0B (u8 (OCR0B s + OCR0B_CYCLE_TIME)) s)).
  assert (Hb : button s1 = button s) by apply before_button_tick.
  assert (Ht : pb_timer s1 = pb_timer s) by apply before_button_tick.
  unfold button_tick. cbv zeta. rewrite Hb, Ht.
  destruct (Z.eqb_spec (pb_sample pin) 0) as [E|_]; [contradiction|].
  split; [intros Hup | split; [intros Hdn Htm | split; [intros Hdn Htm | intros Hlg]]].
  - rewrite Hup. simpl. split; apply u8_small; assumption.
  - rewrite Hdn, Z.land_diag.
    destruct (Z.eqb_spec PB_PRESS 0) as [E|_]; [contradiction|].
    rewrite Z.eqb_refl.
    destruct (Z.eqb_spec (pb_timer s) 0) as [E|_]; [contradiction|].
    simpl. rewrite Hb. split; [exact Hdn | reflexivity].
  - rewrite Hdn, Z.land_diag.
    destruct (Z.eqb_spec PB_PRESS 0) as [E|_]; [contradiction|].
    rewrite Z.eqb_refl, Htm. simpl. apply u8_small; assumption.
  - rewrite Hlg.
    destruct (Z.eqb_spec (Z.land PB_LONGPRESS PB_PRESS) 0) as [E|_];
      [contradiction|].
    destruct (Z.eqb_spec PB_LONGPRESS PB_PRESS) as [E|_]; [contradiction|].
    rewrite Hb. exact Hlg.
Qed.

(** The two moves on a sample that is not pressed. *)
Lemma ISR_not_pressed (pin : Z) (s : machine) :
  not_pressed pin ->
  (Z.land (button s) PB_PRESS = 0 ->
   button (ISR_TIMER0_COMPB pin s) = button s)
  /\ (Z.land (button s) PB_PRESS <> 0 ->
      button (ISR_TIMER0_COMPB pin s)
        = u8 (Z.land (button s) (Z.lnot (Z.lor PB_PRESS PB_ACK)))).
Proof.
  intros Hpin. unfold not_pressed in Hpin.
  unfold ISR_TIMER0_COMPB. cbv zeta.
  set (s1 := scroll_tick (set_OCR0B (u8 (OCR0B s + OCR0B_CYCLE_TIME)) s)).
  assert (Hb : button s1 = button s) by apply before_button_tick.
  unfold button_tick. cbv zeta. rewrite Hb, Hpin. simpl (0 =? 0).
  split; intros H.
  - rewrite H. simpl. exact Hb.
  - destruct (Z.eqb_spec (Z.land (button s) PB_PRESS) 0) as [E|_];
      [contradiction|].
    reflexivity.
Qed.

(** The button is held and the timer runs. *)
Lemma hold_countdown (pins : list Z) :
  forall s,
    Forall pressed pins ->
    button s = PB_PRESS ->
    Z.of_nat (length pins) <= pb_timer s ->
    button_trace pins s = repeat PB_PRESS (length pins)
    /\ button (run_ticks pins s) = PB_PRESS
    /\ pb_timer (run_ticks pins s) = pb_timer s - Z.of_nat (length pins).
Proof.
  induction pins as [|pin pins IH]; intros s Hpins Hb Hlen.
  - simpl. repeat split; [exact Hb | lia].
  - inversion Hpins as [|? ? Hpin Hpins']; subst.
    simpl length in *. simpl button_trace. simpl run_ticks.
    destruct (ISR_pressed pin s Hpin) as (_ & Hdec & _).
    destruct (Hdec Hb) as [Hb' Ht']; [lia|].
    destruct (IH (ISR_TIMER0_COMPB pin s) Hpins' Hb') as (Htr & Hbr & Htm);
      [lia|].
    rewrite Htr, Hbr, Htm, Hb', Ht'. repeat split; try reflexivity. lia.
Qed.

(** The button is held on after the long press was issued. *)
Lemma hold_longpress (pins : list Z) :
  forall s,
    Forall pressed pins ->
    button s = PB_LONGPRESS ->
    button_trace pins s = repeat PB_LONGPRESS (length pins)
    /\ button (run_ticks pins s) = PB_LONGPRESS.
Proof.
  induction pins as [|pin pins IH]; intros s Hpins Hb.
  - simpl. split; [reflexivity | exact Hb].
  - inversion Hpins as [|? ? Hpin Hpins']; subst.
    simpl length. simpl button_trace. simpl run_ticks.
    destruct (ISR_pressed pin s Hpin) as (_ & _ & _ & Hlp).
    specialize (Hlp Hb).
    destruct (IH (ISR_TIMER0_COMPB pin s) Hpins' Hlp) as (Htr & Hbr).
    rewrite Htr, Hbr, Hlp. split; reflexivity.
Qed.

(** The button is up and the event byte does not read as pressed. *)
Lemma stay_up (pins : list Z) :
  forall s,
    Forall not_pressed pins ->
    Z.land (button s) PB_PRESS = 0 ->
    button_trace pins s = repeat (button s) (length pins)
    /\ button (run_ticks pins s) = button s.
Proof.
  induction pins as [|pin pins IH]; intros s Hpins Hb.
  - simpl. split; reflexivity.
  - inversion Hpins as [|? ? Hpin Hpins']; subst.
    simpl length. simpl button_trace. simpl run_ticks.
    destruct (ISR_not_pressed pin s Hpin) as (Hsame & _).
    specialize (Hsame Hb).
    destruct (IH (ISR_TIMER0_COMPB pin s) Hpins') as (Htr & Hbr);
      [rewrite Hsame; exact Hb|].
    rewrite Htr, Hbr, Hsame. split; reflexivity.
Qed.

(** Letting go: the first sample that is not pressed clears the press and
    acknowledge bits, the samples after it change nothing. *)
Lemma let_go (pins : list Z) (s : machine) :
  Forall not_pressed pins ->
  Z.land (button s) PB_PRESS <> 0 ->
  pins <> [] ->
  button_trace pins s
    = repeat (u8 (Z.land (button s) (Z.lnot (Z.lor PB_PRESS PB_ACK))))
             (length pins)
  /\ button (run_ticks pins s)
       = u8 (Z.land (button s) (Z.lnot (Z.lor PB_PRESS PB_ACK))).
Proof.
  intros Hpins Hb Hne. destruct pins as [|pin pins]; [contradiction|].
  inversion Hpins as [|? ? Hpin Hpins']; subst.
  simpl length. simpl button_trace. simpl run_ticks.
  destruct (ISR_not_pressed pin s Hpin) as (_ & Hclr).
  specialize (Hclr Hb).
  destruct (stay_up pins (ISR_TIMER0_COMPB pin s) Hpins') as (Htr & Hbr);
    [rewrite Hclr; apply cleared_bits|].
  rewrite Htr, Hbr, Hclr. split; reflexivity.
Qed.

(** A press that is let go before the timer has run out. *)
Lemma short_press (pin : Z) (rest up : list Z) (s : machine) :
  Z.land (button s) PB_PRESS = 0 ->
  Forall pressed (pin :: rest) -> Forall not_pressed up -> up <> [] ->
  Z.of_nat (length rest) <= PB_LONGPRESS_DELAY ->
  button_trace ((pin :: rest) ++ up) s
    = repeat PB_PRESS (S (length rest)) ++ repeat 0 (length up)
  /\ button (run_ticks ((pin :: rest) ++ up) s) = 0.
Proof.
  intros Hidle Hdown Hup Hne Hlen.
  inversion Hdown as [|? ? Hpin Hrest]; subst.
  destruct (ISR_pressed pin s Hpin) as (Harm & _).
  destruct (Harm Hidle) as [Hb1 Ht1].
  destruct (hold_countdown rest (ISR_TIMER0_COMPB pin s) Hrest Hb1)
    as (Htr & Hb2 & _); [lia|].
  destruct Hcfg as (_ & _ & _ & _ & _ & Hp0 & _).
  destruct (let_go up (run_ticks rest (ISR_TIMER0_COMPB pin s)) Hup)
    as (Htr3 & Hb3); [rewrite Hb2, Z.land_diag; exact Hp0 | exact Hne |].
  rewrite Hb2, cleared_self in Htr3, Hb3.
  change ((pin :: rest) ++ up) with (pin :: (rest ++ up)).
  simpl button_trace. simpl run_ticks.
  rewrite button_trace_app, run_ticks_app, Htr, Htr3, Hb1, Hb3.
  split; reflexivity.
Qed.

(** A press held until the timer has run out: the long press is issued in
    the tick after the countdown has reached zero. *)
Lemma long_press (pin : Z) (rest up : list Z) (s : machine) :
  Z.land (button s) PB_PRESS = 0 ->
  Forall pressed (pin :: rest) -> Forall not_pressed up -> up <> [] ->
  PB_LONGPRESS_DELAY < Z.of_nat (length rest) ->
  button_trace ((pin :: rest) ++ up) s
    = repeat PB_PRESS (S (Z.to_nat PB_LONGPRESS_DELAY))
      ++ repeat PB_LONGPRESS (length rest - Z.to_nat PB_LONGPRESS_DELAY)
      ++ repeat after_longpress (length up)
  /\ button (run_ticks ((pin :: rest) ++ up) s) = after_longpress.
Proof.
  intros Hidle Hdown Hup Hne Hlen.
  pose proof Hcfg as (_ & _ & _ & Bd & _ & _ & _ & _ & Hlpp & _).
  unfold is_byte in Bd.
  set (d := Z.to_nat PB_LONGPRESS_DELAY).
  inversion Hdown as [|? ? Hpin Hrest]; subst.
  rewrite <- (firstn_skipn d rest) in Hrest.
  apply Forall_app in Hrest. destruct Hrest as [Hfirst Hlast].
  assert (Hlf : length (firstn d rest) = d)
    by (rewrite length_firstn; unfold d; lia).
  assert (Hls : length (skipn d rest) = (length rest - d)%nat)
    by apply length_skipn.
  destruct (skipn d rest) as [|pin2 rest2] eqn:Eskip;
    [simpl in Hls; unfold d in Hls; lia|].
  inversion Hlast as [|? ? Hpin2 Hrest2]; subst.
  destruct (ISR_pressed pin s Hpin) as (Harm & _).
  destruct (Harm Hidle) as [Hb1 Ht1].
  set (s1 := ISR_TIMER0_COMPB pin s) in *.
  destruct (hold_countdown (firstn d rest) s1 Hfirst Hb1)
    as (Htr2 & Hb2 & Ht2); [rewrite Hlf, Ht1; unfold d; lia|].
  set (s2 := run_ticks (firstn d rest) s1) in *.
  destruct (ISR_pressed pin2 s2 Hpin2) as (_ & _ & Hfire & _).
  assert (Hb3 : button (ISR_TIMER0_COMPB pin2 s2) = PB_LONGPRESS)
    by (apply Hfire; [exact Hb2 | rewrite Ht2, Hlf, Ht1; unfold d; lia]).
  set (s3 := ISR_TIMER0_COMPB pin2 s2) in *.
  destruct (hold_longpress rest2 s3 Hrest2 Hb3) as (Htr4 & Hb4).
  set (s4 := run_ticks rest2 s3) in *.
  destruct (let_go up s4 Hup) as (Htr5 & Hb5);
    [rewrite Hb4; exact Hlpp | exact Hne |].
  rewrite Hb4 in Htr5, Hb5. fold after_longpress in Htr5, Hb5.
  assert (Hsplit : (pin :: rest) ++ up
                   = pin :: (firstn d rest ++ (pin2 :: rest2 ++ up))).
  { rewrite <- (firstn_skipn d rest) at 1. rewrite Eskip.
    simpl. rewrite <- app_assoc. reflexivity. }
  rewrite Hsplit.
  simpl button_trace. simpl run_ticks. fold s1.
  rewrite button_trace_app, run_ticks_app. fold s2.
  simpl button_trace. simpl run_ticks. fold s3.
  rewrite button_trace_app, run_ticks_app. fold s4.
  rewrite Htr2, Htr4, Htr5, Hb1, Hb3, Hb5, Hlf.
  split; [|reflexivity].
  rewrite <- Hls. reflexivity.
Qed.

Lemma states_apart :
  (PB_PRESS =? 0) = false /\ (PB_PRESS =? PB_LONGPRESS) = false
  /\ (PB_LONGPRESS =? 0) = false /\ (0 =? PB_LONGPRESS) = false
  /\ (after_longpress =? 0) = false
  /\ (after_longpress =? PB_LONGPRESS) = false.
Proof.
  destruct Hcfg as (_ & _ & _ & _ & _ & Hp0 & _ & Hlp & Hlpp & Hal).
  assert (Hl0 : PB_LONGPRESS <> 0)
    by (intros E; apply Hlpp; rewrite E; apply Z.land_0_l).
  assert (Hle : after_longpress <> PB_LONGPRESS).
  { intros E. apply Hlpp. rewrite <- E. apply cleared_bits. }
  repeat split; apply Z.eqb_neq; auto.
Qed.

(** C1 (amended): from the acknowledged idle state, N >= 1 pressed samples
    followed by M >= 1 samples that are not pressed issue the long-press
    event if and only if N >= PB_LONGPRESS_DELAY + 2, and the release event
    if and only if N <= PB_LONGPRESS_DELAY + 1; the event is issued exactly
    once and the other one not at all. *)
Theorem press_then_release (down up : list Z) (s : machine) :
  button s = PB_ACK ->
  Forall pressed down -> Forall not_pressed up ->
  down <> [] -> up <> [] ->
  let N := Z.of_nat (length down) in
  let tr := button_trace (down ++ up) s in
  (In PB_LONGPRESS tr <-> PB_LONGPRESS_DELAY + 2 <= N)
  /\ (In PB_RELEASE tr <-> N <= PB_LONGPRESS_DELAY + 1)
  /\ (PB_LONGPRESS_DELAY + 2 <= N ->
      issued PB_LONGPRESS (button s) tr = 1%nat
      /\ issued PB_RELEASE (button s) tr = 0%nat
      /\ button (run_ticks (down ++ up) s) = after_longpress)
  /\ (N <= PB_LONGPRESS_DELAY + 1 ->
      issued PB_RELEASE (button s) tr = 1%nat
      /\ issued PB_LONGPRESS (button s) tr = 0%nat
      /\ button (run_ticks (down ++ up) s) = PB_RELEASE).
Proof.
  intros Hidle Hdown Hup Hdne Hune N tr.
  pose proof Hcfg as (_ & _ & _ & Bd & Hrel & Hp0 & Hack & Hlp & Hlpp & Hal).
  destruct states_apart as (Ep0 & Epl & El0 & E0l & Ea0 & Eal).
  unfold is_byte in Bd. rewrite Hrel.
  destruct down as [|pin rest]; [contradiction|].
  assert (Hland : Z.land (button s) PB_PRESS = 0) by (rewrite Hidle; exact Hack).
  assert (HN : N = Z.of_nat (length rest) + 1) by (unfold N; simpl length; lia).
  assert (Hm : exists m', length up = S m')
    by (destruct up; [contradiction | eexists; reflexivity]).
  destruct Hm as [m' Hm].
  destruct (Z_le_gt_dec (Z.of_nat (length rest)) PB_LONGPRESS_DELAY) as [Hs|Hl].
  - (* let go in time *)
    destruct (short_press pin rest up s Hland Hdown Hup Hune Hs) as [Htr Hfin].
    fold tr in Htr. rewrite Hm in Htr.
    assert (Hno : ~ In PB_LONGPRESS tr).
    { rewrite Htr. intros Hin. apply in_app_or in Hin.
      destruct Hin as [Hin|Hin]; apply repeat_spec in Hin.
      - apply Hlp. exact Hin.
      - apply Z.eqb_neq in El0. contradiction. }
    split; [split; [intros Hin; contradiction | intros; lia]|].
    split; [split; [intros; lia | intros _]|].
    { rewrite Htr. apply in_or_app. right. left. reflexivity. }
    split; [intros; lia|]. intros _.
    rewrite Htr, Hfin.
    rewrite <- (app_nil_r (repeat 0 (S m'))).
    rewrite !issued_repeat, !issued_nil.
    rewrite Ep0, Epl, E0l. simpl. repeat split; reflexivity.
  - (* held until the long press *)
    destruct (long_press pin rest up s Hland Hdown Hup Hune) as [Htr Hfin];
      [lia|].
    fold tr in Htr. rewrite Hm in Htr.
    set (d := Z.to_nat PB_LONGPRESS_DELAY) in *.
    assert (Hk : (length rest - d = S (length rest - d - 1))%nat)
      by (unfold d; lia).
    rewrite Hk in Htr.
    assert (Hno : ~ In 0 tr).
    { rewrite Htr. intros Hin. apply in_app_or in Hin.
      destruct Hin as [Hin|Hin]; [|apply in_app_or in Hin; destruct Hin as [Hin|Hin]];
        apply repeat_spec in Hin.
      - apply Hp0. symmetry. exact Hin.
      - apply Z.eqb_neq in El0. apply El0. symmetry. exact Hin.
      - apply Z.eqb_neq in Ea0. apply Ea0. symmetry. exact Hin. }
    split; [split; [intros _; unfold d in *; lia | intros _]|].
    { rewrite Htr. apply in_or_app. right. apply in_or_app. left. left.
      reflexivity. }
    split; [split; [intros Hin; contradiction | intros; lia]|].
    split; [intros _ | intros; lia].
    rewrite Htr, Hfin.
    rewrite <- (app_nil_r (repeat after_longpress (S m'))).
    rewrite !issued_repeat, !issued_nil.
    rewrite Ep0, Epl, El0, Ea0, Eal, Z.eqb_refl. simpl.
    destruct (PB_PRESS =? PB_LONGPRESS); repeat split; reflexivity.
Qed.

End Button.

(** ** The sleep controller *)

Section Sleep.

Context {tbl : Tables}.
Variable ee : eeprom.
Hypothesis dly_conv_entries : length dly_conv = 8%nat.
Hypothesis spd_conv_entries : length spd_conv = 8%nat.

(** C9 (amended): whatever the cursor was before, GoToSleep returns after
    the wake-up with the first message of the store played and the cursor
    set to what DisplayMessage returned for it: the address after the
    terminator of the first message when a further message follows, and the
    first message when the byte there is zero. *)
Theorem GoToSleep_cursor (mode : Z) (us : list unit_) (fuel : nat)
        (s : machine) :
  Forall unit_ok us ->
  stored ee messages (mode :: encode_units us ++ [0]) ->
  (length (encode_units us) < fuel)%nat ->
  let after := ptr_add messages (Z.of_nat (length (encode_units us)) + 2) in
  exists s' : machine,
    GoToSleep fuel ee s = Ok (tt, s')
    /\ calls s' = calls s
                  ++ [dmClearDisplay; delay_ms 1000; set_sleep_mode_PWR_DOWN;
                      sleep_mode; dmPrintChar 131; delay_ms 500]
                  ++ preamble mode ++ spaced us
    /\ (eeprom_read_byte ee after <> 0 -> msg_ptr s' = after)
    /\ (eeprom_read_byte ee after = 0 -> msg_ptr s' = messages)
    /\ (forall p : Z,
           exists s'' : machine,
             GoToSleep fuel ee (set_msg_ptr p s) = Ok (tt, s'')
             /\ msg_ptr s'' = msg_ptr s').
Proof.
  intros Hok Hst Hfuel after.
  assert (Hrun : forall s0 : machine,
    exists s1 : machine,
      GoToSleep fuel ee s0 = Ok (tt, s1)
      /\ msg_ptr s1 = next_cursor ee messages (length (encode_units us))
      /\ calls s1 = calls s0
                    ++ [dmClearDisplay; delay_ms 1000; set_sleep_mode_PWR_DOWN;
                        sleep_mode; dmPrintChar 131; delay_ms 500]
                    ++ preamble mode ++ spaced us).
  { intros s0. unfold GoToSleep.
    do 10 (erewrite bind_Ok by (apply emit_run || apply modify_run)).
    erewrite bind_Ok by (apply DisplayMessage_decodes; eassumption).
    cbv beta. eexists. split; [apply modify_run|].
    split; [apply msg_ptr_set_msg_ptr|].
    rewrite calls_set_msg_ptr, calls_after_message.
    repeat (rewrite calls_add_calls || rewrite calls_set_PCICR
            || rewrite calls_set_PCMSK2 || rewrite calls_set_PCIFR).
    rewrite <- !app_assoc. cbn [app]. reflexivity. }
  destruct (Hrun s) as (s' & Hgo & Hptr & Hcalls).
  exists s'. split; [exact Hgo|]. split; [exact Hcalls|].
  unfold next_cursor in Hptr. fold after in Hptr.
  split; [|split].
  - intros Hnz. rewrite Hptr.
    destruct (Z.eqb_spec (eeprom_read_byte ee after) 0) as [E|_];
      [contradiction | reflexivity].
  - intros Hz. rewrite Hptr, Hz. reflexivity.
  - intros p. destruct (Hrun (set_msg_ptr p s)) as (s'' & Hgo' & Hptr' & _).
    exists s''. split; [exact Hgo'|].
    rewrite Hptr'. unfold next_cursor. fold after. symmetry. exact Hptr.
Qed.

End Sleep.

(** * The theorems at concrete inputs *)

Lemma sample_config_ok : @config_ok sample_config.
Proof.
  unfold config_ok, is_byte. simpl.
  repeat split; try lia; try discriminate.
Defined.

Lemma press_then_release_witness :
  In (@PB_LONGPRESS sample_config)
     (@button_trace sample_config [254; 254; 254; 254; 255]
        (@reset_state sample_config))
  <-> @PB_LONGPRESS_DELAY sample_config + 2 <= Z.of_nat (length [254; 254; 254; 254]).
Proof.
  apply (@press_then_release sample_config sample_config_ok
           [254; 254; 254; 254] [255] (@reset_state sample_config)).
  - reflexivity.
  - repeat constructor; discriminate.
  - repeat constructor.
  - discriminate.
  - discriminate.
Defined.

(** C1, as stated, fails: with a delay of 2, three pressed samples exceed
    the delay, yet no long press is issued and the release event is. *)
Lemma longpress_needs_delay_plus_2 :
  @PB_LONGPRESS_DELAY sample_config < Z.of_nat (length [254; 254; 254])
  /\ @button_trace sample_config [254; 254; 254; 255]
       (@reset_state sample_config) = [1; 1; 1; 0]
  /\ ~ In (@PB_LONGPRESS sample_config)
          (@button_trace sample_config [254; 254; 254; 255]
             (@reset_state sample_config))
  /\ In (@PB_RELEASE sample_config)
        (@button_trace sample_config [254; 254; 254; 255]
           (@reset_state sample_config)).
Proof.
  split; [simpl; lia|].
  split; [vm_compute; reflexivity|].
  split.
  - vm_compute. intros H. repeat (destruct H as [H|H]; [discriminate|]).
    exact H.
  - vm_compute. right. right. right. left. reflexivity.
Qed.

Lemma DisplayMessage_next_cursor_witness :
  exists s' : machine,
    @DisplayMessage sample_tables 2 (image [5; 65; 0; 0]) 0
      (@reset_state sample_config) = Ok (0, s').
Proof.
  destruct (@DisplayMessage_next_cursor sample_tables (image [5; 65; 0; 0])
              eq_refl eq_refl) as [_ H].
  apply (H 2%nat (@reset_state sample_config)).
  - vm_compute. repeat split; reflexivity.
  - lia.
Defined.

(** C2, as stated, fails: in the store [5, '~', 0, 5, 'B', 0, 0] the bytes
    5, '~', 0 at address 0 are a null-terminated message and the byte after
    that zero is not zero, yet DisplayMessage takes the zero for the letter
    of the '~' escape, decodes on through the next message and returns the
    first message, not address 3. *)
Lemma DisplayMessage_zero_after_tilde :
  stored (image [5; 126; 0; 5; 66; 0; 0]) 0 [5; 126; 0]
  /\ eeprom_read_byte (image [5; 126; 0; 5; 66; 0; 0]) 3 <> 0
  /\ result_value
       (@DisplayMessage sample_tables 8 (image [5; 126; 0; 5; 66; 0; 0]) 0
          (@reset_state sample_config)) = Some (@messages sample_tables)
  /\ option_map calls
       (result_state
          (@DisplayMessage sample_tables 8 (image [5; 126; 0; 5; 66; 0; 0]) 0
             (@reset_state sample_config)))
     = Some [dmSetScrolling 1 FORWARD 0; dmClearDisplay; dmPrintByte 0;
             dmPrintChar 5; dmPrintByte 0; dmPrintChar 66]
  /\ @messages sample_tables <> ptr_add 0 3.
Proof.
  split; [vm_compute; repeat split; reflexivity|].
  split; [vm_compute; discriminate|].
  split; [vm_compute; reflexivity|].
  split; [vm_compute; reflexivity|].
  vm_compute. discriminate.
Qed.

Lemma SetMode_fields_roundtrip_witness :
  @SetMode sample_tables 173 (@reset_state sample_config)
    = Ok (tt,
          set_scroll_speed 10
            (add_calls [dmSetScrolling 5 BIDIRECTIONAL 8]
               (@reset_state sample_config)))
  /\ encode_mode 5 BIDIRECTIONAL 2 5 = 173.
Proof.
  destruct (@SetMode_fields_roundtrip sample_tables 173
              (@reset_state sample_config))
    as (Hrun & _ & _ & _ & _ & Henc).
  - unfold is_byte. lia.
  - reflexivity.
  - reflexivity.
  - split; [exact Hrun | exact Henc].
Defined.

Lemma caret_escape_witness :
  exists (s' : machine) (code : Z),
    @DisplayMessage sample_tables 5 (image [5; 94; 65; 0; 0]) 0
      (@reset_state sample_config)
      = Ok (@next_cursor sample_tables (image [5; 94; 65; 0; 0]) 0
              (length (encode_units ([] ++ [Special 65]))), s')
    /\ code = 65 + 63.
Proof.
  destruct (@caret_escape sample_tables (image [5; 94; 65; 0; 0])
              eq_refl eq_refl 5 0 65 [] [] 5%nat (@reset_state sample_config))
    as (s' & code & Hrun & _ & _ & _ & Hcode).
  - unfold is_byte. lia.
  - constructor.
  - constructor.
  - vm_compute. repeat split; reflexivity.
  - simpl. lia.
  - exists s', code. split; [exact Hrun|].
    apply Hcode; [discriminate | lia].
Defined.

(** C4, as stated, fails: after '^' the byte 200 is drawn as character 7,
    not as character 200 + 63. *)
Lemma caret_escape_wraps :
  option_map calls
    (result_state
       (@DisplayMessage sample_tables 5 (image [5; 94; 200; 0; 0]) 0
          (@reset_state sample_config)))
    = Some [dmSetScrolling 1 FORWARD 0; dmClearDisplay; dmPrintChar 7]
  /\ dmPrintChar 7 <> dmPrintChar (200 + 63).
Proof.
  split; [vm_compute; reflexivity | discriminate].
Qed.

Lemma tilde_escape_witness :
  exists (s' : machine) (drawn : list call),
    @DisplayMessage sample_tables 8 (image [5; 126; 66; 126; 126; 88; 0; 0]) 0
      (@reset_state sample_config)
      = Ok (@next_cursor sample_tables
              (image [5; 126; 66; 126; 126; 88; 0; 0]) 0
              (length (encode_units ([] ++ Anim 66 :: [Anim 126; Plain 88]))),
            s')
    /\ drawn = [dmDisplayImage (@animation sample_tables (66 - ch_A))].
Proof.
  destruct (@tilde_escape sample_tables
              (image [5; 126; 66; 126; 126; 88; 0; 0]) eq_refl eq_refl
              5 0 66 [] [Anim 126; Plain 88] 8%nat (@reset_state sample_config))
    as (s' & drawn & Hrun & _ & Hin & _ & _).
  - unfold is_byte. lia.
  - constructor.
  - repeat constructor; unfold is_byte, ch_tilde, ch_caret; lia.
  - vm_compute. repeat split; reflexivity.
  - simpl. lia.
  - exists s', drawn. split; [exact Hrun|].
    apply Hin; unfold ch_A; simpl; lia.
Defined.

Lemma direct_mode_raw_columns_witness :
  exists s' : machine,
    @DisplayMessage sample_tables 9
      (image [5; 255; 126; 94; 0; 65; 255; 66; 0; 0]) 0
      (@reset_state sample_config)
      = Ok (@next_cursor sample_tables
              (image [5; 255; 126; 94; 0; 65; 255; 66; 0; 0]) 0
              (length (encode_units
                         ([] ++ Direct [126; 94; 0; 65] :: [Plain 66]))), s')
    /\ calls s'
       = calls (@reset_state sample_config) ++ @preamble sample_tables 5
           ++ @spaced sample_tables [] ++ gap []
           ++ map dmPrintByte [126; 94; 0; 65]
           ++ gap [Plain 66] ++ @spaced sample_tables [Plain 66].
Proof.
  apply (@direct_mode_raw_columns sample_tables
           (image [5; 255; 126; 94; 0; 65; 255; 66; 0; 0]) eq_refl eq_refl
           5 0 [126; 94; 0; 65] [] [Plain 66] 9%nat
           (@reset_state sample_config)).
  - repeat constructor; unfold is_byte; lia.
  - constructor.
  - repeat constructor; unfold is_byte, ch_tilde, ch_caret; lia.
  - vm_compute. repeat split; reflexivity.
  - simpl. lia.
Defined.

Lemma narrow_space_between_units_witness :
  exists s' : machine,
    @DisplayMessage sample_tables 4 (image [5; 72; 105; 33; 0; 0]) 0
      (@reset_state sample_config)
      = Ok (@next_cursor sample_tables (image [5; 72; 105; 33; 0; 0]) 0
              (length [72; 105; 33]), s')
    /\ calls s'
       = calls (@reset_state sample_config) ++ @preamble sample_tables 5
           ++ plain_draws [72; 105; 33].
Proof.
  destruct (@narrow_space_between_units sample_tables
              (image [5; 72; 105; 33; 0; 0]) eq_refl eq_refl) as [_ H].
  destruct (H 5 0 [72; 105; 33] 4%nat (@reset_state sample_config))
    as (s' & Hrun & Hcalls & _).
  - repeat constructor; unfold is_byte, ch_tilde, ch_caret; lia.
  - vm_compute. repeat split; reflexivity.
  - simpl. lia.
  - exists s'. split; [exact Hrun | exact Hcalls].
Defined.

Lemma scroll_step_cadence_witness :
  @scroll_trace sample_config ([255; 255] ++ [255])
    (set_scroll_timer 2 (set_scroll_speed 2 (@reset_state sample_config)))
    = repeat false (length [255; 255]) ++ [true].
Proof.
  destruct (@scroll_step_cadence sample_config) as [_ H].
  apply (H [255; 255] 255
           (set_scroll_timer 2
              (set_scroll_speed 2 (@reset_state sample_config))));
    reflexivity.
Defined.

Lemma GoToSleep_cursor_witness :
  exists s' : machine,
    @GoToSleep sample_tables 2 (image [5; 65; 0; 0])
      (@reset_state sample_config) = Ok (tt, s')
    /\ msg_ptr s' = @messages sample_tables.
Proof.
  destruct (@GoToSleep_cursor sample_tables (image [5; 65; 0; 0])
              eq_refl eq_refl 5 [Plain 65] 2%nat (@reset_state sample_config))
    as (s' & Hrun & _ & _ & Hwrap & _).
  - repeat constructor; unfold is_byte, ch_tilde, ch_caret; lia.
  - vm_compute. repeat split; reflexivity.
  - simpl. lia.
  - exists s'. split; [exact Hrun|]. apply Hwrap. reflexivity.
Defined.

(** C9, as stated, fails: with two messages in the store, the cursor after
    the wake-up is the second message, not the first. *)
Lemma GoToSleep_leaves_second_message :
  option_map msg_ptr
    (result_state
       (@GoToSleep sample_tables 4 (image [5; 65; 0; 5; 66; 0; 0])
          (@reset_state sample_config))) = Some 3
  /\ 3 <> @messages sample_tables.
Proof.
  split; [vm_compute; reflexivity | discriminate].
Qed.

Lemma SetMode_table_reads_in_bounds_witness :
  exists s' : machine,
    @SetMode sample_tables 255 (@reset_state sample_config) = Ok (tt, s').
Proof.
  apply (@SetMode_table_reads_in_bounds sample_tables 255
           (@reset_state sample_config) eq_refl eq_refl).
Defined.

(** * Further properties of the program *)

(** ** What a call of the decoder leaves alone *)

Lemma bind_Ok_inv {A B : Type} (c : M A) (k : A -> M B) (s s2 : machine)
      (b : B) :
  bind c k s = Ok (b, s2) ->
  exists (a : A) (s1 : machine), c s = Ok (a, s1) /\ k a s1 = Ok (b, s2).
Proof.
  unfold bind. destruct (c s) as [[a s1]| |]; intros H; try discriminate.
  exists a, s1. split; [reflexivity | exact H].
Qed.

Lemma display_only_refl (s : machine) : display_only s s.
Proof. unfold display_only. repeat split; reflexivity. Qed.

Lemma display_only_trans (s1 s2 s3 : machine) :
  display_only s1 s2 -> display_only s2 s3 -> display_only s1 s3.
Proof.
  unfold display_only.
  intros (A1 & A2 & A3 & A4 & A5 & A6 & A7 & A8)
         (B1 & B2 & B3 & B4 & B5 & B6 & B7 & B8).
  repeat split; congruence.
Qed.

Lemma display_only_add_calls (l : list call) (s : machine) :
  display_only s (add_calls l s).
Proof. unfold display_only. repeat split; reflexivity. Qed.

Lemma display_only_set_scroll_speed (v : Z) (s : machine) :
  display_only s (set_scroll_speed v s).
Proof. unfold display_only. repeat split; reflexivity. Qed.

Lemma ret_Ok_inv {A : Type} (a b : A) (s s' : machine) :
  ret a s = Ok (b, s') -> b = a /\ s' = s.
Proof. unfold ret. intros H. inversion H. split; reflexivity. Qed.

Lemma emit_Ok_inv (c : call) (u : unit) (s s' : machine) :
  emit c s = Ok (u, s') -> s' = add_calls [c] s.
Proof. unfold emit, modify. intros H. inversion H. reflexivity. Qed.

Section DecoderFrame.

Context {tbl : Tables}.
Variable ee : eeprom.

Lemma draws_only_refl (s : machine) : draws_only s s.
Proof.
  split; [apply display_only_refl|]. split; [reflexivity|].
  exists []. split; [symmetry; apply app_nil_r | reflexivity].
Qed.

Lemma draws_only_trans (s1 s2 s3 : machine) :
  draws_only s1 s2 -> draws_only s2 s3 -> draws_only s1 s3.
Proof.
  intros (D1 & S1 & l1 & C1 & F1) (D2 & S2 & l2 & C2 & F2).
  split; [eapply display_only_trans; eassumption|].
  split; [congruence|].
  exists (l1 ++ l2). split.
  - rewrite C2, C1, app_assoc. reflexivity.
  - rewrite forallb_app, F1, F2. reflexivity.
Qed.

Lemma draws_only_emit (c : call) (s : machine) :
  is_content_draw c = true -> draws_only s (add_calls [c] s).
Proof.
  intros Hc. split; [apply display_only_add_calls|]. split; [reflexivity|].
  exists [c]. split; [reflexivity|]. simpl. rewrite Hc. reflexivity.
Qed.

Lemma direct_mode_draws_only (fuel : nat) :
  forall (ch a r : Z) (s s' : machine),
    direct_mode fuel ee ch a s = Ok (r, s') -> draws_only s s'.
Proof.
  induction fuel as [|fuel IH]; intros ch a r s s' H; [discriminate|].
  simpl in H. destruct (ch =? 255).
  - apply ret_Ok_inv in H. destruct H as [_ ->]. apply draws_only_refl.
  - apply bind_Ok_inv in H. destruct H as (u & s1 & He & Hrest).
    apply emit_Ok_inv in He. subst s1.
    eapply draws_only_trans;
      [apply (draws_only_emit (dmPrintByte ch)); reflexivity|].
    eapply IH. exact Hrest.
Qed.

Lemma decode_unit_draws_only (fuel : nat) (ch a r : Z) (s s' : machine) :
  decode_unit fuel ee ch a s = Ok (r, s') -> draws_only s s'.
Proof.
  unfold decode_unit. intros H.
  destruct (ch =? ch_tilde).
  - apply bind_Ok_inv in H. destruct H as (u & s1 & Hd & Hr).
    apply ret_Ok_inv in Hr. destruct Hr as [_ ->].
    destruct (eeprom_read_byte ee a =? ch_tilde).
    + apply ret_Ok_inv in Hd. destruct Hd as [_ ->]. apply draws_only_refl.
    + destruct (u8 (eeprom_read_byte ee a - ch_A) <? ANIMATION_COUNT).
      * apply emit_Ok_inv in Hd. subst s1. apply draws_only_emit. reflexivity.
      * apply ret_Ok_inv in Hd. destruct Hd as [_ ->]. apply draws_only_refl.
  - destruct (ch =? 255).
    + eapply direct_mode_draws_only. exact H.
    + destruct (ch =? ch_caret);
        apply bind_Ok_inv in H; destruct H as (u & s1 & Hd & Hr);
        apply ret_Ok_inv in Hr; destruct Hr as [_ ->];
        apply emit_Ok_inv in Hd; subst s1; apply draws_only_emit; reflexivity.
Qed.

Lemma message_loop_draws_only (fuel : nat) :
  forall (ch a r : Z) (s s' : machine),
    message_loop fuel ee ch a s = Ok (r, s') -> draws_only s s'.
Proof.
  induction fuel as [|fuel IH]; intros ch a r s s' H; [discriminate|].
  simpl in H. destruct (ch =? 0).
  - apply ret_Ok_inv in H. destruct H as [_ ->]. apply draws_only_refl.
  - apply bind_Ok_inv in H. destruct H as (a1 & s1 & Hu & H).
    apply bind_Ok_inv in H. destruct H as (u & s2 & Hsp & Hrest).
    eapply draws_only_trans; [eapply decode_unit_draws_only; exact Hu|].
    eapply draws_only_trans; [|eapply IH; exact Hrest].
    destruct (eeprom_read_byte ee a1 =? 0).
    + apply ret_Ok_inv in Hsp. destruct Hsp as [_ ->]. apply draws_only_refl.
    + apply emit_Ok_inv in Hsp. subst s2. apply draws_only_emit. reflexivity.
Qed.

Lemma pgm_read_byte_Ok_inv (t : list Z) (i v : Z) (s s' : machine) :
  pgm_read_byte t i s = Ok (v, s') ->
  s' = s /\ exists e, nth_error t (Z.to_nat i) = Some e /\ v = u8 e.
Proof.
  unfold pgm_read_byte. destruct (nth_error t (Z.to_nat i)) as [e|];
    intros H; [|discriminate].
  inversion H. split; [reflexivity|]. exists e. split; reflexivity.
Qed.

Lemma DisplayMessage_Ok_inv (fuel : nat) (c r : Z) (s s' : machine) :
  DisplayMessage fuel ee c s = Ok (r, s') ->
  display_only s s'
  /\ (exists e, nth_error spd_conv
                  (Z.to_nat (mode_spd (eeprom_read_byte ee c))) = Some e
                /\ scroll_speed s' = u8 e)
  /\ exists (d : Z) (l : list call),
       calls s' = calls s
                  ++ dmSetScrolling (mode_inc (eeprom_read_byte ee c))
                       (mode_dir (eeprom_read_byte ee c)) d
                  :: dmClearDisplay :: l
       /\ forallb is_content_draw l = true.
Proof.
  unfold DisplayMessage, SetMode. intros H.
  apply bind_Ok_inv in H. destruct H as (u0 & s1 & Hset & H).
  apply bind_Ok_inv in Hset. destruct Hset as (d & s01 & Hd & Hset).
  apply pgm_read_byte_Ok_inv in Hd. destruct Hd as (-> & ed & Hed & ->).
  apply bind_Ok_inv in Hset. destruct Hset as (u1 & s02 & He & Hset).
  apply emit_Ok_inv in He. subst s02.
  apply bind_Ok_inv in Hset. destruct Hset as (v & s03 & Hv & Hset).
  apply pgm_read_byte_Ok_inv in Hv. destruct Hv as (-> & ev & Hev & ->).
  unfold modify in Hset. inversion Hset; subst s1; clear Hset.
  apply bind_Ok_inv in H. destruct H as (u2 & s2 & Hc & H).
  apply emit_Ok_inv in Hc. subst s2.
  apply bind_Ok_inv in H. destruct H as (a & s3 & Hloop & H).
  assert (Hs3 : s' = s3).
  { destruct (eeprom_read_byte ee a =? 0);
      apply ret_Ok_inv in H; destruct H as [_ ->]; reflexivity. }
  subst s3.
  apply message_loop_draws_only in Hloop.
  destruct Hloop as (Hdo & Hsp & l & Hcalls & Hl).
  split; [|split].
  - eapply display_only_trans; [|exact Hdo].
    eapply display_only_trans; [|apply display_only_add_calls].
    eapply display_only_trans; [|apply display_only_set_scroll_speed].
    apply display_only_add_calls.
  - exists ev. split; [exact Hev|]. rewrite Hsp. reflexivity.
  - exists (u8 ed), l. split; [|exact Hl].
    rewrite Hcalls. rewrite calls_add_calls.
    change (calls (set_scroll_speed (u8 ev)
                     (add_calls [dmSetScrolling
                                   (mode_inc (eeprom_read_byte ee c))
                                   (mode_dir (eeprom_read_byte ee c)) (u8 ed)]
                                s)))
      with (calls s ++ [dmSetScrolling (mode_inc (eeprom_read_byte ee c))
                          (mode_dir (eeprom_read_byte ee c)) (u8 ed)]).
    rewrite <- !app_assoc. reflexivity.
Qed.

Lemma DisplayMessage_cursor_inv (fuel : nat) (c r : Z) (s s' : machine) :
  DisplayMessage fuel ee c s = Ok (r, s') ->
  r = messages \/ eeprom_read_byte ee r <> 0.
Proof.
  unfold DisplayMessage. intros H.
  apply bind_Ok_inv in H. destruct H as (u0 & s1 & _ & H).
  apply bind_Ok_inv in H. destruct H as (u2 & s2 & _ & H).
  apply bind_Ok_inv in H. destruct H as (a & s3 & _ & H).
  destruct (Z.eqb_spec (eeprom_read_byte ee a) 0) as [E|E];
    apply ret_Ok_inv in H; destruct H as [-> _].
  - left. reflexivity.
  - right. exact E.
Qed.

(** X1: a call of DisplayMessage that returns has changed nothing but the
    scroll speed and the log: the button byte, the cursor msg_ptr, both
    timers and the interrupt registers are as before; the log has grown by
    one dmSetScrolling, one dmClearDisplay and then only character, column
    and image draws; the new scroll speed is a byte read from spd_conv. *)
Theorem DisplayMessage_touches_display_only (fuel : nat) (c r : Z)
        (s s' : machine) :
  DisplayMessage fuel ee c s = Ok (r, s') ->
  display_only s s'
  /\ (exists e, nth_error spd_conv
                  (Z.to_nat (mode_spd (eeprom_read_byte ee c))) = Some e
                /\ scroll_speed s' = u8 e)
  /\ exists (d : Z) (l : list call),
       calls s' = calls s
                  ++ dmSetScrolling (mode_inc (eeprom_read_byte ee c))
                       (mode_dir (eeprom_read_byte ee c)) d
                  :: dmClearDisplay :: l
       /\ forallb is_content_draw l = true.
Proof. apply DisplayMessage_Ok_inv. Qed.

(** X2: whatever the store holds, a call of DisplayMessage that returns
    never hands out the address of a zero mode byte, unless it is the
    address of the first message: the result is [messages] or an address
    whose byte reads non-zero. *)
Theorem DisplayMessage_never_returns_sentinel (fuel : nat) (c r : Z)
        (s s' : machine) :
  DisplayMessage fuel ee c s = Ok (r, s') ->
  r = messages \/ eeprom_read_byte ee r <> 0.
Proof. apply DisplayMessage_cursor_inv. Qed.

End DecoderFrame.

(** ** Stores the decoder does not come back from, and table reads *)

Section DecoderFailures.

Context {tbl : Tables}.
Variable ee : eeprom.

Lemma direct_mode_in_bounds (fuel : nat) :
  forall (ch a : Z) (s : machine),
    direct_mode fuel ee ch a s <> OutOfBounds.
Proof.
  induction fuel as [|fuel IH]; intros ch a s; [discriminate|].
  simpl. destruct (ch =? 255); [discriminate|].
  unfold bind. rewrite emit_run. apply IH.
Qed.

Lemma decode_unit_in_bounds (fuel : nat) (ch a : Z) (s : machine) :
  decode_unit fuel ee ch a s <> OutOfBounds.
Proof.
  unfold decode_unit.
  destruct (ch =? ch_tilde).
  - destruct (eeprom_read_byte ee a =? ch_tilde); [discriminate|].
    destruct (u8 (eeprom_read_byte ee a - ch_A) <? ANIMATION_COUNT);
      discriminate.
  - destruct (ch =? 255); [apply direct_mode_in_bounds|].
    destruct (ch =? ch_caret); discriminate.
Qed.

Lemma message_loop_without_zero (fuel : nat) :
  (forall a : Z, eeprom_read_byte ee a <> 0) ->
  forall (ch a : Z) (s : machine),
    ch <> 0 -> message_loop fuel ee ch a s = OutOfFuel.
Proof.
  intros Hnz. induction fuel as [|fuel IH]; intros ch a s Hch; [reflexivity|].
  simpl. destruct (Z.eqb_spec ch 0) as [E|_]; [contradiction|].
  unfold bind at 1.
  destruct (decode_unit fuel ee ch a s) as [[a1 s1]| |] eqn:Hu.
  - destruct (Z.eqb_spec (eeprom_read_byte ee a1) 0) as [E|_];
      [exfalso; exact (Hnz a1 E)|].
    unfold bind. rewrite emit_run. apply IH. apply Hnz.
  - exfalso. exact (decode_unit_in_bounds _ _ _ _ Hu).
  - reflexivity.
Qed.

(** X3: on a store in which no cell reads zero (an erased EEPROM reads 0xFF
    everywhere) DisplayMessage does not return: with 8-entry tables the
    decoding loop is still running when the fuel is used up, whatever the
    fuel, the cursor and the state. *)
Theorem DisplayMessage_without_terminator (fuel : nat) (c : Z) (s : machine) :
  length dly_conv = 8%nat -> length spd_conv = 8%nat ->
  (forall a : Z, eeprom_read_byte ee a <> 0) ->
  DisplayMessage fuel ee c s = OutOfFuel.
Proof.
  intros Hd Hs Hnz. unfold DisplayMessage.
  erewrite bind_Ok by (apply SetMode_run; assumption).
  erewrite bind_Ok by apply emit_run.
  unfold bind. rewrite message_loop_without_zero; [reflexivity | exact Hnz |].
  apply Hnz.
Qed.

(** X4: SetMode reads outside a table exactly when the delay index
    (bits 6-4 of the mode byte) or the speed index (bits 2-0) is not below
    the length of its table; it never runs out of fuel. *)
Theorem SetMode_out_of_bounds_iff (mode : Z) (s : machine) :
  (SetMode mode s = OutOfBounds <->
   (length dly_conv <= Z.to_nat (mode_dly mode))%nat
   \/ (length spd_conv <= Z.to_nat (mode_spd mode))%nat)
  /\ SetMode mode s <> OutOfFuel.
Proof.
  unfold SetMode, bind, pgm_read_byte.
  destruct (nth_error dly_conv (Z.to_nat (mode_dly mode))) as [d|] eqn:Ed.
  - rewrite emit_run.
    destruct (nth_error spd_conv (Z.to_nat (mode_spd mode))) as [v|] eqn:Ev.
    + split; [|discriminate]. split; [discriminate|].
      intros [H|H]; apply nth_error_None in H; congruence.
    + split; [|discriminate]. split; [|reflexivity].
      intros _. right. apply nth_error_None. exact Ev.
  - split; [|discriminate]. split; [|reflexivity].
    intros _. left. apply nth_error_None. exact Ed.
Qed.

End DecoderFailures.

(** ** The store as a playlist *)

Lemma stored_prefix (ee : eeprom) (l1 l2 : list Z) :
  forall a : Z, stored ee a (l1 ++ l2) -> stored ee a l1.
Proof.
  induction l1 as [|b l1 IH]; intros a H; [exact I|].
  destruct H as [Hb H]. split; [exact Hb | apply IH; exact H].
Qed.

Lemma ptr_add_0 (a : Z) : 0 <= a < 65536 -> ptr_add a 0 = a.
Proof. intros H. unfold ptr_add. rewrite Z.add_0_r. apply Z.mod_small. exact H. Qed.

Lemma stored_skip (ee : eeprom) (l t : list Z) (a : Z) :
  0 <= a < 65536 ->
  stored ee a (l ++ t) -> stored ee (ptr_add a (Z.of_nat (length l))) t.
Proof.
  intros Ha H. destruct l as [|b l].
  - simpl length. simpl Z.of_nat. rewrite ptr_add_0 by exact Ha. exact H.
  - apply stored_app_tail; [discriminate | exact H].
Qed.

Section Playlist.

Context {tbl : Tables}.
Variable ee : eeprom.
Hypothesis dly_conv_entries : length dly_conv = 8%nat.
Hypothesis spd_conv_entries : length spd_conv = 8%nat.
Hypothesis messages_pointer : 0 <= messages < 65536.

Lemma length_encode_message (m : Z * list unit_) :
  Z.of_nat (length (encode_message m))
    = Z.of_nat (length (encode_units (snd m))) + 2.
Proof.
  unfold encode_message. simpl length. rewrite length_app. simpl length. lia.
Qed.

Lemma message_address_snoc (before : list (Z * list unit_))
      (m : Z * list unit_) :
  message_address (before ++ [m])
    = ptr_add (message_address before)
              (Z.of_nat (length (encode_units (snd m))) + 2).
Proof.
  unfold message_address. rewrite ptr_add_add.
  rewrite flat_map_app, length_app.
  change (flat_map encode_message [m]) with (encode_message m ++ []).
  rewrite app_nil_r, Nat2Z.inj_add, length_encode_message. reflexivity.
Qed.

(** One message of the store is played: the cursor moves to the message
    after it, and from the last message back to the first. *)
Lemma play_one (before : list (Z * list unit_)) (m : Z * list unit_)
      (after : list (Z * list unit_)) (fuel : nat) (s : machine) :
  Forall message_ok (before ++ m :: after) ->
  stored ee messages (encode_store (before ++ m :: after)) ->
  (length (encode_units (snd m)) < fuel)%nat ->
  DisplayMessage fuel ee (message_address before) s
    = Ok (match after with
          | [] => messages
          | _ :: _ => message_address (before ++ [m])
          end,
          add_calls (dmClearDisplay :: spaced (snd m))
                    (SetMode_effect (fst m) s)).
Proof.
  intros Hok Hst Hfuel.
  apply Forall_app in Hok. destruct Hok as [_ Hok].
  inversion Hok as [|? ? Hm Hafter]; subst.
  unfold encode_store in Hst. rewrite flat_map_app in Hst.
  rewrite <- app_assoc in Hst.
  apply stored_skip in Hst; [|exact messages_pointer].
  fold (message_address before) in Hst.
  change (flat_map encode_message (m :: after))
    with (encode_message m ++ flat_map encode_message after) in Hst.
  rewrite <- app_assoc in Hst.
  pose proof (stored_prefix _ _ _ _ Hst) as Hmsg.
  apply stored_app_tail in Hst; [|discriminate].
  rewrite length_encode_message in Hst.
  destruct Hm as (_ & _ & Hunits).
  rewrite (DisplayMessage_decodes ee (fst m) (snd m) fuel
             (message_address before) s dly_conv_entries spd_conv_entries
             Hunits Hmsg Hfuel).
  unfold next_cursor. rewrite message_address_snoc.
  destruct after as [|m' after'].
  - destruct Hst as [Hz _]. rewrite Hz. reflexivity.
  - destruct Hst as [Hz _]. rewrite Hz.
    inversion Hafter as [|? ? (_ & Hnz & _) _]; subst.
    destruct (Z.eqb_spec (fst m') 0) as [E|_]; [contradiction | reflexivity].
Qed.

(** X5: a store of messages with non-zero mode bytes, closed by a zero, is
    a circular playlist.  Starting at any message, as many calls of
    DisplayMessage as there are messages up to some later message play
    exactly these, in order; the cursor ends on the message that follows,
    and on the first message of the store when the last one was played. *)
Theorem play_through_store (mid : list (Z * list unit_)) :
  forall (before after : list (Z * list unit_)) (fuel : nat) (s : machine),
    mid <> [] ->
    Forall message_ok (before ++ mid ++ after) ->
    stored ee messages (encode_store (before ++ mid ++ after)) ->
    Forall (fun m => (length (encode_units (snd m)) < fuel)%nat) mid ->
    exists s' : machine,
      play (length mid) fuel ee (message_address before) s
        = Ok (match after with
              | [] => messages
              | _ :: _ => message_address (before ++ mid)
              end, s')
      /\ calls s' = calls s ++ played mid
      /\ display_only s s'.
Proof.
  induction mid as [|m mid IH]; intros before after fuel s Hne Hok Hst Hfuel;
    [contradiction|].
  inversion Hfuel as [|? ? Hfm Hfmid]; subst.
  change ((m :: mid) ++ after) with (m :: (mid ++ after)) in Hok, Hst.
  pose proof (play_one before m (mid ++ after) fuel s Hok Hst Hfm) as Hone.
  simpl play. erewrite bind_Ok by exact Hone.
  assert (Hd1 : display_only s
                  (add_calls (dmClearDisplay :: spaced (snd m))
                             (SetMode_effect (fst m) s))).
  { unfold SetMode_effect.
    eapply display_only_trans; [|apply display_only_add_calls].
    eapply display_only_trans; [|apply display_only_set_scroll_speed].
    apply display_only_add_calls. }
  destruct mid as [|m2 mid'].
  - simpl app. simpl play. unfold ret. eexists.
    split; [reflexivity|]. split; [|exact Hd1].
    rewrite calls_after_message. unfold played. simpl.
    rewrite app_nil_r. reflexivity.
  - assert (Hlist : before ++ m :: (m2 :: mid') ++ after
                    = (before ++ [m]) ++ (m2 :: mid') ++ after)
      by (rewrite <- app_assoc; reflexivity).
    rewrite Hlist in Hok, Hst.
    destruct (IH (before ++ [m]) after fuel
                 (add_calls (dmClearDisplay :: spaced (snd m))
                            (SetMode_effect (fst m) s)))
      as (s' & Hrun & Hcalls & Hd2); [discriminate | exact Hok | exact Hst
                                      | exact Hfmid |].
    exists s'.
    change (match (m2 :: mid') ++ after with
            | [] => messages
            | _ :: _ => message_address (before ++ [m])
            end) with (message_address (before ++ [m])).
    rewrite Hrun.
    replace ((before ++ [m]) ++ m2 :: mid') with (before ++ m :: m2 :: mid')
      by (rewrite <- app_assoc; reflexivity).
    split; [reflexivity|]. split.
    + rewrite Hcalls, calls_after_message. unfold played.
      simpl flat_map. rewrite <- !app_assoc. reflexivity.
    + exact (display_only_trans _ _ _ Hd1 Hd2).
Qed.

End Playlist.

(** ** The system-timer interrupt over many ticks *)

Lemma u8_range (x : Z) : 0 <= u8 x < 256.
Proof. unfold u8. apply Z.mod_pos_bound. lia. Qed.

Lemma byte_high_bits (m n : Z) : is_byte m -> 8 <= n -> Z.testbit m n = false.
Proof.
  intros Hm Hn. rewrite <- (Z.mod_small m (2 ^ 8)) by exact Hm.
  apply Z.mod_pow2_bits_high. lia.
Qed.

Lemma u8_lnot_bit (x n : Z) :
  0 <= n < 8 -> Z.testbit (u8 (Z.lnot x)) n = negb (Z.testbit x n).
Proof.
  intros Hn. unfold u8. change 256 with (2 ^ 8).
  rewrite Z.mod_pow2_bits_low by lia. apply Z.lnot_spec. lia.
Qed.

Section Ticks.

Context {cfg : Config}.

Lemma ISR_uint8 (pin : Z) (s : machine) :
  uint8_state s -> uint8_state (ISR_TIMER0_COMPB pin s).
Proof.
  unfold uint8_state, is_byte. intros (Hsp & Hb & Hst & Hpt & Ho).
  unfold ISR_TIMER0_COMPB, button_tick, scroll_tick. cbv zeta.
  destruct s as [sp b mp st pt o f m c cl]. simpl in *.
  pose proof (u8_range (o + OCR0B_CYCLE_TIME)).
  pose proof (u8_range PB_PRESS).
  pose proof (u8_range PB_LONGPRESS).
  pose proof (u8_range PB_LONGPRESS_DELAY).
  pose proof (u8_range (Z.land b (Z.lnot (Z.lor PB_PRESS PB_ACK)))).
  destruct (Z.eqb_spec st 0); simpl;
    destruct (pb_sample pin =? 0); simpl;
    destruct (Z.land b PB_PRESS =? 0); simpl;
    try (destruct (b =? PB_PRESS); simpl);
    try (destruct (Z.eqb_spec pt 0); simpl);
    repeat split; lia.
Qed.

(** X6: the handler keeps every 8-bit variable it writes within a byte:
    if the scroll speed, the button byte, both timers and OCR0B hold bytes,
    they still do after any number of ticks, whatever the samples.  In
    particular the two countdowns never pass below zero. *)
Theorem run_ticks_uint8 (pins : list Z) :
  forall s : machine, uint8_state s -> uint8_state (run_ticks pins s).
Proof.
  induction pins as [|pin pins IH]; intros s Hs; [exact Hs|].
  simpl. apply IH. apply ISR_uint8. exact Hs.
Qed.

Lemma ISR_frame (pin : Z) (s : machine) :
  OCR0B (ISR_TIMER0_COMPB pin s) = u8 (OCR0B s + OCR0B_CYCLE_TIME)
  /\ msg_ptr (ISR_TIMER0_COMPB pin s) = msg_ptr s
  /\ scroll_speed (ISR_TIMER0_COMPB pin s) = scroll_speed s
  /\ PCIFR (ISR_TIMER0_COMPB pin s) = PCIFR s
  /\ PCMSK2 (ISR_TIMER0_COMPB pin s) = PCMSK2 s
  /\ PCICR (ISR_TIMER0_COMPB pin s) = PCICR s
  /\ calls (ISR_TIMER0_COMPB pin s)
       = calls s ++ (if scroll_timer s =? 0 then [dmScroll] else []).
Proof.
  unfold ISR_TIMER0_COMPB, button_tick, scroll_tick. cbv zeta.
  destruct s as [sp b mp st pt o f m c cl]. simpl.
  destruct (st =? 0); simpl;
    destruct (pb_sample pin =? 0); simpl;
    destruct (Z.land b PB_PRESS =? 0); simpl;
    try (destruct (b =? PB_PRESS); simpl);
    try (destruct (pt =? 0); simpl);
    repeat split; try reflexivity; symmetry; apply app_nil_r.
Qed.

Lemma scroll_trace_head (pin : Z) (s : machine) :
  (length (calls s) <? length (calls (ISR_TIMER0_COMPB pin s)))%nat
    = (scroll_timer s =? 0).
Proof.
  destruct (ISR_frame pin s) as (_ & _ & _ & _ & _ & _ & Hc). rewrite Hc.
  rewrite length_app.
  destruct (scroll_timer s =? 0); simpl length.
  - apply Nat.ltb_lt. lia.
  - apply Nat.ltb_ge. lia.
Qed.

(** X7: every tick moves the compare value OCR0B on by OCR0B_CYCLE_TIME,
    in 8 bits, so after n ticks it is the start value plus n times the cycle
    time modulo 256; the handler never writes the cursor msg_ptr, the scroll
    speed or the pin-change registers, and all it adds to the log is one
    dmScroll for each tick that issued a scroll step. *)
Theorem run_ticks_frame (pins : list Z) :
  forall s : machine,
    is_byte (OCR0B s) ->
    OCR0B (run_ticks pins s)
      = u8 (OCR0B s + Z.of_nat (length pins) * OCR0B_CYCLE_TIME)
    /\ msg_ptr (run_ticks pins s) = msg_ptr s
    /\ scroll_speed (run_ticks pins s) = scroll_speed s
    /\ PCIFR (run_ticks pins s) = PCIFR s
    /\ PCMSK2 (run_ticks pins s) = PCMSK2 s
    /\ PCICR (run_ticks pins s) = PCICR s
    /\ calls (run_ticks pins s)
         = calls s
           ++ repeat dmScroll
                (length (filter (fun b => b) (scroll_trace pins s))).
Proof.
  induction pins as [|pin pins IH]; intros s Ho.
  - simpl. rewrite Z.add_0_r, u8_small by exact Ho.
    repeat split; try reflexivity. symmetry. apply app_nil_r.
  - simpl run_ticks. simpl scroll_trace. rewrite scroll_trace_head.
    destruct (ISR_frame pin s) as (H1 & H2 & H3 & H4 & H5 & H6 & H7).
    destruct (IH (ISR_TIMER0_COMPB pin s)) as (I1 & I2 & I3 & I4 & I5 & I6 & I7);
      [rewrite H1; apply u8_range|].
    rewrite I1, I2, I3, I4, I5, I6, I7, H1, H2, H3, H4, H5, H6, H7.
    repeat split; try reflexivity.
    + unfold u8. rewrite Z.add_mod_idemp_l by lia. f_equal.
      simpl length. lia.
    + rewrite <- app_assoc. f_equal.
      destruct (scroll_timer s =? 0); reflexivity.
Qed.

Lemma scroll_steps_closed_form (pins : list Z) :
  forall s : machine,
    0 <= scroll_timer s -> 0 <= scroll_speed s ->
    scroll_steps (scroll_trace pins s)
      = if Z.of_nat (length pins) <=? scroll_timer s then 0
        else (Z.of_nat (length pins) - scroll_timer s - 1)
               / (scroll_speed s + 1) + 1.
Proof.
  unfold scroll_steps.
  induction pins as [|pin pins IH]; intros s Ht Hsp.
  - simpl. destruct (Z.leb_spec 0 (scroll_timer s)); [reflexivity | lia].
  - simpl scroll_trace. rewrite scroll_trace_head.
    destruct (ISR_scroll pin s) as (Hs & Hdec & Hzero).
    destruct (Z.eqb_spec (scroll_timer s) 0) as [E|E].
    + destruct (Hzero E) as [Ht' _].
      simpl filter. simpl length.
      rewrite Nat2Z.inj_succ, IH by (rewrite ?Ht', ?Hs; lia).
      rewrite Ht', Hs, E.
      rewrite Nat2Z.inj_succ.
      set (n := Z.of_nat (length pins)).
      assert (Hn : 0 <= n) by (unfold n; lia).
      destruct (Z.leb_spec (Z.succ n) 0); [lia|].
      replace (Z.succ n - 0 - 1) with n by lia.
      destruct (Z.leb_spec n (scroll_speed s)).
      * rewrite Z.div_small by lia. reflexivity.
      * replace n with ((n - scroll_speed s - 1) + 1 * (scroll_speed s + 1))
          at 2 by lia.
        rewrite Z.div_add by lia. lia.
    + destruct (Hdec E) as [Ht' _].
      simpl filter.
      rewrite IH by (rewrite ?Ht', ?Hs; lia).
      rewrite Ht', Hs. simpl length. rewrite Nat2Z.inj_succ.
      set (n := Z.of_nat (length pins)).
      destruct (Z.leb_spec n (scroll_timer s - 1));
        destruct (Z.leb_spec (Z.succ n) (scroll_timer s)); try lia.
      f_equal. f_equal. lia.
Qed.

(** X8: from a countdown value t and with the speed s held, the first
    scroll step is issued in tick t + 1 and one more every s + 1 ticks:
    n ticks issue no step when n <= t and (n - t - 1) / (s + 1) + 1 steps
    otherwise. *)
Theorem scroll_steps_in_ticks (pins : list Z) :
  forall s : machine,
    0 <= scroll_timer s -> 0 <= scroll_speed s ->
    scroll_steps (scroll_trace pins s)
      = if Z.of_nat (length pins) <=? scroll_timer s then 0
        else (Z.of_nat (length pins) - scroll_timer s - 1)
               / (scroll_speed s + 1) + 1.
Proof. apply scroll_steps_closed_form. Qed.

(** X9: the button is sampled active-low under PB_MASK: a sample counts as
    not pressed exactly when every pin selected by the mask reads 1. *)
Theorem not_pressed_iff_masked_pins_high (pin : Z) :
  is_byte PB_MASK ->
  (not_pressed pin <-> Z.land pin PB_MASK = PB_MASK).
Proof.
  intros Hm. unfold not_pressed, pb_sample. split; intros H.
  - apply Z.bits_inj'. intros n Hn. rewrite Z.land_spec.
    destruct (Z.testbit PB_MASK n) eqn:Em; [|apply andb_false_r].
    assert (Hlt : n < 8).
    { destruct (Z.ltb_spec n 8) as [Hl|Hg]; [exact Hl|].
      rewrite (byte_high_bits _ _ Hm Hg) in Em. discriminate. }
    assert (Hbit : Z.testbit (Z.land (u8 (Z.lnot pin)) PB_MASK) n = false)
      by (rewrite H; apply Z.bits_0).
    rewrite Z.land_spec, u8_lnot_bit, Em in Hbit by lia.
    destruct (Z.testbit pin n); [reflexivity | discriminate].
  - apply Z.bits_inj'. intros n Hn. rewrite Z.land_spec, Z.bits_0.
    destruct (Z.testbit PB_MASK n) eqn:Em; [|apply andb_false_r].
    assert (Hlt : n < 8).
    { destruct (Z.ltb_spec n 8) as [Hl|Hg]; [exact Hl|].
      rewrite (byte_high_bits _ _ Hm Hg) in Em. discriminate. }
    assert (Hbit : Z.testbit (Z.land pin PB_MASK) n = true)
      by (rewrite H; exact Em).
    rewrite Z.land_spec, Em in Hbit.
    rewrite u8_lnot_bit by lia.
    destruct (Z.testbit pin n); [reflexivity | discriminate].
Qed.

End Ticks.

(** ** The button after an acknowledged long press *)

Lemma u8_bit (x n : Z) :
  0 <= n -> Z.testbit (u8 x) n = (n <? 8) && Z.testbit x n.
Proof.
  intros Hn. unfold u8. change 256 with (2 ^ 8).
  destruct (Z.ltb_spec n 8).
  - rewrite Z.mod_pow2_bits_low by lia. reflexivity.
  - rewrite Z.mod_pow2_bits_high by lia. reflexivity.
Qed.

Lemma land_u8_byte (x p : Z) : is_byte p -> Z.land (u8 x) p = Z.land x p.
Proof.
  intros Hp. apply Z.bits_inj'. intros n Hn.
  rewrite !Z.land_spec, u8_bit by lia.
  destruct (Z.ltb_spec n 8); [reflexivity|].
  rewrite (byte_high_bits p n Hp) by lia. rewrite !andb_false_r. reflexivity.
Qed.

Lemma u8_lor_bytes (a b : Z) : is_byte a -> is_byte b -> u8 (Z.lor a b) = Z.lor a b.
Proof.
  intros Ha Hb. apply Z.bits_inj'. intros n Hn.
  rewrite u8_bit, Z.lor_spec by lia.
  destruct (Z.ltb_spec n 8); [reflexivity|].
  rewrite (byte_high_bits a n Ha), (byte_high_bits b n Hb) by lia. reflexivity.
Qed.

Section AfterLongPress.

Context {cfg : Config}.
Hypothesis Hcfg : config_ok.

Lemma acked_longpress_reads_pressed :
  Z.land acked_longpress PB_PRESS = Z.land PB_LONGPRESS PB_PRESS.
Proof.
  destruct Hcfg as (Bp & _ & _ & _ & _ & _ & Hack & _).
  unfold acked_longpress. rewrite land_u8_byte by exact Bp.
  rewrite Z.land_lor_distr_l, Hack. apply Z.lor_0_r.
Qed.

Lemma acked_longpress_not_press : acked_longpress <> PB_PRESS.
Proof.
  destruct Hcfg as (Bp & Bl & Ba & _ & _ & _ & Hack & Hlp & _).
  unfold acked_longpress. rewrite u8_lor_bytes by assumption. intros E.
  assert (Ha : Z.land PB_ACK (Z.lor PB_LONGPRESS PB_ACK) = PB_ACK).
  { apply Z.bits_inj'. intros n Hn. rewrite Z.land_spec, Z.lor_spec.
    destruct (Z.testbit PB_ACK n), (Z.testbit PB_LONGPRESS n); reflexivity. }
  rewrite E, Hack in Ha. rewrite <- Ha, Z.lor_0_r in E. contradiction.
Qed.

Lemma acked_longpress_let_go :
  u8 (Z.land acked_longpress (Z.lnot (Z.lor PB_PRESS PB_ACK)))
    = after_longpress.
Proof.
  unfold acked_longpress, after_longpress.
  apply Z.bits_inj'. intros n Hn.
  rewrite !u8_bit, !Z.land_spec, u8_bit, !Z.lnot_spec, !Z.lor_spec by lia.
  destruct (n <? 8), (Z.testbit PB_LONGPRESS n), (Z.testbit PB_ACK n),
    (Z.testbit PB_PRESS n); reflexivity.
Qed.

(** A pressed sample changes nothing while the event byte reads as pressed
    and is not the plain press state. *)
Lemma ISR_pressed_held (pin : Z) (s : machine) :
  pressed pin ->
  Z.land (button s) PB_PRESS <> 0 -> button s <> PB_PRESS ->
  button (ISR_TIMER0_COMPB pin s) = button s.
Proof.
  intros Hpin Hp Hne. unfold pressed in Hpin.
  unfold ISR_TIMER0_COMPB. cbv zeta.
  destruct (before_button_tick (u8 (OCR0B s + OCR0B_CYCLE_TIME)) s)
    as [Hb _].
  unfold button_tick. cbv zeta. rewrite Hb.
  destruct (Z.eqb_spec (pb_sample pin) 0) as [E|_]; [contradiction|].
  destruct (Z.eqb_spec (Z.land (button s) PB_PRESS) 0) as [E|_];
    [contradiction|].
  destruct (Z.eqb_spec (button s) PB_PRESS) as [E|_]; [contradiction|].
  exact Hb.
Qed.

Lemma hold_acknowledged (pins : list Z) :
  forall s,
    Forall pressed pins ->
    button s = acked_longpress ->
    button_trace pins s = repeat acked_longpress (length pins)
    /\ button (run_ticks pins s) = acked_longpress.
Proof.
  induction pins as [|pin pins IH]; intros s Hpins Hb.
  - simpl. split; [reflexivity | exact Hb].
  - inversion Hpins as [|? ? Hpin Hpins']; subst.
    simpl length. simpl button_trace. simpl run_ticks.
    assert (Hsame : button (ISR_TIMER0_COMPB pin s) = acked_longpress).
    { rewrite ISR_pressed_held; [exact Hb | exact Hpin | |].
      - rewrite Hb, acked_longpress_reads_pressed. apply Hcfg.
      - rewrite Hb. apply acked_longpress_not_press. }
    destruct (IH (ISR_TIMER0_COMPB pin s) Hpins' Hsame) as (Htr & Hbr).
    rewrite Htr, Hbr, Hsame. split; reflexivity.
Qed.

(** X10: once the main loop has acknowledged a long press, the rest of the
    press issues no further event: while the button is held the event byte
    stays the acknowledged long press, letting go turns it into a byte that
    is neither the release event nor the long-press event, and that byte
    does not read as pressed, so the next press starts afresh. *)
Theorem acknowledged_longpress_is_silent (held up : list Z) (s : machine) :
  Z.lor PB_LONGPRESS PB_ACK <> PB_LONGPRESS ->
  button s = acked_longpress ->
  Forall pressed held -> Forall not_pressed up -> up <> [] ->
  button_trace (held ++ up) s
    = repeat acked_longpress (length held)
      ++ repeat after_longpress (length up)
  /\ ~ In PB_RELEASE (button_trace (held ++ up) s)
  /\ ~ In PB_LONGPRESS (button_trace (held ++ up) s)
  /\ button (run_ticks (held ++ up) s) = after_longpress
  /\ Z.land after_longpress PB_PRESS = 0.
Proof.
  intros Hvis Hb Hheld Hup Hne.
  pose proof Hcfg as (Bp & Bl & Ba & _ & Hrel & _ & _ & _ & Hlpp & Hal).
  destruct (states_apart Hcfg) as (_ & _ & _ & _ & Ea0 & Eal).
  apply Z.eqb_neq in Ea0, Eal.
  destruct (hold_acknowledged held s Hheld Hb) as (Htr1 & Hb1).
  destruct (let_go up (run_ticks held s) Hup) as (Htr2 & Hb2);
    [rewrite Hb1, acked_longpress_reads_pressed; exact Hlpp | exact Hne |].
  rewrite Hb1, acked_longpress_let_go in Htr2, Hb2.
  assert (Htr : button_trace (held ++ up) s
                = repeat acked_longpress (length held)
                  ++ repeat after_longpress (length up))
    by (rewrite button_trace_app, Htr1, Htr2; reflexivity).
  assert (Hne0 : acked_longpress <> 0).
  { intros E. apply Hlpp. rewrite <- acked_longpress_reads_pressed, E.
    apply Z.land_0_l. }
  assert (Hnel : acked_longpress <> PB_LONGPRESS).
  { unfold acked_longpress. rewrite u8_lor_bytes by assumption. exact Hvis. }
  split; [exact Htr|]. rewrite Htr, Hrel.
  split; [|split; [|split]].
  - intros Hin. apply in_app_or in Hin.
    destruct Hin as [Hin|Hin]; apply repeat_spec in Hin; congruence.
  - intros Hin. apply in_app_or in Hin.
    destruct Hin as [Hin|Hin]; apply repeat_spec in Hin; congruence.
  - rewrite run_ticks_app. exact Hb2.
  - apply cleared_bits.
Qed.

End AfterLongPress.

(** ** Reading a variable after a write *)

Lemma PCIFR_add_calls (l : list call) (s : machine) : PCIFR (add_calls l s) = PCIFR s.
Proof. reflexivity. Qed.

Lemma PCMSK2_add_calls (l : list call) (s : machine) : PCMSK2 (add_calls l s) = PCMSK2 s.
Proof. reflexivity. Qed.

Lemma PCICR_add_calls (l : list call) (s : machine) : PCICR (add_calls l s) = PCICR s.
Proof. reflexivity. Qed.

Lemma button_add_calls (l : list call) (s : machine) : button (add_calls l s) = button s.
Proof. reflexivity. Qed.

Lemma msg_ptr_add_calls (l : list call) (s : machine) : msg_ptr (add_calls l s) = msg_ptr s.
Proof. reflexivity. Qed.

Lemma scroll_timer_add_calls (l : list call) (s : machine) : scroll_timer (add_calls l s) = scroll_timer s.
Proof. reflexivity. Qed.

Lemma pb_timer_add_calls (l : list call) (s : machine) : pb_timer (add_calls l s) = pb_timer s.
Proof. reflexivity. Qed.

Lemma OCR0B_add_calls (l : list call) (s : machine) : OCR0B (add_calls l s) = OCR0B s.
Proof. reflexivity. Qed.

Lemma PCIFR_set_PCIFR (v : Z) (s : machine) : PCIFR (set_PCIFR v s) = v.
Proof. reflexivity. Qed.

Lemma PCMSK2_set_PCIFR (v : Z) (s : machine) : PCMSK2 (set_PCIFR v s) = PCMSK2 s.
Proof. reflexivity. Qed.

Lemma PCICR_set_PCIFR (v : Z) (s : machine) : PCICR (set_PCIFR v s) = PCICR s.
Proof. reflexivity. Qed.

Lemma button_set_PCIFR (v : Z) (s : machine) : button (set_PCIFR v s) = button s.
Proof. reflexivity. Qed.

Lemma msg_ptr_set_PCIFR (v : Z) (s : machine) : msg_ptr (set_PCIFR v s) = msg_ptr s.
Proof. reflexivity. Qed.

Lemma scroll_timer_set_PCIFR (v : Z) (s : machine) : scroll_timer (set_PCIFR v s) = scroll_timer s.
Proof. reflexivity. Qed.

Lemma pb_timer_set_PCIFR (v : Z) (s : machine) : pb_timer (set_PCIFR v s) = pb_timer s.
Proof. reflexivity. Qed.

Lemma OCR0B_set_PCIFR (v : Z) (s : machine) : OCR0B (set_PCIFR v s) = OCR0B s.
Proof. reflexivity. Qed.

Lemma PCIFR_set_PCMSK2 (v : Z) (s : machine) : PCIFR (set_PCMSK2 v s) = PCIFR s.
Proof. reflexivity. Qed.

Lemma PCMSK2_set_PCMSK2 (v : Z) (s : machine) : PCMSK2 (set_PCMSK2 v s) = v.
Proof. reflexivity. Qed.

Lemma PCICR_set_PCMSK2 (v : Z) (s : machine) : PCICR (set_PCMSK2 v s) = PCICR s.
Proof. reflexivity. Qed.

Lemma button_set_PCMSK2 (v : Z) (s : machine) : button (set_PCMSK2 v s) = button s.
Proof. reflexivity. Qed.

Lemma msg_ptr_set_PCMSK2 (v : Z) (s : machine) : msg_ptr (set_PCMSK2 v s) = msg_ptr s.
Proof. reflexivity. Qed.

Lemma scroll_timer_set_PCMSK2 (v : Z) (s : machine) : scroll_timer (set_PCMSK2 v s) = scroll_timer s.
Proof. reflexivity. Qed.

Lemma pb_timer_set_PCMSK2 (v : Z) (s : machine) : pb_timer (set_PCMSK2 v s) = pb_timer s.
Proof. reflexivity. Qed.

Lemma OCR0B_set_PCMSK2 (v : Z) (s : machine) : OCR0B (set_PCMSK2 v s) = OCR0B s.
Proof. reflexivity. Qed.

Lemma PCIFR_set_PCICR (v : Z) (s : machine) : PCIFR (set_PCICR v s) = PCIFR s.
Proof. reflexivity. Qed.

Lemma PCMSK2_set_PCICR (v : Z) (s : machine) : PCMSK2 (set_PCICR v s) = PCMSK2 s.
Proof. reflexivity. Qed.

Lemma PCICR_set_PCICR (v : Z) (s : machine) : PCICR (set_PCICR v s) = v.
Proof. reflexivity. Qed.

Lemma button_set_PCICR (v : Z) (s : machine) : button (set_PCICR v s) = button s.
Proof. reflexivity. Qed.

Lemma msg_ptr_set_PCICR (v : Z) (s : machine) : msg_ptr (set_PCICR v s) = msg_ptr s.
Proof. reflexivity. Qed.

Lemma scroll_timer_set_PCICR (v : Z) (s : machine) : scroll_timer (set_PCICR v s) = scroll_timer s.
Proof. reflexivity. Qed.

Lemma pb_timer_set_PCICR (v : Z) (s : machine) : pb_timer (set_PCICR v s) = pb_timer s.
Proof. reflexivity. Qed.

Lemma OCR0B_set_PCICR (v : Z) (s : machine) : OCR0B (set_PCICR v s) = OCR0B s.
Proof. reflexivity. Qed.

Lemma PCIFR_set_msg_ptr (v : Z) (s : machine) : PCIFR (set_msg_ptr v s) = PCIFR s.
Proof. reflexivity. Qed.

Lemma PCMSK2_set_msg_ptr (v : Z) (s : machine) : PCMSK2 (set_msg_ptr v s) = PCMSK2 s.
Proof. reflexivity. Qed.

Lemma PCICR_set_msg_ptr (v : Z) (s : machine) : PCICR (set_msg_ptr v s) = PCICR s.
Proof. reflexivity. Qed.

Lemma button_set_msg_ptr (v : Z) (s : machine) : button (set_msg_ptr v s) = button s.
Proof. reflexivity. Qed.

Lemma scroll_timer_set_msg_ptr (v : Z) (s : machine) : scroll_timer (set_msg_ptr v s) = scroll_timer s.
Proof. reflexivity. Qed.

Lemma pb_timer_set_msg_ptr (v : Z) (s : machine) : pb_timer (set_msg_ptr v s) = pb_timer s.
Proof. reflexivity. Qed.

Lemma OCR0B_set_msg_ptr (v : Z) (s : machine) : OCR0B (set_msg_ptr v s) = OCR0B s.
Proof. reflexivity. Qed.

Lemma PCIFR_set_button (v : Z) (s : machine) : PCIFR (set_button v s) = PCIFR s.
Proof. reflexivity. Qed.

Lemma PCMSK2_set_button (v : Z) (s : machine) : PCMSK2 (set_button v s) = PCMSK2 s.
Proof. reflexivity. Qed.

Lemma PCICR_set_button (v : Z) (s : machine) : PCICR (set_button v s) = PCICR s.
Proof. reflexivity. Qed.

Lemma button_set_button (v : Z) (s : machine) : button (set_button v s) = v.
Proof. reflexivity. Qed.

Lemma msg_ptr_set_button (v : Z) (s : machine) : msg_ptr (set_button v s) = msg_ptr s.
Proof. reflexivity. Qed.

Lemma scroll_timer_set_button (v : Z) (s : machine) : scroll_timer (set_button v s) = scroll_timer s.
Proof. reflexivity. Qed.

Lemma pb_timer_set_button (v : Z) (s : machine) : pb_timer (set_button v s) = pb_timer s.
Proof. reflexivity. Qed.

Lemma OCR0B_set_button (v : Z) (s : machine) : OCR0B (set_button v s) = OCR0B s.
Proof. reflexivity. Qed.

Lemma PCIFR_set_scroll_speed (v : Z) (s : machine) : PCIFR (set_scroll_speed v s) = PCIFR s.
Proof. reflexivity. Qed.

Lemma PCMSK2_set_scroll_speed (v : Z) (s : machine) : PCMSK2 (set_scroll_speed v s) = PCMSK2 s.
Proof. reflexivity. Qed.

Lemma PCICR_set_scroll_speed (v : Z) (s : machine) : PCICR (set_scroll_speed v s) = PCICR s.
Proof. reflexivity. Qed.

Lemma button_set_scroll_speed (v : Z) (s : machine) : button (set_scroll_speed v s) = button s.
Proof. reflexivity. Qed.

Lemma msg_ptr_set_scroll_speed (v : Z) (s : machine) : msg_ptr (set_scroll_speed v s) = msg_ptr s.
Proof. reflexivity. Qed.

Lemma scroll_timer_set_scroll_speed (v : Z) (s : machine) : scroll_timer (set_scroll_speed v s) = scroll_timer s.
Proof. reflexivity. Qed.

Lemma pb_timer_set_scroll_speed (v : Z) (s : machine) : pb_timer (set_scroll_speed v s) = pb_timer s.
Proof. reflexivity. Qed.

Lemma OCR0B_set_scroll_speed (v : Z) (s : machine) : OCR0B (set_scroll_speed v s) = OCR0B s.
Proof. reflexivity. Qed.

Lemma calls_set_button (v : Z) (s : machine) : calls (set_button v s) = calls s.
Proof. reflexivity. Qed.

Create Rewrite HintDb machine_fields.

#[local] Hint Rewrite
  PCIFR_add_calls PCMSK2_add_calls PCICR_add_calls button_add_calls
  msg_ptr_add_calls scroll_timer_add_calls pb_timer_add_calls OCR0B_add_calls
  PCIFR_set_PCIFR PCMSK2_set_PCIFR PCICR_set_PCIFR button_set_PCIFR
  msg_ptr_set_PCIFR scroll_timer_set_PCIFR pb_timer_set_PCIFR OCR0B_set_PCIFR
  PCIFR_set_PCMSK2 PCMSK2_set_PCMSK2 PCICR_set_PCMSK2 button_set_PCMSK2
  msg_ptr_set_PCMSK2 scroll_timer_set_PCMSK2 pb_timer_set_PCMSK2 OCR0B_set_PCMSK2
  PCIFR_set_PCICR PCMSK2_set_PCICR PCICR_set_PCICR button_set_PCICR
  msg_ptr_set_PCICR scroll_timer_set_PCICR pb_timer_set_PCICR OCR0B_set_PCICR
  PCIFR_set_msg_ptr PCMSK2_set_msg_ptr PCICR_set_msg_ptr button_set_msg_ptr
  msg_ptr_set_msg_ptr scroll_timer_set_msg_ptr pb_timer_set_msg_ptr OCR0B_set_msg_ptr
  PCIFR_set_button PCMSK2_set_button PCICR_set_button button_set_button
  msg_ptr_set_button scroll_timer_set_button pb_timer_set_button OCR0B_set_button
  PCIFR_set_scroll_speed PCMSK2_set_scroll_speed PCICR_set_scroll_speed button_set_scroll_speed
  msg_ptr_set_scroll_speed scroll_timer_set_scroll_speed pb_timer_set_scroll_speed OCR0B_set_scroll_speed
  calls_set_button calls_add_calls calls_set_PCIFR calls_set_PCMSK2
  calls_set_PCICR calls_set_msg_ptr
  : machine_fields.

(** ** The sleep controller, whatever the store holds *)

Lemma modify_Ok_inv (f : machine -> machine) (u : unit) (s s' : machine) :
  modify f s = Ok (u, s') -> s' = f s.
Proof. unfold modify. intros H. inversion H. reflexivity. Qed.

Section SleepFrame.

Context {tbl : Tables}.
Variable ee : eeprom.

Lemma GoToSleep_Ok_inv (fuel : nat) (u : unit) (s s' : machine) :
  GoToSleep fuel ee s = Ok (u, s') ->
  timers_kept s s'
  /\ PCICR s' = 0 /\ PCMSK2 s' = 1 /\ PCIFR s' = u8 (Z.lor (PCIFR s) 4)
  /\ (msg_ptr s' = messages \/ eeprom_read_byte ee (msg_ptr s') <> 0)
  /\ exists l : list call,
       calls s' = calls s
                  ++ [dmClearDisplay; delay_ms 1000; set_sleep_mode_PWR_DOWN;
                      sleep_mode; dmPrintChar 131; delay_ms 500] ++ l.
Proof.
  unfold GoToSleep. intros H.
  apply bind_Ok_inv in H. destruct H as (u1 & s1 & E1 & H).
  apply emit_Ok_inv in E1.
  apply bind_Ok_inv in H. destruct H as (u2 & s2 & E2 & H).
  apply emit_Ok_inv in E2.
  apply bind_Ok_inv in H. destruct H as (u3 & s3 & E3 & H).
  apply modify_Ok_inv in E3.
  apply bind_Ok_inv in H. destruct H as (u4 & s4 & E4 & H).
  apply modify_Ok_inv in E4.
  apply bind_Ok_inv in H. destruct H as (u5 & s5 & E5 & H).
  apply modify_Ok_inv in E5.
  apply bind_Ok_inv in H. destruct H as (u6 & s6 & E6 & H).
  apply emit_Ok_inv in E6.
  apply bind_Ok_inv in H. destruct H as (u7 & s7 & E7 & H).
  apply emit_Ok_inv in E7.
  apply bind_Ok_inv in H. destruct H as (u8' & s8 & E8 & H).
  apply modify_Ok_inv in E8.
  apply bind_Ok_inv in H. destruct H as (u9 & s9 & E9 & H).
  apply emit_Ok_inv in E9.
  apply bind_Ok_inv in H. destruct H as (u10 & s10 & E10 & H).
  apply emit_Ok_inv in E10.
  apply bind_Ok_inv in H. destruct H as (a & s11 & HD & H).
  apply modify_Ok_inv in H.
  pose proof (DisplayMessage_cursor_inv ee _ _ _ _ _ HD) as Hcur.
  apply DisplayMessage_Ok_inv in HD.
  destruct HD as ((D1 & D2 & D3 & D4 & D5 & D6 & D7 & D8) & _
                  & d & l & Hcalls & _).
  assert (F10 : button s10 = button s /\ scroll_timer s10 = scroll_timer s
                /\ pb_timer s10 = pb_timer s /\ OCR0B s10 = OCR0B s
                /\ PCICR s10 = 0 /\ PCMSK2 s10 = 1
                /\ PCIFR s10 = u8 (Z.lor (PCIFR s) 4)
                /\ calls s10 = calls s
                     ++ [dmClearDisplay; delay_ms 1000;
                         set_sleep_mode_PWR_DOWN; sleep_mode; dmPrintChar 131;
                         delay_ms 500]).
  { subst s10 s9 s8 s7 s6 s5 s4 s3 s2 s1. cbv beta.
    autorewrite with machine_fields.
    repeat split; try reflexivity.
    rewrite <- !app_assoc. reflexivity. }
  destruct F10 as (F1 & F2 & F3 & F4 & F5 & F6 & F7 & F8).
  subst s'. unfold timers_kept. autorewrite with machine_fields.
  rewrite D1, D3, D4, D5, D6, D7, D8, F1, F2, F3, F4, F5, F6, F7.
  repeat split; try reflexivity.
  - exact Hcur.
  - exists (dmSetScrolling (mode_inc (eeprom_read_byte ee messages))
              (mode_dir (eeprom_read_byte ee messages)) d
            :: dmClearDisplay :: l).
    rewrite Hcalls, F8, <- app_assoc. reflexivity.
Qed.

(** X11: a call of GoToSleep that returns has left the wake-up interrupt
    switched off (PCICR = 0) with PCINT16 selected in PCMSK2 and bit PCIF2
    written to PCIFR; it has not touched the button byte, the timers or
    OCR0B (so it does not acknowledge the event that sent it to sleep); it
    has logged the clearing of the display, the two delays, the power-down
    and the wake-up glyph 131 before anything the first message draws; and
    the cursor it leaves is [messages] or the address of a non-zero byte. *)
Theorem GoToSleep_returns_disarmed (fuel : nat) (u : unit) (s s' : machine) :
  GoToSleep fuel ee s = Ok (u, s') ->
  timers_kept s s'
  /\ PCICR s' = 0 /\ PCMSK2 s' = 1 /\ PCIFR s' = u8 (Z.lor (PCIFR s) 4)
  /\ (msg_ptr s' = messages \/ eeprom_read_byte ee (msg_ptr s') <> 0)
  /\ exists l : list call,
       calls s' = calls s
                  ++ [dmClearDisplay; delay_ms 1000; set_sleep_mode_PWR_DOWN;
                      sleep_mode; dmPrintChar 131; delay_ms 500] ++ l.
Proof. apply GoToSleep_Ok_inv. Qed.

End SleepFrame.

(** ** The main loop *)

Lemma get_run {A : Type} (f : machine -> A) (s : machine) :
  get f s = Ok (f s, s).
Proof. reflexivity. Qed.

Lemma land_lor_absorb (x a : Z) : Z.land (Z.lor x a) a = a.
Proof.
  apply Z.bits_inj'. intros n Hn. rewrite Z.land_spec, Z.lor_spec.
  destruct (Z.testbit x n), (Z.testbit a n); reflexivity.
Qed.

Section MainLoop.

Context {cfg : Config} {tbl : Tables}.
Variable ee : eeprom.
Hypothesis Hcfg : config_ok.
Hypothesis dly_conv_entries : length dly_conv = 8%nat.
Hypothesis spd_conv_entries : length spd_conv = 8%nat.

Lemma ack_not_longpress : PB_ACK <> PB_LONGPRESS.
Proof.
  destruct Hcfg as (_ & _ & _ & _ & _ & _ & Hack & _ & Hlpp & _).
  intros E. apply Hlpp. rewrite <- E. exact Hack.
Qed.

Lemma acked_release : u8 (Z.lor PB_RELEASE PB_ACK) = PB_ACK.
Proof.
  destruct Hcfg as (_ & _ & Ba & _ & Hrel & _).
  rewrite Hrel, Z.lor_0_l. apply u8_small. exact Ba.
Qed.

(** After [button |= PB_ACK] the byte shows the acknowledge bits. *)
Lemma acknowledged_bits (b : Z) : Z.land (u8 (Z.lor b PB_ACK)) PB_ACK = PB_ACK.
Proof.
  destruct Hcfg as (_ & _ & Ba & _).
  rewrite land_u8_byte by exact Ba. apply land_lor_absorb.
Qed.

Lemma acknowledged_no_event (b : Z) :
  PB_ACK <> 0 -> Z.land PB_ACK PB_LONGPRESS = 0 ->
  u8 (Z.lor b PB_ACK) <> PB_RELEASE /\ u8 (Z.lor b PB_ACK) <> PB_LONGPRESS.
Proof.
  intros Ha Hal.
  destruct Hcfg as (_ & _ & _ & _ & Hrel & _).
  pose proof (acknowledged_bits b) as Hbits.
  split; intros E; rewrite E in Hbits; apply Ha.
  - rewrite Hrel in Hbits. rewrite <- Hbits. apply Z.land_0_l.
  - rewrite Z.land_comm, Hal in Hbits. symmetry. exact Hbits.
Qed.

(** The pass of the main loop that finds the release event. *)
Lemma main_loop_pass_release_run (mode : Z) (us : list unit_) (fuel : nat)
      (s : machine) :
  button s = PB_RELEASE ->
  Forall unit_ok us ->
  stored ee (msg_ptr s) (mode :: encode_units us ++ [0]) ->
  (length (encode_units us) < fuel)%nat ->
  exists s' : machine,
    main_loop_pass fuel ee s = Ok (tt, s')
    /\ msg_ptr s' = next_cursor ee (msg_ptr s) (length (encode_units us))
    /\ button s' = PB_ACK
    /\ calls s' = calls s ++ preamble mode ++ spaced us
    /\ timers_kept (set_button PB_ACK s) s'.
Proof.
  intros Hb Hok Hst Hfuel. unfold main_loop_pass.
  erewrite bind_Ok by apply get_run.
  rewrite Hb, Z.eqb_refl.
  erewrite bind_Ok.
  2:{ erewrite bind_Ok by apply get_run.
      erewrite bind_Ok by (apply DisplayMessage_decodes; eassumption).
      erewrite bind_Ok by apply modify_run.
      unfold acknowledge. apply modify_run. }
  set (sd := add_calls (dmClearDisplay :: spaced us) (SetMode_effect mode s)).
  cbv beta. autorewrite with machine_fields.
  assert (Hbd : button sd = PB_RELEASE).
  { unfold sd, SetMode_effect. autorewrite with machine_fields. exact Hb. }
  rewrite Hbd, acked_release.
  erewrite bind_Ok by apply get_run.
  autorewrite with machine_fields.
  destruct (Z.eqb_spec PB_ACK PB_LONGPRESS) as [E|_];
    [exfalso; exact (ack_not_longpress E)|].
  eexists. split; [reflexivity|].
  autorewrite with machine_fields.
  split; [reflexivity|]. split; [reflexivity|].
  split; [apply calls_after_message|].
  unfold timers_kept, sd, SetMode_effect. autorewrite with machine_fields.
  repeat split; reflexivity.
Qed.

(** X12: a pass of the main loop whose first test reads the release event
    (and whose second test does not read a long press) calls DisplayMessage
    once, on the cursor: the main context logs exactly the calls of that
    message, msg_ptr becomes the cursor returned, and the byte written by
    [button |= PB_ACK] is what that read of the volatile button gave, or-ed
    with PB_ACK.  Whatever the timer interrupt made of the button in the
    meantime, the byte written has the acknowledge bits set and is neither
    the release nor the long-press event. *)
Theorem main_loop_pass_plays_one_message (mode : Z) (us : list unit_)
        (fuel : nat) (s : machine) (ack1 test2 ack2 : Z) :
  PB_ACK <> 0 -> Z.land PB_ACK PB_LONGPRESS = 0 ->
  test2 <> PB_LONGPRESS ->
  Forall unit_ok us ->
  stored ee (msg_ptr s) (mode :: encode_units us ++ [0]) ->
  (length (encode_units us) < fuel)%nat ->
  exists s' : machine,
    main_loop_pass_reads fuel ee PB_RELEASE ack1 test2 ack2 s = Ok (tt, s')
    /\ msg_ptr s' = next_cursor ee (msg_ptr s) (length (encode_units us))
    /\ calls s' = calls s ++ preamble mode ++ spaced us
    /\ button s' = u8 (Z.lor ack1 PB_ACK)
    /\ Z.land (button s') PB_ACK = PB_ACK
    /\ button s' <> PB_RELEASE /\ button s' <> PB_LONGPRESS
    /\ PCICR s' = PCICR s.
Proof.
  intros Ha Hal Ht2 Hok Hst Hfuel.
  destruct (acknowledged_no_event ack1 Ha Hal) as [Hnr Hnl].
  unfold main_loop_pass_reads. rewrite Z.eqb_refl.
  erewrite bind_Ok.
  2:{ erewrite bind_Ok by apply get_run.
      erewrite bind_Ok by (apply DisplayMessage_decodes; eassumption).
      erewrite bind_Ok by apply modify_run.
      unfold acknowledge_read. apply modify_run. }
  destruct (Z.eqb_spec test2 PB_LONGPRESS) as [E|_]; [contradiction|].
  eexists. split; [reflexivity|].
  autorewrite with machine_fields.
  split; [reflexivity|].
  split; [apply calls_after_message|].
  split; [reflexivity|].
  split; [apply acknowledged_bits|].
  split; [exact Hnr|]. split; [exact Hnl|].
  unfold SetMode_effect. autorewrite with machine_fields. reflexivity.
Qed.

Lemma GoToSleep_run (mode : Z) (us : list unit_) (fuel : nat) (s : machine) :
  Forall unit_ok us ->
  stored ee messages (mode :: encode_units us ++ [0]) ->
  (length (encode_units us) < fuel)%nat ->
  exists s1 : machine,
    GoToSleep fuel ee s = Ok (tt, s1)
    /\ msg_ptr s1 = next_cursor ee messages (length (encode_units us))
    /\ calls s1 = calls s
                  ++ [dmClearDisplay; delay_ms 1000; set_sleep_mode_PWR_DOWN;
                      sleep_mode; dmPrintChar 131; delay_ms 500]
                  ++ preamble mode ++ spaced us.
Proof.
  intros Hok Hst Hfuel. unfold GoToSleep.
  do 10 (erewrite bind_Ok by (apply emit_run || apply modify_run)).
  erewrite bind_Ok by (apply DisplayMessage_decodes; eassumption).
  cbv beta. eexists. split; [apply modify_run|].
  split; [apply msg_ptr_set_msg_ptr|].
  rewrite calls_set_msg_ptr, calls_after_message.
  autorewrite with machine_fields.
  rewrite <- !app_assoc. cbn [app]. reflexivity.
Qed.

(** X13: a pass of the main loop whose second test reads the long-press
    event (the first test not having read a release) logs dmClearDisplay,
    glyph 130 and a delay, then goes through GoToSleep: sleep, wake-up
    glyph, first message of the store.  It leaves the wake-up interrupt off
    and the cursor after the first message, and the byte written by the
    final [button |= PB_ACK] is what that read of the volatile button gave,
    or-ed with PB_ACK: whatever the timer interrupt made of the button
    during the delays and the message, the byte written has the acknowledge
    bits set and is neither event. *)
Theorem main_loop_pass_goes_to_sleep (mode : Z) (us : list unit_)
        (fuel : nat) (s : machine) (test1 ack1 ack2 : Z) :
  PB_ACK <> 0 -> Z.land PB_ACK PB_LONGPRESS = 0 ->
  test1 <> PB_RELEASE ->
  Forall unit_ok us ->
  stored ee messages (mode :: encode_units us ++ [0]) ->
  (length (encode_units us) < fuel)%nat ->
  exists s' : machine,
    main_loop_pass_reads fuel ee test1 ack1 PB_LONGPRESS ack2 s = Ok (tt, s')
    /\ msg_ptr s' = next_cursor ee messages (length (encode_units us))
    /\ PCICR s' = 0
    /\ calls s' = calls s
                  ++ [dmClearDisplay; dmPrintChar 130; delay_ms 500;
                      dmClearDisplay; delay_ms 1000; set_sleep_mode_PWR_DOWN;
                      sleep_mode; dmPrintChar 131; delay_ms 500]
                  ++ preamble mode ++ spaced us
    /\ button s' = u8 (Z.lor ack2 PB_ACK)
    /\ Z.land (button s') PB_ACK = PB_ACK
    /\ button s' <> PB_RELEASE /\ button s' <> PB_LONGPRESS.
Proof.
  intros Ha Hal Ht1 Hok Hst Hfuel.
  destruct (acknowledged_no_event ack2 Ha Hal) as [Hnr Hnl].
  set (s3 := add_calls [delay_ms 500]
               (add_calls [dmPrintChar 130] (add_calls [dmClearDisplay] s))).
  destruct (GoToSleep_run mode us fuel s3 Hok Hst Hfuel)
    as (s1 & Hgo & Hptr & Hcalls).
  destruct (GoToSleep_Ok_inv ee fuel tt s3 s1 Hgo) as (_ & Hpc & _).
  exists (set_button (u8 (Z.lor ack2 PB_ACK)) s1).
  split.
  - unfold main_loop_pass_reads.
    destruct (Z.eqb_spec test1 PB_RELEASE) as [E|_]; [contradiction|].
    unfold bind at 1. unfold ret at 1. rewrite Z.eqb_refl.
    do 3 (erewrite bind_Ok by apply emit_run). fold s3.
    erewrite bind_Ok by exact Hgo.
    unfold acknowledge_read. apply modify_run.
  - autorewrite with machine_fields. rewrite Hptr, Hpc, Hcalls.
    split; [reflexivity|]. split; [reflexivity|]. split.
    + unfold s3. autorewrite with machine_fields.
      rewrite <- !app_assoc. reflexivity.
    + split; [reflexivity|]. split; [apply acknowledged_bits|].
      split; assumption.
Qed.

(** The pass in which no interrupt is taken is the pass in which every read
    of [button] gives the byte of the state at that point. *)
Lemma sleep_branch_reads (fuel : nat) (s : machine) :
  (emit dmClearDisplay ;;; emit (dmPrintChar 130) ;;; emit (delay_ms 500) ;;;
   GoToSleep fuel ee ;;; acknowledge) s
  = (emit dmClearDisplay ;;; emit (dmPrintChar 130) ;;; emit (delay_ms 500) ;;;
     GoToSleep fuel ee ;;; acknowledge_read (button s)) s.
Proof.
  do 3 (erewrite bind_Ok by apply emit_run).
  symmetry. do 3 (erewrite bind_Ok by apply emit_run). symmetry.
  set (s3 := add_calls [delay_ms 500]
               (add_calls [dmPrintChar 130] (add_calls [dmClearDisplay] s))).
  unfold bind.
  destruct (GoToSleep fuel ee s3) as [[u s1]| |] eqn:Hgo; try reflexivity.
  destruct (GoToSleep_Ok_inv ee fuel u s3 s1 Hgo) as ((Hb & _) & _).
  unfold acknowledge, acknowledge_read, modify. rewrite Hb.
  unfold s3. autorewrite with machine_fields. reflexivity.
Qed.

Lemma main_loop_pass_as_reads (fuel : nat) (s : machine) :
  main_loop_pass fuel ee s
  = main_loop_pass_reads fuel ee (button s) (button s)
      (if button s =? PB_RELEASE then u8 (Z.lor (button s) PB_ACK)
       else button s)
      (if button s =? PB_RELEASE then u8 (Z.lor (button s) PB_ACK)
       else button s) s.
Proof.
  unfold main_loop_pass, main_loop_pass_reads.
  erewrite bind_Ok by apply get_run.
  destruct (button s =? PB_RELEASE) eqn:Et.
  - unfold bind at 1. symmetry. unfold bind at 1. symmetry.
    erewrite bind_Ok by apply get_run. symmetry.
    erewrite bind_Ok by apply get_run. symmetry.
    unfold bind at 1. symmetry. unfold bind at 1. symmetry.
    destruct (DisplayMessage fuel ee (msg_ptr s) s) as [[a s1]| |] eqn:HD;
      try reflexivity.
    apply DisplayMessage_Ok_inv in HD.
    destruct HD as ((Hb & _) & _).
    erewrite bind_Ok by apply modify_run. symmetry.
    erewrite bind_Ok by apply modify_run. symmetry.
    unfold acknowledge, acknowledge_read. rewrite !modify_run.
    autorewrite with machine_fields. rewrite Hb.
    set (s2 := set_button (u8 (Z.lor (button s) PB_ACK)) (set_msg_ptr a s1)).
    erewrite bind_Ok by apply get_run.
    assert (Hb2 : button s2 = u8 (Z.lor (button s) PB_ACK)) by reflexivity.
    rewrite Hb2.
    destruct (u8 (Z.lor (button s) PB_ACK) =? PB_LONGPRESS); [|reflexivity].
    rewrite <- Hb2. apply sleep_branch_reads.
  - unfold bind at 1. unfold ret at 1. symmetry.
    unfold bind at 1. unfold ret at 1. symmetry.
    erewrite bind_Ok by apply get_run.
    destruct (button s =? PB_LONGPRESS); [|reflexivity].
    apply sleep_branch_reads.
Qed.

(** X14: one click, end to end.  From the acknowledged idle state a pressed
    sample and a sample that is not pressed, handled by the timer interrupt,
    followed by one pass of the main loop, play exactly the message under
    the cursor and move the cursor on; the log shows at most scroll steps
    before the message, and the button byte is PB_ACK again, ready for the
    next click. *)
Theorem one_click_plays_one_message (down up mode : Z) (us : list unit_)
        (fuel : nat) (s : machine) :
  button s = PB_ACK ->
  pressed down -> not_pressed up ->
  Forall unit_ok us ->
  stored ee (msg_ptr s) (mode :: encode_units us ++ [0]) ->
  (length (encode_units us) < fuel)%nat ->
  exists (s' : machine) (k : nat),
    main_loop_pass fuel ee (run_ticks [down; up] s) = Ok (tt, s')
    /\ msg_ptr s' = next_cursor ee (msg_ptr s) (length (encode_units us))
    /\ button s' = PB_ACK
    /\ calls s' = calls s ++ repeat dmScroll k ++ preamble mode ++ spaced us
    /\ (k <= 2)%nat.
Proof.
  intros Hb Hdown Hup Hok Hst Hfuel.
  pose proof Hcfg as (_ & _ & _ & Bd & Hrel & _ & Hack & _).
  unfold is_byte in Bd.
  destruct (short_press Hcfg down [] [up] s) as [_ Hfin].
  - rewrite Hb. exact Hack.
  - constructor; [exact Hdown | constructor].
  - constructor; [exact Hup | constructor].
  - discriminate.
  - simpl. lia.
  - change ([down] ++ [up]) with [down; up] in Hfin.
    set (s2 := run_ticks [down; up] s) in *.
    destruct (ISR_frame down s) as (_ & Hm1 & _ & _ & _ & _ & Hc1).
    destruct (ISR_frame up (ISR_TIMER0_COMPB down s))
      as (_ & Hm2 & _ & _ & _ & _ & Hc2).
    assert (Hm : msg_ptr s2 = msg_ptr s)
      by (unfold s2; simpl run_ticks; rewrite Hm2, Hm1; reflexivity).
    assert (Hc : exists k, calls s2 = calls s ++ repeat dmScroll k
                           /\ (k <= 2)%nat).
    { unfold s2. simpl run_ticks. rewrite Hc2, Hc1, <- app_assoc.
      destruct (scroll_timer s =? 0),
        (scroll_timer (ISR_TIMER0_COMPB down s) =? 0).
      - exists 2%nat. split; [reflexivity | lia].
      - exists 1%nat. split; [reflexivity | lia].
      - exists 1%nat. split; [reflexivity | lia].
      - exists 0%nat. split; [reflexivity | lia]. }
    destruct Hc as (k & Hc & Hk).
    rewrite <- Hm in Hst.
    destruct (main_loop_pass_release_run mode us fuel s2) as
      (s' & Hrun & Hptr & Hbs & Hcalls & _);
      [rewrite Hrel; exact Hfin | exact Hok | exact Hst | exact Hfuel |].
    exists s', k. rewrite Hm in Hptr. rewrite Hc, <- app_assoc in Hcalls.
    repeat split; assumption.
Qed.

(** X15: the start of main.  The first GoToSleep plays the first message
    when the device is woken, glyph 131 is then drawn once more after the
    message, and [button |= PB_ACK] writes what its read of the volatile
    button gave, or-ed with PB_ACK: whatever the timer interrupt made of the
    press that woke the device, the byte written has the acknowledge bits
    set and is neither the release nor the long-press event. *)
Theorem main_start_discards_pending_event (mode : Z) (us : list unit_)
        (fuel : nat) (s : machine) (ack : Z) :
  PB_ACK <> 0 -> Z.land PB_ACK PB_LONGPRESS = 0 ->
  Forall unit_ok us ->
  stored ee messages (mode :: encode_units us ++ [0]) ->
  (length (encode_units us) < fuel)%nat ->
  exists s' : machine,
    main_start fuel ee ack s = Ok (tt, s')
    /\ msg_ptr s' = next_cursor ee messages (length (encode_units us))
    /\ PCICR s' = 0
    /\ calls s' = calls s
                  ++ [dmClearDisplay; delay_ms 1000; set_sleep_mode_PWR_DOWN;
                      sleep_mode; dmPrintChar 131; delay_ms 500]
                  ++ preamble mode ++ spaced us ++ [dmPrintChar 131]
    /\ button s' = u8 (Z.lor ack PB_ACK)
    /\ Z.land (button s') PB_ACK = PB_ACK
    /\ button s' <> PB_RELEASE /\ button s' <> PB_LONGPRESS.
Proof.
  intros Ha Hal Hok Hst Hfuel.
  destruct (GoToSleep_run mode us fuel s Hok Hst Hfuel)
    as (s1 & Hgo & Hptr & Hcalls).
  destruct (GoToSleep_Ok_inv ee fuel tt s s1 Hgo) as (_ & Hpc & _).
  destruct (acknowledged_no_event ack Ha Hal) as [Hnr Hnl].
  exists (set_button (u8 (Z.lor ack PB_ACK)) (add_calls [dmPrintChar 131] s1)).
  split.
  - unfold main_start.
    erewrite bind_Ok by exact Hgo.
    erewrite bind_Ok by apply emit_run.
    unfold acknowledge_read. apply modify_run.
  - autorewrite with machine_fields. rewrite Hptr, Hpc, Hcalls.
    split; [reflexivity|]. split; [reflexivity|]. split.
    + rewrite <- !app_assoc. reflexivity.
    + split; [reflexivity|]. split; [apply acknowledged_bits|].
      split; assumption.
Qed.

End MainLoop.

(** ** Clicks are latched, not counted *)

Section Clicks.

Context {cfg : Config}.
Hypothesis Hcfg : config_ok.

(** X16: the event byte holds one event, it is not a queue.  From any state
    in which the byte does not read as pressed (idle, a release not yet
    acknowledged, the byte left by a long press), any number of short
    presses (the button down for 1 to PB_LONGPRESS_DELAY + 1 samples, then
    up for at least one sample) that arrive before the main loop looks
    leave the single release event. *)
Theorem clicks_are_not_queued (presses : list (list Z * list Z)) :
  forall s : machine,
    presses <> [] ->
    Forall short_click presses ->
    Z.land (button s) PB_PRESS = 0 ->
    button (run_ticks (press_samples presses) s) = PB_RELEASE.
Proof.
  pose proof Hcfg as (_ & _ & _ & _ & Hrel & _).
  induction presses as [|c presses IH]; intros s Hne Hall Hrest;
    [contradiction|].
  inversion Hall as [|? ? (Hdne & Hd & Hlen & Hune & Hu) Hall']; subst.
  destruct c as [down up]. simpl fst in *. simpl snd in *.
  destruct down as [|pin rest]; [contradiction|].
  destruct (short_press Hcfg pin rest up s Hrest Hd Hu Hune) as [_ Hfin];
    [simpl length in Hlen; lia|].
  change (press_samples ((pin :: rest, up) :: presses))
    with (((pin :: rest) ++ up) ++ press_samples presses).
  rewrite run_ticks_app.
  destruct presses as [|c2 presses'].
  - simpl press_samples. simpl run_ticks at 1. rewrite Hrel. exact Hfin.
  - apply IH; [discriminate | exact Hall' |].
    rewrite Hfin. apply Z.land_0_l.
Qed.

End Clicks.

(** ** The nibble swap *)

(** X17: on a byte, swap exchanges the two nibbles: the result is a byte,
    its high nibble is the low nibble of the argument and the other way
    round, and swapping twice gives the byte back. *)
Theorem swap_exchanges_nibbles (x : Z) :
  is_byte x ->
  is_byte (swap x)
  /\ swap x = 16 * (x mod 16) + x / 16
  /\ swap (swap x) = x.
Proof.
  intros Hx.
  pose (chk := fun x : Z =>
    (0 <=? swap x) && (swap x <? 256)
    && (swap x =? 16 * (x mod 16) + x / 16)
    && (swap (swap x) =? x)).
  assert (H : chk x = true)
    by (apply byte_cases; [vm_compute; reflexivity | exact Hx]).
  unfold chk in H. repeat rewrite andb_true_iff in H.
  destruct H as [[[H0 H1] H2] H3].
  unfold is_byte. repeat split.
  - apply Z.leb_le. exact H0.
  - apply Z.ltb_lt. exact H1.
  - apply Z.eqb_eq. exact H2.
  - apply Z.eqb_eq. exact H3.
Qed.

(** ** The set-up of the hardware and the refresh interrupt *)

Lemma pulled_up_or_driven (m p : Z) :
  Z.lor (u8 m) (u8 (Z.lor p (Z.lnot m))) = 255.
Proof.
  apply Z.bits_inj'. intros n Hn.
  rewrite Z.lor_spec, !u8_bit, Z.lor_spec, Z.lnot_spec by lia.
  change 255 with (Z.ones 8). rewrite Z.testbit_ones by lia.
  destruct (Z.leb_spec 0 n); [|lia].
  destruct (n <? 8), (Z.testbit m n), (Z.testbit p n); reflexivity.
Qed.

Lemma driven_pins_kept (m p : Z) :
  is_byte p ->
  Z.land (u8 (Z.lor p (Z.lnot m))) (u8 m) = Z.land p (u8 m).
Proof.
  intros Hp. apply Z.bits_inj'. intros n Hn.
  rewrite !Z.land_spec, !u8_bit, Z.lor_spec, Z.lnot_spec by lia.
  destruct (Z.ltb_spec n 8).
  - destruct (Z.testbit m n), (Z.testbit p n); reflexivity.
  - rewrite (byte_high_bits p n Hp) by lia. reflexivity.
Qed.

Section HardwareClaims.

Context {cfg : Config} {brd : Board}.

(** X18: after InitHardware no pin floats: in each of the ports B, C and D
    every pin is an output (its DDR bit is set) or has its pull-up switched
    on (its PORT bit is set); the PORT bits of the output pins are what they
    were; and both compare registers hold their cycle time. *)
Theorem InitHardware_no_floating_pin (p : ports) (s : machine) :
  is_byte (PORTB p) -> is_byte (PORTC p) -> is_byte (PORTD p) ->
  let p' := fst (InitHardware p s) in
  Z.lor (DDRB p') (PORTB p') = 255
  /\ Z.lor (DDRC p') (PORTC p') = 255
  /\ Z.lor (DDRD p') (PORTD p') = 255
  /\ Z.land (PORTB p') (DDRB p') = Z.land (PORTB p) (DDRB p')
  /\ Z.land (PORTC p') (DDRC p') = Z.land (PORTC p) (DDRC p')
  /\ Z.land (PORTD p') (DDRD p') = Z.land (PORTD p) (DDRD p')
  /\ OCR0A p' = u8 OCR0A_CYCLE_TIME
  /\ OCR0B (snd (InitHardware p s)) = u8 OCR0B_CYCLE_TIME.
Proof.
  intros Hb Hc Hd p'. unfold p', InitHardware. cbv zeta.
  cbn [fst snd DDRB DDRC DDRD PORTB PORTC PORTD OCR0A].
  repeat split; try apply pulled_up_or_driven;
    try (apply driven_pins_kept; assumption).
Qed.

Lemma ISR_TIMER0_COMPA_step (p : ports) :
  OCR0A (ISR_TIMER0_COMPA p) = u8 (OCR0A p + OCR0A_CYCLE_TIME)
  /\ refreshes (ISR_TIMER0_COMPA p) = refreshes p ++ [dmDisplay]
  /\ DDRB (ISR_TIMER0_COMPA p) = DDRB p /\ DDRC (ISR_TIMER0_COMPA p) = DDRC p
  /\ DDRD (ISR_TIMER0_COMPA p) = DDRD p
  /\ PORTB (ISR_TIMER0_COMPA p) = PORTB p
  /\ PORTC (ISR_TIMER0_COMPA p) = PORTC p
  /\ PORTD (ISR_TIMER0_COMPA p) = PORTD p.
Proof. repeat split; reflexivity. Qed.

(** X19: the refresh interrupt re-arms itself relative to its own compare
    value: after n interrupts OCR0A is the start value plus n times
    OCR0A_CYCLE_TIME modulo 256, the display driver has been called exactly
    n more times, and the port registers are untouched. *)
Theorem run_refresh_rearms (n : nat) :
  forall p : ports,
    is_byte (OCR0A p) ->
    OCR0A (run_refresh n p) = u8 (OCR0A p + Z.of_nat n * OCR0A_CYCLE_TIME)
    /\ refreshes (run_refresh n p) = refreshes p ++ repeat dmDisplay n
    /\ DDRB (run_refresh n p) = DDRB p /\ DDRC (run_refresh n p) = DDRC p
    /\ DDRD (run_refresh n p) = DDRD p
    /\ PORTB (run_refresh n p) = PORTB p
    /\ PORTC (run_refresh n p) = PORTC p
    /\ PORTD (run_refresh n p) = PORTD p.
Proof.
  induction n as [|n IH]; intros p Ho.
  - simpl. rewrite Z.add_0_r, u8_small by exact Ho.
    repeat split; try reflexivity. symmetry. apply app_nil_r.
  - simpl run_refresh.
    destruct (ISR_TIMER0_COMPA_step p)
      as (H1 & H2 & H3 & H4 & H5 & H6 & H7 & H8).
    destruct (IH (ISR_TIMER0_COMPA p))
      as (I1 & I2 & I3 & I4 & I5 & I6 & I7 & I8);
      [rewrite H1; apply u8_range|].
    rewrite I1, I2, I3, I4, I5, I6, I7, I8, H1, H2, H3, H4, H5, H6, H7, H8.
    repeat split; try reflexivity.
    + unfold u8. rewrite Z.add_mod_idemp_l by lia. f_equal. lia.
    + rewrite <- app_assoc. reflexivity.
Qed.

End HardwareClaims.

(** ** The scroll speed a message sets *)

Section SpeedOfMessage.

Context {cfg : Config} {tbl : Tables}.
Variable ee : eeprom.

(** X20: the speed index of a message sets the scroll period.  After a call
    of DisplayMessage that returned, the scroll countdown is where it was,
    and the timer interrupt issues scroll steps with the entry of spd_conv
    under bits 2-0 of the mode byte as the speed s: none in the first t
    ticks, t being the countdown, and then one every s + 1 ticks. *)
Theorem scroll_period_after_message (fuel : nat) (c r : Z) (s s' : machine)
        (pins : list Z) :
  DisplayMessage fuel ee c s = Ok (r, s') ->
  0 <= scroll_timer s ->
  exists e : Z,
    nth_error spd_conv (Z.to_nat (Z.land (eeprom_read_byte ee c) 7)) = Some e
    /\ scroll_timer s' = scroll_timer s
    /\ scroll_steps (scroll_trace pins s')
         = if Z.of_nat (length pins) <=? scroll_timer s then 0
           else (Z.of_nat (length pins) - scroll_timer s - 1)
                  / (u8 e + 1) + 1.
Proof.
  intros Hrun Ht.
  apply DisplayMessage_Ok_inv in Hrun.
  destruct Hrun as ((_ & _ & Htimer & _) & (e & He & Hsp) & _).
  exists e. split; [exact He|]. split; [exact Htimer|].
  rewrite scroll_steps_closed_form.
  - rewrite Htimer, Hsp. reflexivity.
  - rewrite Htimer. exact Ht.
  - rewrite Hsp. apply u8_range.
Qed.

End SpeedOfMessage.

(** * The further properties at concrete inputs *)

Lemma DisplayMessage_touches_display_only_witness :
  display_only (@reset_state sample_config) sample_played.
Proof.
  apply (@DisplayMessage_touches_display_only sample_tables
           (image [5; 65; 0; 0]) 2%nat 0 0 (@reset_state sample_config)
           sample_played).
  vm_compute. reflexivity.
Defined.

Lemma DisplayMessage_never_returns_sentinel_witness :
  3 = @messages sample_tables
  \/ eeprom_read_byte (image [5; 65; 0; 5; 66; 0; 0]) 3 <> 0.
Proof.
  apply (@DisplayMessage_never_returns_sentinel sample_tables
           (image [5; 65; 0; 5; 66; 0; 0]) 2%nat 0 3
           (@reset_state sample_config) sample_played).
  vm_compute. reflexivity.
Defined.

Lemma DisplayMessage_without_terminator_witness :
  @DisplayMessage sample_tables 1000 erased 0 (@reset_state sample_config)
    = OutOfFuel.
Proof.
  apply (@DisplayMessage_without_terminator sample_tables erased 1000%nat 0
           (@reset_state sample_config) eq_refl eq_refl).
  intros a. vm_compute. discriminate.
Defined.

Lemma SetMode_out_of_bounds_iff_witness :
  @SetMode short_tables 112 (@reset_state sample_config) = OutOfBounds.
Proof.
  apply (proj1 (@SetMode_out_of_bounds_iff short_tables 112
                  (@reset_state sample_config))).
  left. simpl. lia.
Defined.

Lemma play_through_store_witness :
  exists s' : machine,
    @play sample_tables 2 2 (image [5; 65; 0; 5; 66; 0; 0])
      (@message_address sample_tables []) (@reset_state sample_config)
      = Ok (@messages sample_tables, s').
Proof.
  destruct (@play_through_store sample_tables
              (image [5; 65; 0; 5; 66; 0; 0]) eq_refl eq_refl
              (conj (Z.le_refl 0) eq_refl)
              [(5, [Plain 65]); (5, [Plain 66])] [] [] 2%nat
              (@reset_state sample_config))
    as (s' & Hrun & _).
  - discriminate.
  - repeat constructor; unfold is_byte, ch_tilde, ch_caret; simpl; lia.
  - vm_compute. repeat split; reflexivity.
  - repeat constructor.
  - exists s'. exact Hrun.
Defined.

Lemma run_ticks_uint8_witness :
  uint8_state
    (@run_ticks sample_config [254; 254; 255] (@reset_state sample_config)).
Proof.
  apply (@run_ticks_uint8 sample_config [254; 254; 255]
           (@reset_state sample_config)).
  unfold uint8_state, is_byte. simpl. lia.
Defined.

Lemma run_ticks_frame_witness :
  OCR0B (@run_ticks sample_config [254; 254; 255] (@reset_state sample_config))
    = u8 (OCR0B (@reset_state sample_config)
          + Z.of_nat (length [254; 254; 255])
            * @OCR0B_CYCLE_TIME sample_config).
Proof.
  apply (@run_ticks_frame sample_config [254; 254; 255]
           (@reset_state sample_config)).
  unfold is_byte. simpl. lia.
Defined.

Lemma scroll_steps_in_ticks_witness :
  scroll_steps
    (@scroll_trace sample_config [255; 255; 255; 255; 255; 255; 255]
       (set_scroll_speed 2 (@reset_state sample_config)))
    = 2.
Proof.
  rewrite (@scroll_steps_in_ticks sample_config
             [255; 255; 255; 255; 255; 255; 255]
             (set_scroll_speed 2 (@reset_state sample_config)));
    [reflexivity | simpl; lia | simpl; lia].
Defined.

Lemma not_pressed_iff_masked_pins_high_witness :
  @not_pressed sample_config 255
  <-> Z.land 255 (@PB_MASK sample_config) = @PB_MASK sample_config.
Proof.
  apply (@not_pressed_iff_masked_pins_high sample_config 255).
  unfold is_byte. simpl. lia.
Defined.

Lemma acknowledged_longpress_is_silent_witness :
  @button_trace sample_config ([254; 254] ++ [255])
    (set_button 131 (@reset_state sample_config))
    = repeat (@acked_longpress sample_config) (length [254; 254])
      ++ repeat (@after_longpress sample_config) (length [255]).
Proof.
  apply (@acknowledged_longpress_is_silent sample_config sample_config_ok
           [254; 254] [255] (set_button 131 (@reset_state sample_config))).
  - discriminate.
  - reflexivity.
  - repeat constructor; discriminate.
  - repeat constructor.
  - discriminate.
Defined.

Lemma GoToSleep_returns_disarmed_witness :
  timers_kept (@reset_state sample_config) sample_woken
  /\ PCICR sample_woken = 0.
Proof.
  destruct (@GoToSleep_returns_disarmed sample_tables (image [5; 65; 0; 0])
              2%nat tt (@reset_state sample_config) sample_woken)
    as (Ht & Hp & _).
  - vm_compute. reflexivity.
  - split; [exact Ht | exact Hp].
Defined.

Lemma main_loop_pass_plays_one_message_witness :
  exists s' : machine,
    @main_loop_pass_reads sample_config sample_tables 2 (image [5; 65; 0; 0])
      (@PB_RELEASE sample_config) 1 128 0 (@reset_state sample_config)
      = Ok (tt, s')
    /\ button s' = u8 (Z.lor 1 (@PB_ACK sample_config)).
Proof.
  destruct (@main_loop_pass_plays_one_message sample_config sample_tables
              (image [5; 65; 0; 0]) sample_config_ok eq_refl eq_refl
              5 [Plain 65] 2%nat (@reset_state sample_config) 1 128 0)
    as (s' & Hrun & _ & _ & Hb & _).
  - discriminate.
  - reflexivity.
  - discriminate.
  - repeat constructor; unfold is_byte, ch_tilde, ch_caret; lia.
  - vm_compute. repeat split; reflexivity.
  - simpl. lia.
  - exists s'. split; [exact Hrun | exact Hb].
Defined.

Lemma main_loop_pass_goes_to_sleep_witness :
  exists s' : machine,
    @main_loop_pass_reads sample_config sample_tables 2 (image [5; 65; 0; 0])
      128 0 (@PB_LONGPRESS sample_config) 1 (@reset_state sample_config)
      = Ok (tt, s')
    /\ button s' = u8 (Z.lor 1 (@PB_ACK sample_config)).
Proof.
  destruct (@main_loop_pass_goes_to_sleep sample_config sample_tables
              (image [5; 65; 0; 0]) sample_config_ok eq_refl eq_refl
              5 [Plain 65] 2%nat (@reset_state sample_config) 128 0 1)
    as (s' & Hrun & _ & _ & _ & Hb & _).
  - discriminate.
  - reflexivity.
  - discriminate.
  - repeat constructor; unfold is_byte, ch_tilde, ch_caret; lia.
  - vm_compute. repeat split; reflexivity.
  - simpl. lia.
  - exists s'. split; [exact Hrun | exact Hb].
Defined.

Lemma one_click_plays_one_message_witness :
  exists (s' : machine) (k : nat),
    @main_loop_pass sample_config sample_tables 2 (image [5; 65; 0; 0])
      (@run_ticks sample_config [254; 255] (@reset_state sample_config))
      = Ok (tt, s')
    /\ (k <= 2)%nat.
Proof.
  destruct (@one_click_plays_one_message sample_config sample_tables
              (image [5; 65; 0; 0]) sample_config_ok eq_refl eq_refl
              254 255 5 [Plain 65] 2%nat (@reset_state sample_config))
    as (s' & k & Hrun & _ & _ & _ & Hk).
  - reflexivity.
  - discriminate.
  - reflexivity.
  - repeat constructor; unfold is_byte, ch_tilde, ch_caret; lia.
  - vm_compute. repeat split; reflexivity.
  - simpl. lia.
  - exists s', k. split; [exact Hrun | exact Hk].
Defined.

Lemma main_start_discards_pending_event_witness :
  exists s' : machine,
    @main_start sample_config sample_tables 2 (image [5; 65; 0; 0]) 1
      (@reset_state sample_config) = Ok (tt, s')
    /\ button s' <> @PB_RELEASE sample_config.
Proof.
  destruct (@main_start_discards_pending_event sample_config sample_tables
              (image [5; 65; 0; 0]) sample_config_ok eq_refl eq_refl
              5 [Plain 65] 2%nat (@reset_state sample_config) 1)
    as (s' & Hrun & _ & _ & _ & _ & _ & Hb & _).
  - discriminate.
  - reflexivity.
  - repeat constructor; unfold is_byte, ch_tilde, ch_caret; lia.
  - vm_compute. repeat split; reflexivity.
  - simpl. lia.
  - exists s'. split; [exact Hrun | exact Hb].
Defined.

Lemma clicks_are_not_queued_witness :
  button
    (@run_ticks sample_config
       (press_samples [([254; 254], [255]); ([254], [255; 255])])
       (@reset_state sample_config))
    = @PB_RELEASE sample_config.
Proof.
  apply (@clicks_are_not_queued sample_config sample_config_ok
           [([254; 254], [255]); ([254], [255; 255])]
           (@reset_state sample_config)).
  - discriminate.
  - repeat constructor; simpl; try discriminate; try lia.
  - reflexivity.
Defined.

Lemma swap_exchanges_nibbles_witness : swap (swap 165) = 165.
Proof.
  apply (swap_exchanges_nibbles 165). unfold is_byte. lia.
Defined.

Lemma InitHardware_no_floating_pin_witness :
  Z.lor (DDRB (fst (@InitHardware sample_config sample_board sample_ports
                      (@reset_state sample_config))))
        (PORTB (fst (@InitHardware sample_config sample_board sample_ports
                       (@reset_state sample_config))))
    = 255.
Proof.
  apply (@InitHardware_no_floating_pin sample_config sample_board sample_ports
           (@reset_state sample_config));
    unfold is_byte; simpl; lia.
Defined.

Lemma run_refresh_rearms_witness :
  OCR0A (@run_refresh sample_board 40 sample_ports)
    = u8 (OCR0A sample_ports
          + Z.of_nat 40 * @OCR0A_CYCLE_TIME sample_board).
Proof.
  apply (@run_refresh_rearms sample_board 40 sample_ports).
  unfold is_byte. simpl. lia.
Defined.

Lemma scroll_period_after_message_witness :
  scroll_steps (@scroll_trace sample_config (repeat 255 24) sample_played) = 3.
Proof.
  destruct (@scroll_period_after_message sample_config sample_tables
              (image [5; 65; 0; 0]) 2%nat 0 0 (@reset_state sample_config)
              sample_played (repeat 255 24))
    as (e & He & _ & Hsteps).
  - vm_compute. reflexivity.
  - simpl. lia.
  - rewrite Hsteps. vm_compute in He. inversion He. subst e. reflexivity.
Defined.
